(** * Robust anomaly detection ([anomalias.py]): model and properties

    The module scores hourly readings of energy, water and CO2 against the
    history of the same hour of the day.  It has a batch path (module-level
    pandas code, sections 1 to 6 of part 1) and an event path
    ([detectar_anomalia_evento], used by the chatbot through
    [respuesta_chatbot]).

    Numbers.  The program computes with IEEE binary64 values.  Here a finite
    value is an exact rational ([Q]) and the not-a-number sentinel is kept as
    a value of its own ([NaN]): rounding and overflow are abstracted away,
    the propagation of NaN and the fact that every ordered comparison with
    NaN is false are not.  [np.log1p] is transcendental, so its results live
    in the real numbers ([real_ext]).  Rational results are stated up to
    [==] ([Qeq]).  Where a property depends on the rounding itself (which
    of two scores written in two orders of operations is the smaller), the
    lines are evaluated on binary64 values, in module [Binary64]. *)

From stdpp Require Import gmap strings.
From Stdlib Require Import ZArith QArith Qround Qabs Reals Qreals Lra Lqa Lia List String Sorted.
From Corelib Require PrimFloat.
Import ListNotations.

Open Scope string_scope.
Open Scope Q_scope.

(** ** Floating-point values *)

Module Float.

(** A binary64 value: finite (idealised as a rational) or NaN. *)
Inductive num : Type :=
| Fin (q : Q)
| NaN.

Definition Qlt_bool (a b : Q) : bool := negb (Qle_bool b a).

Definition lift2 (f : Q -> Q -> Q) (x y : num) : num :=
  match x, y with
  | Fin a, Fin b => Fin (f a b)
  | _, _ => NaN
  end.

Definition add : num -> num -> num := lift2 Qplus.
Definition sub : num -> num -> num := lift2 Qminus.
Definition mul : num -> num -> num := lift2 Qmult.

(** Division.  A zero divisor gives an infinity or NaN in IEEE arithmetic;
    the model has no infinities and answers NaN there.  Lemmas
    [denominador_positivo] and [batch_denominador] show that no division of
    the program meets a zero divisor.  A quotient beyond the range of
    binary64 (about [1.8e308]) is an infinity in IEEE arithmetic and a
    rational here: a statement that says a quotient is finite bounds its
    operands. *)
Definition div (x y : num) : num :=
  match x, y with
  | Fin a, Fin b => if Qeq_bool b 0 then NaN else Fin (a / b)
  | _, _ => NaN
  end.

Definition abs (x : num) : num :=
  match x with
  | Fin a => Fin (Qabs a)
  | NaN => NaN
  end.

(** [x < y]: false as soon as one side is NaN. *)
Definition ltb (x y : num) : bool :=
  match x, y with
  | Fin a, Fin b => Qlt_bool a b
  | _, _ => false
  end.

(** [x > y] *)
Definition gtb (x y : num) : bool := ltb y x.

Definition is_nan (x : num) : bool :=
  match x with
  | NaN => true
  | Fin _ => false
  end.

(** Equality of values: rational equality on finite values. *)
Definition eq (x y : num) : Prop :=
  match x, y with
  | Fin a, Fin b => a == b
  | NaN, NaN => True
  | _, _ => False
  end.

(** Order on values, for statements: it holds between finite values only. *)
Definition le (x y : num) : Prop :=
  match x, y with
  | Fin a, Fin b => a <= b
  | _, _ => False
  end.

Definition lt (x y : num) : Prop :=
  match x, y with
  | Fin a, Fin b => a < b
  | _, _ => False
  end.

(** Results of [np.log1p]: a real number, minus infinity, or NaN. *)
Inductive real_ext : Type :=
| RFin (r : R)
| RNegInf
| RNaN.

(** [np.log1p]: [log(1 + x)]; minus infinity at [-1], NaN below [-1] and
    on NaN. *)
Definition log1p (x : num) : real_ext :=
  match x with
  | NaN => RNaN
  | Fin q =>
      if Qlt_bool (-1) q then RFin (ln (1 + Q2R q))
      else if Qeq_bool q (-1) then RNegInf
      else RNaN
  end.

(** Order and equality on results of [log1p], as [rank] needs them: NaN
    compares with nothing. *)
Definition rltb (a b : real_ext) : bool :=
  match a, b with
  | RFin x, RFin y => if Rlt_dec x y then true else false
  | RNegInf, RFin _ => true
  | _, _ => false
  end.

Definition reqb (a b : real_ext) : bool :=
  match a, b with
  | RFin x, RFin y => if Req_dec_T x y then true else false
  | RNegInf, RNegInf => true
  | _, _ => false
  end.

Definition r_is_nan (a : real_ext) : bool :=
  match a with
  | RNaN => true
  | _ => false
  end.

(** Nearest integer, ties to the even one (the rounding of [round] and
    [np.round]). *)
Definition rint (q : Q) : Z :=
  let n := Qfloor q in
  let f := q - inject_Z n in
  if Qlt_bool f (1 # 2) then n
  else if Qlt_bool (1 # 2) f then (n + 1)%Z
  else if Z.even n then n else (n + 1)%Z.

(** [round(x, 2)] on a rational value. *)
Definition round2 (x : num) : num :=
  match x with
  | Fin q => Fin (inject_Z (rint (q * 100)) / 100)
  | NaN => NaN
  end.

Definition rint_R (r : R) : Z :=
  let n := Int_part r in
  let f := frac_part r in
  if Rlt_dec f (1 / 2) then n
  else if Rlt_dec (1 / 2) f then (n + 1)%Z
  else if Z.even n then n else (n + 1)%Z.

(** [round(x, 2)] on a result of [log1p]. *)
Definition round2_R (y : real_ext) : real_ext :=
  match y with
  | RFin r => RFin (IZR (rint_R (r * 100)) / 100)
  | RNegInf => RNegInf
  | RNaN => RNaN
  end.

End Float.

Abbreviation num := Float.num.
Abbreviation Fin := Float.Fin.
Abbreviation NaN := Float.NaN.
Infix "=f=" := Float.eq (at level 70, no associativity).

(** ** The pandas statistics used by the module *)

Module Pandas.

Fixpoint insertar (x : Q) (l : list Q) : list Q :=
  match l with
  | [] => [x]
  | y :: t => if Qle_bool x y then x :: y :: t else y :: insertar x t
  end.

(** The values of a series in increasing order. *)
Definition ordenar (l : list Q) : list Q := fold_right insertar [] l.

(** [Series.median()]: the middle value, or the mean of the two middle
    values; NaN on an empty series. *)
Definition median (serie : list Q) : num :=
  let v := ordenar serie in
  let n := List.length v in
  match n with
  | O => NaN
  | _ =>
      if Nat.even n
      then Fin ((nth (n / 2 - 1) v 0 + nth (n / 2) v 0) / 2)
      else Fin (nth (n / 2) v 0)
  end.

(** Linear interpolation at the fractional position [h] of the sorted
    values [v]: between [v[floor h]] and its right neighbour (the last value
    has none and is its own neighbour). *)
Definition interpolar (v : list Q) (h : Q) : Q :=
  let i := Z.to_nat (Qfloor h) in
  let g := h - inject_Z (Qfloor h) in
  let lo := nth i v 0 in
  let hi := nth (Nat.min (i + 1) (List.length v - 1)) v 0 in
  lo + g * (hi - lo).

(** [Series.quantile(p)] with the default linear interpolation: position
    [h = (n - 1) * p] in the sorted values; NaN on an empty series. *)
Definition quantile (p : Q) (serie : list Q) : num :=
  let v := ordenar serie in
  let n := List.length v in
  match n with
  | O => NaN
  | _ => Fin (interpolar v (inject_Z (Z.of_nat (n - 1)) * p))
  end.

(** [Series.mean()] of a boolean series: the fraction of [True]. *)
Definition mean_bool (l : list bool) : num :=
  match l with
  | [] => NaN
  | _ => Fin (inject_Z (Z.of_nat (List.length (filter (fun b => b) l)))
              / inject_Z (Z.of_nat (List.length l)))
  end.

End Pandas.

(** ** Python values, exceptions and dictionaries *)

Module Py.

(** What a caller can pass as a signal value: a number (an int or a float,
    NaN included), [None], or a string. *)
Inductive obj : Type :=
| Float (x : num)
| None_
| Str (s : string).

Inductive excepcion : Type :=
| TypeError
| KeyError (clave : string).

(** A computation that returns a value or raises. *)
Inductive result (A : Type) : Type :=
| Return (a : A)
| Raise (e : excepcion).
Arguments Return {A} a.
Arguments Raise {A} e.

Definition bind {A B : Type} (m : result A) (k : A -> result B) : result B :=
  match m with
  | Return a => k a
  | Raise e => Raise e
  end.

Definition raises {A : Type} (m : result A) : Prop :=
  match m with
  | Raise _ => True
  | Return _ => False
  end.

(** A signal value that is missing or not a number: [None] or a string. *)
Definition no_numerico (o : obj) : Prop :=
  match o with
  | Float _ => False
  | None_ | Str _ => True
  end.

(** A number that is NaN. *)
Definition es_nan (o : obj) : Prop :=
  match o with
  | Float x => Float.is_nan x = true
  | _ => False
  end.

Definition es_numero (o : obj) : Prop :=
  match o with
  | Float _ => True
  | _ => False
  end.

(** [valor - med] with a numpy float on the right: arithmetic on numbers,
    [TypeError] on [None] and on a string. *)
Definition sub (valor : obj) (med : num) : result num :=
  match valor with
  | Float x => Return (Float.sub x med)
  | None_ | Str _ => Raise TypeError
  end.

(** The values stored in the result dictionary. *)
Inductive valor : Type :=
| VStr (s : string)
| VFloat (x : num)
| VLog (y : Float.real_ext)
| VList (l : list string).

(** [d[k]] *)
Definition getitem (d : gmap string valor) (k : string) : result valor :=
  match d !! k with
  | Some v => Return v
  | None => Raise (KeyError k)
  end.

(** [v == s] for a string literal [s] *)
Definition eq_str (v : valor) (s : string) : bool :=
  match v with
  | VStr t => String.eqb t s
  | _ => false
  end.

(** A byte that continues a character in UTF-8: [10xxxxxx]. *)
Definition es_continuacion (c : Ascii.ascii) : bool :=
  match c with
  | Ascii.Ascii _ _ _ _ _ _ false true => true
  | _ => false
  end.

(** The characters of a string.  A string is kept as its UTF-8 bytes, a
    Python [str] is a sequence of characters: a character is a leading byte
    with the continuation bytes that follow it. *)
Fixpoint caracteres (s : string) : list string :=
  match s with
  | EmptyString => []
  | String c t =>
      match t with
      | String c' _ =>
          if es_continuacion c'
          then match caracteres t with
               | h :: r => String c h :: r
               | [] => [String c EmptyString]
               end
          else String c EmptyString :: caracteres t
      | EmptyString => [String c EmptyString]
      end
  end.

(** [sep.join(v)]: the strings of a list, or the characters of a string,
    with [sep] between them; a number is not iterable: [TypeError]. *)
Definition join (sep : string) (v : valor) : result string :=
  match v with
  | VList l => Return (String.concat sep l)
  | VStr s => Return (String.concat sep (caracteres s))
  | _ => Raise TypeError
  end.

(** A formatted string, kept as its pieces: literal text and interpolated
    values. *)
Inductive trozo : Type :=
| Texto (s : string)
| Interp (v : valor).

End Py.

Notation "'try' x <- m 'in' k" := (Py.bind m (fun x => k))
  (at level 10, x name, m at level 100, k at level 200).

(** ** The reference table *)

(** One row of the historical table: the columns the module reads. *)
Record fila : Type := Fila {
  r_timestamp : string;
  r_hora : Z;
  r_consumo_kwh : Q;
  r_agua_litros : Q;
  r_co2_kg : Q
}.

Definition DataFrame : Type := list fila.

(** [1e-6] *)
Definition eps : Q := 1 # 1000000.

(** ** Part 2: the event path *)

Module Evento.

(** [df_ref[df_ref['hora'] == hora]] *)
Definition contexto (df_ref : DataFrame) (hora : Z) : DataFrame :=
  filter (fun r => (r_hora r =? hora)%Z) df_ref.

(** The spread of a series plus the guard: [iqr + 1e-6]. *)
Definition denominador (serie : list Q) : num :=
  Float.add (Float.sub (Pandas.quantile (3 # 4) serie) (Pandas.quantile (1 # 4) serie))
            (Fin eps).

(** The nested function [score_robusto(valor, serie)]:
    [abs(valor - med) / (iqr + 1e-6)]. *)
Definition score_robusto (valor : Py.obj) (serie : list Q) : Py.result num :=
  let med := Pandas.median serie in
  let iqr := Float.sub (Pandas.quantile (3 # 4) serie) (Pandas.quantile (1 # 4) serie) in
  try d <- Py.sub valor med in
  Py.Return (Float.div (Float.abs d) (Float.add iqr (Fin eps))).

(** [0.4 * z_consumo + 0.35 * z_agua + 0.25 * z_co2] *)
Definition score_raw (z_consumo z_agua z_co2 : num) : num :=
  Float.add (Float.add (Float.mul (Fin (4 # 10)) z_consumo)
                       (Float.mul (Fin (35 # 100)) z_agua))
            (Float.mul (Fin (25 # 100)) z_co2).

(** One term of [scores_hist], as the source writes it:
    [w * abs(col - col.median()) / (col.quantile(0.75) - col.quantile(0.25) + 1e-6)],
    that is [(w * abs(...)) / (...)]. *)
Definition termino_hist (w : Q) (x : Q) (col : list Q) : num :=
  Float.div
    (Float.mul (Fin w) (Float.abs (Float.sub (Fin x) (Pandas.median col))))
    (Float.add (Float.sub (Pandas.quantile (3 # 4) col) (Pandas.quantile (1 # 4) col))
               (Fin eps)).

(** [scores_hist]: the weighted score of every row of the context.  Each
    term multiplies by the weight before dividing, where the candidate's
    score divides first: equal rationals (lemma [scores_hist_fila]), not
    always equal binary64 values (module [Binary64]). *)
Definition scores_hist (contexto : DataFrame) : list num :=
  map (fun r =>
         Float.add
           (Float.add
              (termino_hist (4 # 10) (r_consumo_kwh r) (map r_consumo_kwh contexto))
              (termino_hist (35 # 100) (r_agua_litros r) (map r_agua_litros contexto)))
           (termino_hist (25 # 100) (r_co2_kg r) (map r_co2_kg contexto)))
      contexto.

(** [(scores_hist < score_raw).mean()] *)
Definition percentil (contexto : DataFrame) (score_raw : num) : num :=
  Pandas.mean_bool (map (fun s => Float.ltb s score_raw) (scores_hist contexto)).

(** The inlined threshold test of the event path. *)
Definition nivel (percentil : num) : string :=
  if Float.ltb percentil (Fin (90 # 100)) then "Normal"
  else if Float.ltb percentil (Fin (97 # 100)) then "Alerta"
  else "Crítica".

Definition causa_consumo : string := "consumo energético inusualmente alto".
Definition causa_agua : string := "consumo de agua fuera de lo normal".
Definition causa_co2 : string := "emisiones de CO₂ elevadas".
Definition causa_combinada : string := "comportamiento combinado atípico".

(** The list [causas]: one entry per signal whose z-score is above 3, in
    the order energy, water, CO2; the combined cause when it is empty. *)
Definition causas (z_consumo z_agua z_co2 : num) : list string :=
  let causas := [] in
  let causas := if Float.gtb z_consumo (Fin 3) then (causas ++ [causa_consumo])%list else causas in
  let causas := if Float.gtb z_agua (Fin 3) then (causas ++ [causa_agua])%list else causas in
  let causas := if Float.gtb z_co2 (Fin 3) then (causas ++ [causa_co2])%list else causas in
  match causas with
  | [] => (causas ++ [causa_combinada])%list
  | _ => causas
  end.

Definition mensaje_insuficiente : string :=
  "No hay suficientes datos históricos para evaluar anomalías.".

(** The dictionary returned when the context is too small. *)
Definition resultado_insuficiente : gmap string Py.valor :=
  <["nivel" := Py.VStr "Normal"]>
    (<["mensaje" := Py.VStr mensaje_insuficiente]> ∅).

(** The dictionary of a full classification. *)
Definition resultado_completo (timestamp : string) (nivel : string)
    (percentil : num) (score_final : Float.real_ext) (causas : list string)
    : gmap string Py.valor :=
  <["timestamp" := Py.VStr timestamp]>
    (<["nivel" := Py.VStr nivel]>
       (<["percentil" := Py.VFloat (Float.round2 (Float.mul percentil (Fin 100)))]>
          (<["score" := Py.VLog (Float.round2_R score_final)]>
             (<["explicacion" := Py.VList causas]> ∅)))).

(** The local variables of a full evaluation (lines 285 to 330 of the
    source): the three z-scores, the two scores, the percentile, the tier
    and the causes. *)
Record locales : Type := Locales {
  l_z_consumo : num;
  l_z_agua : num;
  l_z_co2 : num;
  l_score_raw : num;
  l_score_final : Float.real_ext;
  l_percentil : num;
  l_nivel : string;
  l_causas : list string
}.

(** The body of [detectar_anomalia_evento] after the size test. *)
Definition evaluar (contexto : DataFrame) (consumo_kwh agua_litros co2_kg : Py.obj)
    : Py.result locales :=
  try z_consumo <- score_robusto consumo_kwh (map r_consumo_kwh contexto) in
  try z_agua <- score_robusto agua_litros (map r_agua_litros contexto) in
  try z_co2 <- score_robusto co2_kg (map r_co2_kg contexto) in
  let score_raw := score_raw z_consumo z_agua z_co2 in
  let score_final := Float.log1p score_raw in
  let percentil := percentil contexto score_raw in
  let nivel := nivel percentil in
  let causas := causas z_consumo z_agua z_co2 in
  Py.Return (Locales z_consumo z_agua z_co2 score_raw score_final percentil nivel causas).

Definition detectar_anomalia_evento (df_ref : DataFrame) (timestamp : string)
    (hora : Z) (consumo_kwh agua_litros co2_kg : Py.obj)
    : Py.result (gmap string Py.valor) :=
  let contexto := contexto df_ref hora in
  if (List.length contexto <? 50)%nat then
    Py.Return resultado_insuficiente
  else
    try l <- evaluar contexto consumo_kwh agua_litros co2_kg in
    Py.Return (resultado_completo timestamp (l_nivel l) (l_percentil l)
                                  (l_score_final l) (l_causas l)).

End Evento.

(** ** The event path on binary64 values

    The percentile of the event path compares two scores written with the
    same formula in two orders of operations: [w * (|d| / den)] for the
    candidate (lines 282 and 290) and [(w * |d|) / den] for each historical
    reading (lines 297 to 304).  Over the rationals they are equal; in
    binary64 each operation rounds, and they can differ in the last bit.
    This module evaluates the same lines on the machine's binary64 values
    (the kernel's primitive floats: every operation is the IEEE one,
    rounded to nearest), for the properties that depend on that rounding. *)

Module Binary64.

Import PrimFloat.

(** The integers, computed by doubling: exact below [2^53]. *)
Fixpoint de_pos (p : positive) : float :=
  match p with
  | xH => one
  | xO q => (two * de_pos q)%float
  | xI q => (two * de_pos q + one)%float
  end.

Definition de_Z (z : Z) : float :=
  match z with
  | Z0 => zero
  | Zpos p => de_pos p
  | Zneg p => (- de_pos p)%float
  end.

(** The binary64 value of a decimal literal or of a table cell: the
    rational rounded to nearest (one correctly rounded division of two
    exact integers). *)
Definition de_Q (q : Q) : float := (de_Z (Qnum q) / de_pos (Qden q))%float.

Fixpoint insertar (x : float) (l : list float) : list float :=
  match l with
  | [] => [x]
  | y :: t => if (x <=? y)%float then x :: y :: t else y :: insertar x t
  end.

Definition ordenar (l : list float) : list float := fold_right insertar [] l.

(** [Series.median()] *)
Definition median (serie : list float) : float :=
  let v := ordenar serie in
  let n := List.length v in
  match n with
  | O => nan
  | _ =>
      if Nat.even n
      then ((nth (n / 2 - 1) v nan + nth (n / 2) v nan) / two)%float
      else nth (n / 2) v nan
  end.

(** [Series.quantile(p)], linear interpolation at position [(n - 1) * p];
    for [p] a quarter or three quarters the position and its fractional
    part are exact. *)
Definition quantile (p : Q) (serie : list float) : float :=
  let v := ordenar serie in
  let n := List.length v in
  match n with
  | O => nan
  | _ =>
      let h := inject_Z (Z.of_nat (n - 1)) * p in
      let i := Z.to_nat (Qfloor h) in
      let g := de_Q (h - inject_Z (Qfloor h)) in
      let lo := nth i v nan in
      let hi := nth (Nat.min (i + 1) (n - 1)) v nan in
      (lo + g * (hi - lo))%float
  end.

(** [contexto[var]] *)
Definition columna (var : fila -> Q) (contexto : DataFrame) : list float :=
  map (fun r => de_Q (var r)) contexto.

(** [score_robusto(valor, serie)]: [abs(valor - med) / (iqr + 1e-6)]. *)
Definition score_robusto (valor : float) (serie : list float) : float :=
  let med := median serie in
  let iqr := (quantile (3 # 4) serie - quantile (1 # 4) serie)%float in
  (abs (valor - med) / (iqr + de_Q eps))%float.

(** [0.4 * z_consumo + 0.35 * z_agua + 0.25 * z_co2] *)
Definition score_raw (z_consumo z_agua z_co2 : float) : float :=
  (de_Q (4 # 10) * z_consumo + de_Q (35 # 100) * z_agua
   + de_Q (25 # 100) * z_co2)%float.

(** One term of [scores_hist]: [w * abs(col - col.median()) / (col.quantile(0.75)
    - col.quantile(0.25) + 1e-6)], the product first. *)
Definition termino_hist (w : Q) (x : float) (col : list float) : float :=
  (de_Q w * abs (x - median col)
   / (quantile (3 # 4) col - quantile (1 # 4) col + de_Q eps))%float.

(** The entry of [scores_hist] of the row [r]. *)
Definition score_hist (contexto : DataFrame) (r : fila) : float :=
  (termino_hist (4 # 10) (de_Q (r_consumo_kwh r)) (columna r_consumo_kwh contexto)
   + termino_hist (35 # 100) (de_Q (r_agua_litros r)) (columna r_agua_litros contexto)
   + termino_hist (25 # 100) (de_Q (r_co2_kg r)) (columna r_co2_kg contexto))%float.

Definition scores_hist (contexto : DataFrame) : list float :=
  map (score_hist contexto) contexto.

(** [(scores_hist < score_raw).sum()] *)
Definition menores (contexto : DataFrame) (score_raw : float) : nat :=
  List.length (filter (fun s => (s <? score_raw)%float) (scores_hist contexto)).

(** [(scores_hist < score_raw).mean()] *)
Definition percentil (contexto : DataFrame) (score_raw : float) : float :=
  (de_Z (Z.of_nat (menores contexto score_raw))
   / de_Z (Z.of_nat (List.length contexto)))%float.

Definition nivel (percentil : float) : string :=
  if (percentil <? de_Q (90 # 100))%float then "Normal"
  else if (percentil <? de_Q (97 # 100))%float then "Alerta"
  else "Crítica".

(** The raw score, the percentile and the tier of a numeric candidate. *)
Record locales : Type := Locales {
  b_score_raw : float;
  b_percentil : float;
  b_nivel : string
}.

(** Lines 285 to 316 of the source, on a context of at least 50 readings. *)
Definition evaluar (contexto : DataFrame) (consumo_kwh agua_litros co2_kg : Q)
    : locales :=
  let z_consumo := score_robusto (de_Q consumo_kwh) (columna r_consumo_kwh contexto) in
  let z_agua := score_robusto (de_Q agua_litros) (columna r_agua_litros contexto) in
  let z_co2 := score_robusto (de_Q co2_kg) (columna r_co2_kg contexto) in
  let score_raw := score_raw z_consumo z_agua z_co2 in
  let percentil := percentil contexto score_raw in
  Locales score_raw percentil (nivel percentil).

End Binary64.

(** ** Part 1: the batch path *)

Module Batch.

(** [results.groupby('hora')]: the rows of hour [h]. *)
Definition grupo (results : DataFrame) (h : Z) : DataFrame :=
  filter (fun r => (r_hora r =? h)%Z) results.

(** [.replace(0, np.nan)] *)
Definition replace_0_nan (x : num) : num :=
  match x with
  | Fin q => if Qeq_bool q 0 then NaN else Fin q
  | NaN => NaN
  end.

(** The spread of a group as the loop computes it:
    [iqr = (q75 - q25).replace(0, np.nan)]. *)
Definition iqr (serie : list Q) : num :=
  replace_0_nan
    (Float.sub (Pandas.quantile (3 # 4) serie) (Pandas.quantile (1 # 4) serie)).

(** The column [results[f'{var}_z']] at row [r]:
    [np.abs(results[var] - mediana) / (iqr + 1e-6)], the statistics being
    those of the rows of the same hour ([transform]). *)
Definition z (var : fila -> Q) (results : DataFrame) (r : fila) : num :=
  let serie := map var (grupo results (r_hora r)) in
  let mediana := Pandas.median serie in
  Float.div (Float.abs (Float.sub (Fin (var r)) mediana))
            (Float.add (iqr serie) (Fin eps)).

(** [results['anomalia_score_raw']] *)
Definition anomalia_score_raw (results : DataFrame) (r : fila) : num :=
  Float.add
    (Float.add (Float.mul (Fin (4 # 10)) (z r_consumo_kwh results r))
               (Float.mul (Fin (35 # 100)) (z r_agua_litros results r)))
    (Float.mul (Fin (25 # 100)) (z r_co2_kg results r)).

(** [results['anomalia_score']] *)
Definition anomalia_score (results : DataFrame) (r : fila) : Float.real_ext :=
  Float.log1p (anomalia_score_raw results r).

(** [rank(pct=True)] of [x] among the values of its group: the average
    rank (values below, plus half of the ties counted with [x] itself)
    over the number of values that are not NaN; NaN stays NaN. *)
Definition rank_pct (valores : list Float.real_ext) (x : Float.real_ext) : num :=
  if Float.r_is_nan x then NaN
  else
    let menores := List.length (filter (fun y => Float.rltb y x) valores) in
    let iguales := List.length (filter (fun y => Float.reqb y x) valores) in
    let validos := List.length (filter (fun y => negb (Float.r_is_nan y)) valores) in
    Fin ((inject_Z (Z.of_nat menores) + (inject_Z (Z.of_nat iguales) + 1) / 2)
         / inject_Z (Z.of_nat validos)).

(** [results['anomalia_percentil']] *)
Definition anomalia_percentil (results : DataFrame) (r : fila) : num :=
  rank_pct (map (anomalia_score results) (grupo results (r_hora r)))
           (anomalia_score results r).

Definition clasificar_anomalia (p : num) : string :=
  if Float.ltb p (Fin (90 # 100)) then "Normal"
  else if Float.ltb p (Fin (97 # 100)) then "Alerta"
  else "Crítica".

(** [results['nivel_anomalia']] *)
Definition nivel_anomalia (results : DataFrame) (r : fila) : string :=
  clasificar_anomalia (anomalia_percentil results r).

End Batch.

(** ** The chatbot answer *)

Module Chatbot.

Import Py.

Definition respuesta_chatbot (resultado : gmap string valor) : result (list trozo) :=
  try nivel <- getitem resultado "nivel" in
  if eq_str nivel "Normal" then
    try ts <- getitem resultado "timestamp" in
    Return [ Texto "✅ El consumo registrado a las "; Interp ts;
             Texto " se encuentra dentro de los valores normales para esa hora." ]
  else
    try explicacion <- getitem resultado "explicacion" in
    try causas <- join ", " explicacion in
    try nivel <- getitem resultado "nivel" in
    if eq_str nivel "Alerta" then
      try ts <- getitem resultado "timestamp" in
      try p <- getitem resultado "percentil" in
      Return [ Texto "⚠️ Atención: el evento de las "; Interp ts;
               Texto " presenta un comportamiento inusual ("; Texto causas;
               Texto "). Se encuentra en el percentil "; Interp p; Texto "." ]
    else
      try ts <- getitem resultado "timestamp" in
      try p <- getitem resultado "percentil" in
      Return [ Texto "🚨 ALERTA CRÍTICA
El evento registrado a las "; Interp ts;
               Texto " es altamente anómalo.
Motivos detectados: "; Texto causas;
               Texto ".
Nivel de severidad: percentil "; Interp p; Texto "." ].

End Chatbot.

(** ** The formulas of the specification

    Sections 4.1 and 4.2 of the specification, written over the rationals:
    the code is compared with them below. *)

Module Spec.

(** [deviation = |v - median| / (iqr + eps)] with [iqr = Q75 - Q25]. *)
Definition deviation (v median q25 q75 : Q) : Q :=
  Qabs (v - median) / ((q75 - q25) + eps).

(** [raw_score = 0.40 * deviation_energy + 0.35 * deviation_water
    + 0.25 * deviation_co2] *)
Definition raw_score (d_energy d_water d_co2 : Q) : Q :=
  (40 # 100) * d_energy + (35 # 100) * d_water + (25 # 100) * d_co2.

(** The three statistics of a series, when they are finite values. *)
Definition estadisticas (serie : list Q) (median q25 q75 : Q) : Prop :=
  Pandas.median serie = Fin median /\
  Pandas.quantile (1 # 4) serie = Fin q25 /\
  Pandas.quantile (3 # 4) serie = Fin q75.

(** The tier of a percentile, by the table of section 4.3. *)
Definition tier (p : Q) : string :=
  if Qlt_le_dec p (90 # 100) then "Normal"
  else if Qlt_le_dec p (97 # 100) then "Alerta"
  else "Crítica".

(** The raw score of a historical reading by the candidate's formula: the
    [score_raw] of the evaluation of the reading's own three values against
    the same context. *)
Definition raw_score_de_fila (contexto : DataFrame) (r : fila) : num :=
  match Evento.evaluar contexto (Py.Float (Fin (r_consumo_kwh r)))
                       (Py.Float (Fin (r_agua_litros r)))
                       (Py.Float (Fin (r_co2_kg r))) with
  | Py.Return l => Evento.l_score_raw l
  | Py.Raise _ => NaN
  end.

(** The fraction of the readings of the context whose raw score is strictly
    below [x]. *)
Definition fraccion_menores (contexto : DataFrame) (x : num) : Q :=
  inject_Z (Z.of_nat (List.length
     (filter (fun r => Float.ltb (raw_score_de_fila contexto r) x) contexto)))
  / inject_Z (Z.of_nat (List.length contexto)).

End Spec.

(** ** Tables used as examples *)

Module Ejemplos.

(** [n] readings at noon: energy [1 .. n], water [100 .. 100 n], CO2
    [1/2 .. n/2]. *)
Definition historia (n : nat) : DataFrame :=
  map (fun i : nat =>
         Fila "2025-06-01 12:00" 12
              (inject_Z (Z.of_nat i))
              (inject_Z (Z.of_nat (100 * i)))
              (inject_Z (Z.of_nat i) / 2))
      (seq 1 n).

(** [n] readings at three in the morning with a constant energy value and
    varying water and CO2. *)
Definition plana (n : nat) : DataFrame :=
  map (fun i : nat =>
         Fila "2025-06-01 03:00" 3
              500
              (inject_Z (Z.of_nat (100 * i)))
              (inject_Z (Z.of_nat i) / 2))
      (seq 1 n).

(** A reading at three in the morning whose energy is far from the
    constant 500 of [plana]. *)
Definition atipica : fila :=
  Fila "2025-06-02 03:00" 3 900 3000 15.

(** [atipica] and 59 readings of constant energy: the energy quartiles of
    hour 3 are equal. *)
Definition casi_plana : DataFrame := atipica :: plana 59.

End Ejemplos.

(** ** Orders used in statements *)

Module Orden.

(** The severity of a tier: Normal below Alerta below Crítica. *)
Definition rango (nivel : string) : nat :=
  if String.eqb nivel "Normal" then 0
  else if String.eqb nivel "Alerta" then 1
  else 2.

(** Order on results of [log1p]: it holds between real values only. *)
Definition rle (a b : Float.real_ext) : Prop :=
  match a, b with
  | Float.RFin x, Float.RFin y => (x <= y)%R
  | _, _ => False
  end.

End Orden.

(** ** Counting in an hour group *)

Module Rango.

(** [x == y] on values: NaN equals nothing. *)
Definition eqb (x y : num) : bool :=
  match x, y with
  | Fin a, Fin b => Qeq_bool a b
  | _, _ => false
  end.

(** The rows of the hour group of [r] whose batch raw score is strictly
    below that of [r]. *)
Definition menores (results : DataFrame) (r : fila) : nat :=
  List.length
    (filter (fun r' => Float.ltb (Batch.anomalia_score_raw results r')
                                 (Batch.anomalia_score_raw results r))
            (Batch.grupo results (r_hora r))).

(** The rows of the hour group of [r] whose batch raw score equals that of
    [r] ([r] itself among them). *)
Definition iguales (results : DataFrame) (r : fila) : nat :=
  List.length
    (filter (fun r' => eqb (Batch.anomalia_score_raw results r')
                           (Batch.anomalia_score_raw results r))
            (Batch.grupo results (r_hora r))).

End Rango.

(** ** More example tables *)

Module Ejemplos2.

(** A reading at noon far above the others in its three signals. *)
Definition pico : fila :=
  Fila "2025-06-03 12:00" 12 200 20000 100.

(** [pico] and the 59 readings of [historia 59]. *)
Definition con_pico : DataFrame := pico :: Ejemplos.historia 59.

End Ejemplos2.

(** ** Part 1, section 8: the ten most critical events *)

Module Reporte.

(** One line of [top_criticos]: the seven columns kept, in their order. *)
Record critico : Type := Critico {
  c_timestamp : string;
  c_hora : Z;
  c_consumo_kwh : Q;
  c_agua_litros : Q;
  c_anomalia_score_raw : num;
  c_anomalia_percentil : num;
  c_co2_kg : Q
}.

Definition columnas (results : DataFrame) (r : fila) : critico :=
  Critico (r_timestamp r) (r_hora r) (r_consumo_kwh r) (r_agua_litros r)
          (Batch.anomalia_score_raw results r) (Batch.anomalia_percentil results r)
          (r_co2_kg r).

(** The order of [sort_values(..., ascending=False)]: [x] may stand before
    [y] when [x >= y]; NaN stands after every number. *)
Definition antes (x y : num) : bool :=
  match x, y with
  | _, NaN => true
  | NaN, Fin _ => false
  | Fin a, Fin b => Qle_bool b a
  end.

Fixpoint insertar (key : fila -> num) (r : fila) (l : list fila) : list fila :=
  match l with
  | [] => [r]
  | s :: t => if antes (key r) (key s) then r :: s :: t else s :: insertar key r t
  end.

(** [sort_values(col, ascending=False)]: decreasing values of the column,
    NaN last.  Rows of equal value keep the order of the table here; pandas
    leaves their order to its sorting algorithm. *)
Definition sort_values_desc (key : fila -> num) (l : list fila) : list fila :=
  fold_right (insertar key) [] l.

(** [results[results['nivel_anomalia'] == 'Crítica']] *)
Definition criticas (results : DataFrame) : DataFrame :=
  filter (fun r => String.eqb (Batch.nivel_anomalia results r) "Crítica") results.

(** [top_criticos]: the critical rows by decreasing raw score, the first ten
    of them, with the seven columns. *)
Definition top_criticos (results : DataFrame) : list critico :=
  map (columnas results)
      (firstn 10 (sort_values_desc (Batch.anomalia_score_raw results) (criticas results))).

End Reporte.

(** ** Counting in a context *)

Module Conteo.

(** [(scores_hist < score_raw).sum()]: the entries of [scores_hist], the
    historical scores as lines 297 to 304 compute them, that are strictly
    below [score_raw]. *)
Definition menores (contexto : DataFrame) (score_raw : num) : nat :=
  List.length (filter (fun s => Float.ltb s score_raw) (Evento.scores_hist contexto)).

End Conteo.

(** ** Reading a formatted message *)

Module Mensaje.

(** The values interpolated in a message, in their order. *)
Fixpoint valores (m : list Py.trozo) : list Py.valor :=
  match m with
  | [] => []
  | Py.Texto _ :: t => valores t
  | Py.Interp v :: t => v :: valores t
  end.

End Mensaje.

(** * Properties *)

(** ** Facts on the number model *)

Section FloatFacts.

Lemma Qlt_bool_iff (a b : Q) : Float.Qlt_bool a b = true <-> a < b.
Proof.
  unfold Float.Qlt_bool. rewrite negb_true_iff.
  split; intros H.
  - apply Qnot_le_lt. intros Hle. apply Qle_bool_iff in Hle. congruence.
  - destruct (Qle_bool b a) eqn:E; [|reflexivity].
    apply Qle_bool_iff in E. exfalso. exact (Qlt_not_le _ _ H E).
Qed.

Lemma Qlt_bool_false_iff (a b : Q) : Float.Qlt_bool a b = false <-> b <= a.
Proof.
  unfold Float.Qlt_bool. rewrite negb_false_iff. apply Qle_bool_iff.
Qed.

Lemma ltb_Fin (a b : Q) : Float.ltb (Fin a) (Fin b) = true <-> a < b.
Proof. apply Qlt_bool_iff. Qed.

Lemma ltb_NaN_l (y : num) : Float.ltb NaN y = false.
Proof. reflexivity. Qed.

Lemma ltb_NaN_r (x : num) : Float.ltb x NaN = false.
Proof. destruct x; reflexivity. Qed.

Lemma eq_refl_num (x : num) : x =f= x.
Proof. destruct x; simpl; [reflexivity | exact I]. Qed.

(** Dividing by a positive value stays in the rationals. *)
Lemma div_Fin_pos (a b : Q) : 0 < b -> Float.div (Fin a) (Fin b) = Fin (a / b).
Proof.
  intros Hb. unfold Float.div.
  destruct (Qeq_bool b 0) eqn:E; [|reflexivity].
  apply Qeq_bool_iff in E. rewrite E in Hb. exfalso. exact (Qlt_irrefl _ Hb).
Qed.

End FloatFacts.

(** ** Facts on sorting and quantiles *)

Section PandasFacts.

Import Pandas.

Lemma insertar_length (x : Q) (l : list Q) :
  List.length (insertar x l) = S (List.length l).
Proof.
  induction l as [|y t IH]; simpl; [reflexivity|].
  destruct (Qle_bool x y); simpl; [reflexivity | now rewrite IH].
Qed.

Lemma ordenar_length (l : list Q) : List.length (ordenar l) = List.length l.
Proof.
  induction l as [|x t IH]; simpl; [reflexivity|].
  now rewrite insertar_length, IH.
Qed.

Lemma insertar_Forall (P : Q -> Prop) (x : Q) (l : list Q) :
  P x -> Forall P l -> Forall P (insertar x l).
Proof.
  intros Hx Hl. induction Hl as [|y t Hy Ht IH]; simpl.
  - constructor; [assumption | constructor].
  - destruct (Qle_bool x y).
    + constructor; [assumption|]. constructor; assumption.
    + constructor; assumption.
Qed.

Lemma insertar_sorted (x : Q) (l : list Q) :
  StronglySorted Qle l -> StronglySorted Qle (insertar x l).
Proof.
  induction 1 as [|y t Hs IH Hall]; simpl.
  - constructor; constructor.
  - destruct (Qle_bool x y) eqn:E.
    + apply Qle_bool_iff in E. constructor.
      * constructor; assumption.
      * constructor; [assumption|].
        eapply Forall_impl; [|exact Hall].
        intros z Hz. eapply Qle_trans; eassumption.
    + constructor; [assumption|].
      apply insertar_Forall; [|assumption].
      apply Qlt_le_weak, Qlt_bool_iff.
      unfold Float.Qlt_bool. now rewrite E.
Qed.

Lemma ordenar_sorted (l : list Q) : StronglySorted Qle (ordenar l).
Proof.
  induction l as [|x t IH]; simpl; [constructor|].
  now apply insertar_sorted.
Qed.

(** In a sorted list the values grow with the index. *)
Lemma sorted_nth (l : list Q) :
  StronglySorted Qle l ->
  forall i j : nat, (i <= j)%nat -> (j < List.length l)%nat ->
    nth i l 0 <= nth j l 0.
Proof.
  induction 1 as [|y t Hs IH Hall]; intros i j Hij Hj; simpl in Hj; [lia|].
  destruct i as [|i], j as [|j]; simpl; try lia.
  - apply Qle_refl.
  - rewrite Forall_forall in Hall. apply Hall, nth_In. lia.
  - apply IH; lia.
Qed.

End PandasFacts.

Section Cuantiles.

Import Pandas.

Lemma frac_bounds (h : Q) : 0 <= h - inject_Z (Qfloor h) /\ h - inject_Z (Qfloor h) < 1.
Proof.
  pose proof (Qfloor_le h) as H1. pose proof (Qlt_floor h) as H2.
  rewrite inject_Z_plus in H2. change (inject_Z 1) with 1 in H2.
  split; lra.
Qed.

Lemma floor_index (n : nat) (h : Q) :
  0 <= h -> h <= inject_Z (Z.of_nat n) -> (Z.to_nat (Qfloor h) <= n)%nat.
Proof.
  intros H0 Hn.
  apply Qfloor_resp_le in Hn. rewrite Qfloor_Z in Hn.
  apply Qfloor_resp_le in H0. change 0 with (inject_Z 0) in H0. rewrite Qfloor_Z in H0.
  lia.
Qed.

Lemma interpolar_bounds (v : list Q) (h : Q) :
  StronglySorted Qle v -> (0 < List.length v)%nat ->
  0 <= h -> h <= inject_Z (Z.of_nat (List.length v - 1)) ->
  nth (Z.to_nat (Qfloor h)) v 0 <= interpolar v h /\
  interpolar v h <= nth (Nat.min (Z.to_nat (Qfloor h) + 1) (List.length v - 1)) v 0.
Proof.
  intros Hs Hlen H0 Hn. unfold interpolar; cbv zeta.
  pose proof (floor_index _ _ H0 Hn) as Hi.
  pose proof (frac_bounds h) as [Hg0 Hg1].
  set (i := Z.to_nat (Qfloor h)) in *.
  set (g := h - inject_Z (Qfloor h)) in *.
  assert (Hle : nth i v 0 <= nth (Nat.min (i + 1) (List.length v - 1)) v 0)
    by (apply sorted_nth; [assumption | lia | lia]).
  set (lo := nth i v 0) in *.
  set (hi := nth (Nat.min (i + 1) (List.length v - 1)) v 0) in *.
  split; nra.
Qed.

Lemma interpolar_mono (v : list Q) (h h' : Q) :
  StronglySorted Qle v -> (0 < List.length v)%nat ->
  0 <= h -> h <= h' -> h' <= inject_Z (Z.of_nat (List.length v - 1)) ->
  interpolar v h <= interpolar v h'.
Proof.
  intros Hs Hlen H0 Hhh Hn.
  assert (Hfl : (Qfloor h <= Qfloor h')%Z) by now apply Qfloor_resp_le.
  assert (H0' : 0 <= h') by lra.
  assert (Hn' : h <= inject_Z (Z.of_nat (List.length v - 1))) by lra.
  pose proof (floor_index _ _ H0' Hn) as Hi'.
  assert (Hf0 : (0 <= Qfloor h)%Z).
  { apply Qfloor_resp_le in H0. change 0 with (inject_Z 0) in H0.
    now rewrite Qfloor_Z in H0. }
  destruct (Z.eq_dec (Qfloor h) (Qfloor h')) as [E|E].
  - unfold interpolar; cbv zeta. rewrite <- E.
    set (i := Z.to_nat (Qfloor h)).
    assert (Hle : nth i v 0 <= nth (Nat.min (i + 1) (List.length v - 1)) v 0).
    { apply sorted_nth; [assumption | lia |]. subst i. rewrite E. lia. }
    set (lo := nth i v 0) in *.
    set (hi := nth (Nat.min (i + 1) (List.length v - 1)) v 0) in *.
    nra.
  - destruct (interpolar_bounds v h Hs Hlen H0 Hn') as [_ Hup].
    destruct (interpolar_bounds v h' Hs Hlen H0' Hn) as [Hlow _].
    eapply Qle_trans; [exact Hup|]. eapply Qle_trans; [|exact Hlow].
    apply sorted_nth; [assumption | lia | lia].
Qed.

(** On a non-empty series the quantile is a finite value, and it grows
    with the level. *)
Lemma quantile_Fin (p : Q) (serie : list Q) :
  serie <> [] -> exists q : Q, quantile p serie = Fin q.
Proof.
  intros Hne. unfold quantile.
  rewrite ordenar_length.
  destruct serie as [|x t]; [congruence|]. simpl List.length. eexists. reflexivity.
Qed.

Lemma quantile_mono (p p' : Q) (serie : list Q) (q q' : Q) :
  0 <= p -> p <= p' -> p' <= 1 ->
  quantile p serie = Fin q -> quantile p' serie = Fin q' -> q <= q'.
Proof.
  intros H0 Hpp H1. unfold quantile. cbv zeta.
  pose proof (ordenar_sorted serie) as Hs.
  set (v := ordenar serie) in *.
  destruct (List.length v) as [|m] eqn:El; [discriminate|].
  intros Hq Hq'. injection Hq as <-. injection Hq' as <-.
  assert (Hpos : 0 <= inject_Z (Z.of_nat (m - 0))).
  { change 0 with (inject_Z 0). rewrite <- Zle_Qle. lia. }
  assert (El' : (List.length v - 1 = m - 0)%nat) by lia.
  apply (interpolar_mono v); try assumption; try lia; try rewrite El';
    set (k := inject_Z (Z.of_nat (m - 0))) in *; nra.
Qed.

End Cuantiles.

(** ** The event path on a numeric candidate *)

Section EventoFacts.

Import Pandas Evento.

Lemma median_Fin (serie : list Q) :
  serie <> [] -> exists m : Q, median serie = Fin m.
Proof.
  intros Hne. unfold median. cbv zeta. rewrite ordenar_length.
  destruct serie as [|x t]; [congruence|]. simpl List.length.
  destruct (Nat.even (S (List.length t))); eexists; reflexivity.
Qed.

(** Every non-empty series has its three statistics, and the quartiles are
    in order. *)
Lemma estadisticas_total (serie : list Q) :
  serie <> [] ->
  exists med q25 q75 : Q, Spec.estadisticas serie med q25 q75 /\ q25 <= q75.
Proof.
  intros Hne.
  destruct (median_Fin serie Hne) as [med Hmed].
  destruct (quantile_Fin (1 # 4) serie Hne) as [q25 H25].
  destruct (quantile_Fin (3 # 4) serie Hne) as [q75 H75].
  exists med, q25, q75. split; [repeat split; assumption|].
  apply (quantile_mono (1 # 4) (3 # 4) serie); try assumption; lra.
Qed.

Lemma estadisticas_det (serie : list Q) (m m' a a' b b' : Q) :
  Spec.estadisticas serie m a b -> Spec.estadisticas serie m' a' b' ->
  m = m' /\ a = a' /\ b = b'.
Proof.
  intros (H1 & H2 & H3) (H1' & H2' & H3').
  rewrite H1 in H1'. rewrite H2 in H2'. rewrite H3 in H3'.
  injection H1' as ->. injection H2' as ->. injection H3' as ->. auto.
Qed.

(** The guarded spread is positive: no division by zero in the event
    path. *)
Lemma denominador_positivo (serie : list Q) (med q25 q75 : Q) :
  Spec.estadisticas serie med q25 q75 ->
  denominador serie = Fin ((q75 - q25) + eps) /\ 0 < (q75 - q25) + eps.
Proof.
  intros Hst. destruct Hst as (Hm & H25 & H75).
  unfold denominador. rewrite H25, H75. split; [reflexivity|].
  assert (q25 <= q75)
    by (apply (quantile_mono (1 # 4) (3 # 4) serie); try assumption; lra).
  unfold eps. lra.
Qed.

(** [score_robusto] on a finite value is the deviation of section 4.1. *)
Lemma score_robusto_Fin (v : Q) (serie : list Q) (med q25 q75 : Q) :
  Spec.estadisticas serie med q25 q75 ->
  score_robusto (Py.Float (Fin v)) serie
  = Py.Return (Fin (Spec.deviation v med q25 q75)).
Proof.
  intros Hst. destruct (denominador_positivo _ _ _ _ Hst) as [_ Hpos].
  destruct Hst as (Hm & H25 & H75).
  unfold score_robusto. cbv zeta. rewrite Hm, H25, H75. simpl.
  f_equal. apply div_Fin_pos. exact Hpos.
Qed.

Lemma deviation_nonneg (v med q25 q75 : Q) :
  q25 <= q75 -> 0 <= Spec.deviation v med q25 q75.
Proof.
  intros Hq. unfold Spec.deviation.
  apply Qle_shift_div_l; [unfold eps; lra|].
  rewrite Qmult_0_l. apply Qabs_nonneg.
Qed.

Lemma score_raw_Fin (ze za zc : Q) :
  score_raw (Fin ze) (Fin za) (Fin zc) =f= Fin (Spec.raw_score ze za zc).
Proof. simpl. unfold Spec.raw_score. lra. Qed.

Lemma raw_score_nonneg (ze za zc : Q) :
  0 <= ze -> 0 <= za -> 0 <= zc -> 0 <= Spec.raw_score ze za zc.
Proof. intros. unfold Spec.raw_score. lra. Qed.

(** [log1p] of a value above [-1] is a real number. *)
Lemma log1p_Fin (q : Q) : -1 < q -> Float.log1p (Fin q) = Float.RFin (ln (1 + Q2R q)).
Proof.
  intros Hq. unfold Float.log1p.
  apply Qlt_bool_iff in Hq. now rewrite Hq.
Qed.

Lemma log1p_eq (q q' : Q) :
  -1 < q -> q == q' -> Float.log1p (Fin q) = Float.log1p (Fin q').
Proof.
  intros Hq E. rewrite !log1p_Fin by (try rewrite <- E; assumption).
  now rewrite (Qeq_eqR _ _ E).
Qed.

Lemma log1p_0 (q : Q) : q == 0 -> Float.log1p (Fin q) = Float.RFin 0%R.
Proof.
  intros E. rewrite (log1p_eq q 0) by (try rewrite E; lra).
  rewrite log1p_Fin by lra.
  f_equal. replace (Q2R 0) with 0%R by (unfold Q2R; simpl; Lra.lra).
  rewrite Rplus_0_r. apply ln_1.
Qed.

End EventoFacts.

(** ** Rounding *)

Section Redondeo.

Lemma rint_cases (x : Q) :
  Float.rint x = Qfloor x \/ Float.rint x = (Qfloor x + 1)%Z.
Proof.
  unfold Float.rint. cbv zeta.
  destruct (Float.Qlt_bool _ _); [now left|].
  destruct (Float.Qlt_bool _ _); [now right|].
  destruct (Z.even _); [now left | now right].
Qed.

(** Rounding stays between integer bounds. *)
Lemma rint_bounds (x : Q) (n : Z) :
  0 <= x -> x <= inject_Z n -> (0 <= Float.rint x <= n)%Z.
Proof.
  intros H0 Hn.
  assert (Hf0 : (0 <= Qfloor x)%Z).
  { apply Qfloor_resp_le in H0. change 0 with (inject_Z 0) in H0.
    now rewrite Qfloor_Z in H0. }
  assert (Hfn : (Qfloor x <= n)%Z).
  { apply Qfloor_resp_le in Hn. now rewrite Qfloor_Z in Hn. }
  destruct (Z.eq_dec (Qfloor x) n) as [E|E].
  - unfold Float.rint. cbv zeta. rewrite E.
    assert (Hlt : Float.Qlt_bool (x - inject_Z n) (1 # 2) = true)
      by (apply Qlt_bool_iff; lra).
    rewrite Hlt. lia.
  - destruct (rint_cases x) as [-> | ->]; lia.
Qed.

Lemma rint_R_small (r : R) : (0 <= r < 1 / 2)%R -> Float.rint_R r = 0%Z.
Proof.
  intros [H0 H1]. unfold Float.rint_R. cbv zeta.
  assert (Hi : Int_part r = 0%Z).
  { symmetry. apply Int_part_spec. simpl. split; Lra.lra. }
  assert (Hf : frac_part r = r).
  { unfold frac_part. rewrite Hi. simpl. Lra.lra. }
  rewrite Hi, Hf. destruct (Rlt_dec r (1 / 2)); [reflexivity | contradiction].
Qed.

Lemma round2_R_small (r : R) :
  (0 <= r < 1 / 200)%R -> Float.round2_R (Float.RFin r) = Float.RFin 0%R.
Proof.
  intros [H0 H1]. unfold Float.round2_R.
  rewrite rint_R_small by (split; Lra.lra).
  f_equal. simpl. Lra.lra.
Qed.

Lemma ln_small (x : R) : (0 < x)%R -> (0 < ln (1 + x) < x)%R.
Proof.
  intros Hx. split.
  - rewrite <- ln_1. apply ln_increasing; Lra.lra.
  - rewrite <- (ln_exp x) at 2. apply ln_increasing; [Lra.lra|].
    apply exp_ineq1. Lra.lra.
Qed.

End Redondeo.

(** ** Full evaluations *)

Section Evaluacion.

Import Pandas Evento.

Lemma contexto_serie {A : Type} (col : fila -> A) (ctx : DataFrame) :
  (50 <= List.length ctx)%nat -> map col ctx <> [].
Proof. destruct ctx; simpl; [lia | discriminate]. Qed.

(** The evaluation of a numeric candidate against a context whose three
    series have their statistics: every local variable, in closed form. *)
Lemma evaluar_numerico (ctx : DataFrame) (e a c : Q)
    (me e1 e3 ma a1 a3 mc c1 c3 : Q) :
  Spec.estadisticas (map r_consumo_kwh ctx) me e1 e3 ->
  Spec.estadisticas (map r_agua_litros ctx) ma a1 a3 ->
  Spec.estadisticas (map r_co2_kg ctx) mc c1 c3 ->
  let ze := Fin (Spec.deviation e me e1 e3) in
  let za := Fin (Spec.deviation a ma a1 a3) in
  let zc := Fin (Spec.deviation c mc c1 c3) in
  let raw := score_raw ze za zc in
  evaluar ctx (Py.Float (Fin e)) (Py.Float (Fin a)) (Py.Float (Fin c))
  = Py.Return (Locales ze za zc raw (Float.log1p raw) (percentil ctx raw)
                       (nivel (percentil ctx raw)) (causas ze za zc)).
Proof.
  intros He Ha Hc. cbv zeta. unfold evaluar.
  rewrite (score_robusto_Fin e _ _ _ _ He).
  rewrite (score_robusto_Fin a _ _ _ _ Ha).
  rewrite (score_robusto_Fin c _ _ _ _ Hc).
  reflexivity.
Qed.

Lemma detectar_insuficiente (df_ref : DataFrame) (ts : string) (hora : Z)
    (consumo agua co2 : Py.obj) :
  (List.length (contexto df_ref hora) < 50)%nat ->
  detectar_anomalia_evento df_ref ts hora consumo agua co2
  = Py.Return resultado_insuficiente.
Proof.
  intros Hlt. unfold detectar_anomalia_evento. cbv zeta.
  apply Nat.ltb_lt in Hlt. now rewrite Hlt.
Qed.

Lemma detectar_suficiente (df_ref : DataFrame) (ts : string) (hora : Z)
    (consumo agua co2 : Py.obj) :
  (50 <= List.length (contexto df_ref hora))%nat ->
  detectar_anomalia_evento df_ref ts hora consumo agua co2
  = try l <- evaluar (contexto df_ref hora) consumo agua co2 in
    Py.Return (resultado_completo ts (l_nivel l) (l_percentil l)
                                  (l_score_final l) (l_causas l)).
Proof.
  intros Hge. unfold detectar_anomalia_evento. cbv zeta.
  apply Nat.ltb_ge in Hge. now rewrite Hge.
Qed.

Lemma lookup_score (ts niv : string) (p : num) (s : Float.real_ext) (cs : list string) :
  resultado_completo ts niv p s cs !! "score" = Some (Py.VLog (Float.round2_R s)).
Proof. reflexivity. Qed.

End Evaluacion.

Section C1.

Import Pandas Evento.

(** C1 (amended).  For every numeric candidate and every context of at least
    50 readings of its hour, the evaluation succeeds; each z-score is
    [|v - median| / (Q75 - Q25 + 1e-6)] over the context's series, the raw
    score is [0.40 * z_energy + 0.35 * z_water + 0.25 * z_co2], the final
    score is [log1p] of it, a real number (never minus infinity or NaN), and
    the returned ["score"] is that value rounded to two decimals; a raw
    score of 0 gives the score 0. *)
Theorem evento_score_formula (df_ref : DataFrame) (ts : string) (hora : Z) (e a c : Q) :
  (50 <= List.length (contexto df_ref hora))%nat ->
  exists (me e1 e3 ma a1 a3 mc c1 c3 : Q) (l : locales) (d : gmap string Py.valor),
    Spec.estadisticas (map r_consumo_kwh (contexto df_ref hora)) me e1 e3 /\
    Spec.estadisticas (map r_agua_litros (contexto df_ref hora)) ma a1 a3 /\
    Spec.estadisticas (map r_co2_kg (contexto df_ref hora)) mc c1 c3 /\
    evaluar (contexto df_ref hora) (Py.Float (Fin e)) (Py.Float (Fin a)) (Py.Float (Fin c))
    = Py.Return l /\
    l_z_consumo l = Fin (Spec.deviation e me e1 e3) /\
    l_z_agua l = Fin (Spec.deviation a ma a1 a3) /\
    l_z_co2 l = Fin (Spec.deviation c mc c1 c3) /\
    let raw := Spec.raw_score (Spec.deviation e me e1 e3) (Spec.deviation a ma a1 a3)
                              (Spec.deviation c mc c1 c3) in
    l_score_raw l =f= Fin raw /\
    l_score_final l = Float.log1p (l_score_raw l) /\
    l_score_final l = Float.RFin (ln (1 + Q2R raw)) /\
    detectar_anomalia_evento df_ref ts hora (Py.Float (Fin e)) (Py.Float (Fin a)) (Py.Float (Fin c))
    = Py.Return d /\
    d !! "score" = Some (Py.VLog (Float.round2_R (l_score_final l))) /\
    (raw == 0 -> l_score_final l = Float.RFin 0%R /\
                 d !! "score" = Some (Py.VLog (Float.RFin 0%R))).
Proof.
  intros Hlen.
  destruct (estadisticas_total _ (contexto_serie r_consumo_kwh _ Hlen))
    as (me & e1 & e3 & He & Hqe).
  destruct (estadisticas_total _ (contexto_serie r_agua_litros _ Hlen))
    as (ma & a1 & a3 & Ha & Hqa).
  destruct (estadisticas_total _ (contexto_serie r_co2_kg _ Hlen))
    as (mc & c1 & c3 & Hc & Hqc).
  pose proof (evaluar_numerico _ e a c _ _ _ _ _ _ _ _ _ He Ha Hc) as Hev.
  cbv zeta in Hev.
  set (de := Spec.deviation e me e1 e3) in *.
  set (da := Spec.deviation a ma a1 a3) in *.
  set (dc := Spec.deviation c mc c1 c3) in *.
  assert (Hraw : score_raw (Fin de) (Fin da) (Fin dc) =f= Fin (Spec.raw_score de da dc))
    by apply score_raw_Fin.
  assert (Hpos : 0 <= Spec.raw_score de da dc)
    by (apply raw_score_nonneg; apply deviation_nonneg; assumption).
  destruct (score_raw (Fin de) (Fin da) (Fin dc)) as [r|] eqn:Er; [|contradiction].
  simpl in Hraw.
  assert (Hlog : Float.log1p (Fin r) = Float.RFin (ln (1 + Q2R (Spec.raw_score de da dc)))).
  { rewrite (log1p_eq r (Spec.raw_score de da dc)) by (try rewrite Hraw; lra || assumption).
    apply log1p_Fin. lra. }
  eexists me, e1, e3, ma, a1, a3, mc, c1, c3, _, _.
  split; [exact He|]. split; [exact Ha|]. split; [exact Hc|].
  split; [exact Hev|]. cbn [l_z_consumo l_z_agua l_z_co2 l_score_raw l_score_final].
  split; [reflexivity|]. split; [reflexivity|]. split; [reflexivity|].
  cbv zeta.
  split; [exact Hraw|]. split; [reflexivity|]. split; [exact Hlog|].
  split.
  { rewrite detectar_suficiente by assumption. rewrite Hev. reflexivity. }
  cbn [l_nivel l_percentil l_score_final l_causas].
  split; [apply lookup_score|].
  intros H0. split.
  - apply log1p_0. now rewrite Hraw.
  - rewrite lookup_score. rewrite (log1p_0 r) by now rewrite Hraw.
    do 2 f_equal. apply round2_R_small. Lra.lra.
Qed.

End C1.

Section C1_ejemplos.

Import Pandas Evento Ejemplos.

Lemma historia_50_contexto : (50 <= List.length (contexto (historia 50) 12))%nat.
Proof. vm_compute. lia. Qed.

(** C1, counterexample.  Against the 50 readings of [historia 50], the
    candidate (25.51, 2550, 12.75) has a raw score between 0 and 0.005: its
    [log1p] is positive, and the returned ["score"] is 0.0, not
    [log1p(raw_score)]. *)
Lemma evento_score_redondeado :
  exists (l : locales) (d : gmap string Py.valor),
    (50 <= List.length (contexto (historia 50) 12))%nat /\
    evaluar (contexto (historia 50) 12)
            (Py.Float (Fin (2551 # 100))) (Py.Float (Fin 2550)) (Py.Float (Fin (51 # 4)))
    = Py.Return l /\
    detectar_anomalia_evento (historia 50) "2025-06-24 12:00" 12
            (Py.Float (Fin (2551 # 100))) (Py.Float (Fin 2550)) (Py.Float (Fin (51 # 4)))
    = Py.Return d /\
    d !! "score" <> Some (Py.VLog (Float.log1p (l_score_raw l))).
Proof.
  pose proof historia_50_contexto as Hlen.
  eassert (He : Spec.estadisticas (map r_consumo_kwh (contexto (historia 50) 12)) _ _ _)
    by (repeat split; vm_compute; reflexivity).
  eassert (Ha : Spec.estadisticas (map r_agua_litros (contexto (historia 50) 12)) _ _ _)
    by (repeat split; vm_compute; reflexivity).
  eassert (Hc : Spec.estadisticas (map r_co2_kg (contexto (historia 50) 12)) _ _ _)
    by (repeat split; vm_compute; reflexivity).
  pose proof (evaluar_numerico _ (2551 # 100) 2550 (51 # 4) _ _ _ _ _ _ _ _ _ He Ha Hc) as Hev.
  cbv zeta in Hev.
  match type of Hev with
  | _ = Py.Return (Locales _ _ _ ?raw _ _ _ _) =>
      assert (Hraw : exists q : Q, raw = Fin q /\ 0 < q /\ q < 1 # 200)
        by (eexists; split; [vm_compute; reflexivity | split; vm_compute; reflexivity]);
      destruct Hraw as (q & Hq & Hq0 & Hq1); rewrite Hq in Hev
  end.
  eexists _, _. split; [exact Hlen|]. split; [exact Hev|].
  split.
  { rewrite detectar_suficiente by exact Hlen. rewrite Hev. reflexivity. }
  rewrite lookup_score. cbn [l_score_final l_score_raw].
  rewrite log1p_Fin by lra.
  apply Qlt_Rlt in Hq0, Hq1.
  replace (Q2R 0) with 0%R in Hq0 by (unfold Q2R; simpl; Lra.lra).
  replace (Q2R (1 # 200)) with (1 / 200)%R in Hq1 by (unfold Q2R; simpl; Lra.lra).
  destruct (ln_small (Q2R q) Hq0) as [Hl0 Hl1].
  rewrite round2_R_small by (split; Lra.lra).
  intros Habs. injection Habs as Habs. Lra.lra.
Qed.

(** The theorem of C1 applies to the table [historia 50]. *)
Lemma evento_score_formula_ejemplo :
  (50 <= List.length (contexto (historia 50) 12))%nat /\
  exists (l : locales) (d : gmap string Py.valor),
    evaluar (contexto (historia 50) 12)
            (Py.Float (Fin 7200)) (Py.Float (Fin 180000)) (Py.Float (Fin 1600))
    = Py.Return l /\
    l_score_final l = Float.log1p (l_score_raw l) /\
    detectar_anomalia_evento (historia 50) "2025-06-24 12:00" 12
            (Py.Float (Fin 7200)) (Py.Float (Fin 180000)) (Py.Float (Fin 1600))
    = Py.Return d /\
    d !! "score" = Some (Py.VLog (Float.round2_R (l_score_final l))).
Proof.
  assert (Hlen : (50 <= List.length (contexto (historia 50) 12))%nat)
    by (vm_compute; lia).
  split; [exact Hlen|].
  destruct (evento_score_formula (historia 50) "2025-06-24 12:00" 12 7200 180000 1600 Hlen)
    as (me & e1 & e3 & ma & a1 & a3 & mc & c1 & c3 & l & d & _ & _ & _ & Hev & _ & _ & _ & H).
  cbv zeta in H. destruct H as (_ & Hfin & _ & Hdet & Hsc & _).
  exists l, d. repeat split; assumption.
Defined.

End C1_ejemplos.

(** ** The percentile of the event path *)

Section Percentil.

Import Pandas Evento.

Lemma eq_sym_num (x y : num) : x =f= y -> y =f= x.
Proof. destruct x, y; simpl; auto. intros H. now symmetry. Qed.

Lemma eq_trans_num (x y z : num) : x =f= y -> y =f= z -> x =f= z.
Proof.
  destruct x, y, z; simpl; auto; try contradiction.
  intros H1 H2. now rewrite H1.
Qed.

Lemma Qlt_bool_compat (a a' b : Q) : a == a' -> Float.Qlt_bool a b = Float.Qlt_bool a' b.
Proof.
  intros E. apply eq_true_iff_eq. rewrite !Qlt_bool_iff. now rewrite E.
Qed.

(** Equal values compare alike. *)
Lemma ltb_compat (x x' y : num) : x =f= x' -> Float.ltb x y = Float.ltb x' y.
Proof.
  destruct x, x', y; simpl; try contradiction; auto.
  apply Qlt_bool_compat.
Qed.

Lemma add_compat (x x' y y' : num) :
  x =f= x' -> y =f= y' -> Float.add x y =f= Float.add x' y'.
Proof.
  destruct x, x', y, y'; simpl; try contradiction; auto.
  intros -> ->. reflexivity.
Qed.

(** A term of [scores_hist] is the weighted deviation: multiplying before or
    after the division is the same rational. *)
Lemma termino_hist_Fin (w x : Q) (col : list Q) (med q25 q75 : Q) :
  Spec.estadisticas col med q25 q75 ->
  termino_hist w x col =f= Fin (w * Spec.deviation x med q25 q75).
Proof.
  intros Hst. destruct (denominador_positivo _ _ _ _ Hst) as [_ Hpos].
  destruct Hst as (Hm & H25 & H75).
  unfold termino_hist. rewrite Hm, H25, H75.
  cbn [Float.sub Float.abs Float.mul Float.add Float.lift2].
  rewrite div_Fin_pos by exact Hpos.
  cbn [Float.eq]. unfold Spec.deviation. field. lra.
Qed.

(** Each historical score is the raw score the evaluator gives to that
    reading taken as a candidate. *)
Lemma scores_hist_fila (ctx : DataFrame) (r : fila) :
  ctx <> [] ->
  Float.add
    (Float.add
       (termino_hist (4 # 10) (r_consumo_kwh r) (map r_consumo_kwh ctx))
       (termino_hist (35 # 100) (r_agua_litros r) (map r_agua_litros ctx)))
    (termino_hist (25 # 100) (r_co2_kg r) (map r_co2_kg ctx))
  =f= Spec.raw_score_de_fila ctx r.
Proof.
  intros Hne.
  assert (Hs : forall (A : Type) (col : fila -> A), map col ctx <> [])
    by (intros A col; destruct ctx; [congruence | discriminate]).
  destruct (estadisticas_total _ (Hs _ r_consumo_kwh)) as (me & e1 & e3 & He & _).
  destruct (estadisticas_total _ (Hs _ r_agua_litros)) as (ma & a1 & a3 & Ha & _).
  destruct (estadisticas_total _ (Hs _ r_co2_kg)) as (mc & c1 & c3 & Hc & _).
  unfold Spec.raw_score_de_fila.
  rewrite (evaluar_numerico ctx _ _ _ _ _ _ _ _ _ _ _ _ He Ha Hc).
  cbv zeta. cbn [l_score_raw].
  eapply eq_trans_num.
  - apply add_compat; [apply add_compat|]; apply termino_hist_Fin; eassumption.
  - simpl. reflexivity.
Qed.

Lemma filter_map_length {A : Type} (g : A -> bool) (l : list A) :
  List.length (filter (fun b : bool => b) (map g l)) = List.length (filter g l).
Proof.
  induction l as [|x t IH]; simpl; [reflexivity|].
  destruct (g x); simpl; now rewrite IH.
Qed.

Lemma filter_length_impl {A : Type} (f g : A -> bool) (l : list A) :
  (forall x, In x l -> f x = true -> g x = true) ->
  (List.length (filter f l) <= List.length (filter g l))%nat.
Proof.
  induction l as [|x t IH]; intros H; simpl; [lia|].
  assert (IH' : (List.length (filter f t) <= List.length (filter g t))%nat)
    by (apply IH; intros y Hy; apply H; now right).
  destruct (f x) eqn:Ef.
  - rewrite (H x (or_introl Logic.eq_refl) Ef). simpl. lia.
  - destruct (g x); simpl; lia.
Qed.

(** Over the rationals, the percentile is the fraction of readings with a
    smaller raw score. *)
Lemma percentil_fraccion (ctx : DataFrame) (x : num) :
  ctx <> [] -> percentil ctx x = Fin (Spec.fraccion_menores ctx x).
Proof.
  intros Hne. unfold percentil, Pandas.mean_bool, Spec.fraccion_menores, scores_hist.
  destruct ctx as [|r0 t] eqn:E; [congruence|]. rewrite <- E in *.
  rewrite !map_map.
  destruct (map _ ctx) eqn:Em at 1.
  { rewrite E in Em. discriminate. }
  rewrite filter_map_length, length_map.
  rewrite (filter_ext _ (fun r => Float.ltb (Spec.raw_score_de_fila ctx r) x)).
  - reflexivity.
  - intros r. apply ltb_compat. now apply scores_hist_fila.
Qed.

Lemma fraccion_menores_rango (ctx : DataFrame) (x : num) :
  ctx <> [] -> 0 <= Spec.fraccion_menores ctx x /\ Spec.fraccion_menores ctx x <= 1.
Proof.
  intros Hne. unfold Spec.fraccion_menores.
  pose proof (List.filter_length_le (fun r => Float.ltb (Spec.raw_score_de_fila ctx r) x) ctx) as Hle.
  assert (Hn : (0 < List.length ctx)%nat) by (destruct ctx; [congruence | simpl; lia]).
  set (k := List.length (filter _ ctx)) in *.
  assert (Hpos : 0 < inject_Z (Z.of_nat (List.length ctx)))
    by (change 0 with (inject_Z 0); rewrite <- Zlt_Qlt; lia).
  split.
  - apply Qle_shift_div_l; [exact Hpos|]. rewrite Qmult_0_l.
    change 0 with (inject_Z 0). rewrite <- Zle_Qle. lia.
  - apply Qle_shift_div_r; [exact Hpos|]. rewrite Qmult_1_l.
    rewrite <- Zle_Qle. lia.
Qed.

(** A larger raw score has at least as many readings below it. *)
Lemma fraccion_menores_mono (ctx : DataFrame) (x y : Q) :
  ctx <> [] -> x <= y ->
  Spec.fraccion_menores ctx (Fin x) <= Spec.fraccion_menores ctx (Fin y).
Proof.
  intros Hne Hxy. unfold Spec.fraccion_menores.
  assert (Hn : (0 < List.length ctx)%nat) by (destruct ctx; [congruence | simpl; lia]).
  assert (Hpos : 0 < inject_Z (Z.of_nat (List.length ctx)))
    by (change 0 with (inject_Z 0); rewrite <- Zlt_Qlt; lia).
  unfold Qdiv. apply Qmult_le_compat_r; [|apply Qlt_le_weak, Qinv_lt_0_compat, Hpos].
  rewrite <- Zle_Qle. apply inj_le. apply filter_length_impl.
  intros r _. destruct (Spec.raw_score_de_fila ctx r) as [s|]; simpl; [|discriminate].
  rewrite !Qlt_bool_iff. intros Hs. lra.
Qed.

End Percentil.

Section C3_C8.

Import Pandas Evento Ejemplos.

(** On numbers (NaN included) the evaluation never raises. *)
Lemma evaluar_total (ctx : DataFrame) (x y z : num) :
  exists l : locales,
    evaluar ctx (Py.Float x) (Py.Float y) (Py.Float z) = Py.Return l.
Proof. unfold evaluar, score_robusto. simpl. eexists. reflexivity. Qed.

Lemma evaluar_percentil (ctx : DataFrame) (consumo agua co2 : Py.obj) (l : locales) :
  evaluar ctx consumo agua co2 = Py.Return l ->
  l_percentil l = percentil ctx (l_score_raw l).
Proof.
  unfold evaluar. intros H.
  destruct (score_robusto consumo _); [|discriminate].
  destruct (score_robusto agua _); [|discriminate].
  destruct (score_robusto co2 _); [|discriminate].
  simpl in H. injection H as <-. reflexivity.
Qed.

Lemma contexto_no_vacio (ctx : DataFrame) : (50 <= List.length ctx)%nat -> ctx <> [].
Proof. destruct ctx; simpl; [lia | discriminate]. Qed.

Lemma Fin_eq_inv (a b : Q) : Fin a = Fin b -> a = b.
Proof. intros H. now injection H. Qed.

(** In [casi_plana] the statistics of the three columns are whole numbers
    or eighths: binary64 holds them exactly, whichever way the
    interpolation is written. *)
Example casi_plana_binary64 (var : fila -> Q) (med q25 q75 : Q) :
  (var, med, q25, q75) = (r_consumo_kwh, 500, 500, 500) \/
  (var, med, q25, q75) = (r_agua_litros, 3000, 1575, 4425) \/
  (var, med, q25, q75) = (r_co2_kg, 15, 63 # 8, 177 # 8) ->
  (Pandas.median (map var (contexto casi_plana 3)) =f= Fin med /\
   Pandas.quantile (1 # 4) (map var (contexto casi_plana 3)) =f= Fin q25 /\
   Pandas.quantile (3 # 4) (map var (contexto casi_plana 3)) =f= Fin q75) /\
  (Binary64.median (Binary64.columna var (contexto casi_plana 3))
   = Binary64.de_Q med /\
   Binary64.quantile (1 # 4) (Binary64.columna var (contexto casi_plana 3))
   = Binary64.de_Q q25 /\
   Binary64.quantile (3 # 4) (Binary64.columna var (contexto casi_plana 3))
   = Binary64.de_Q q75).
Proof.
  intros [H | [H | H]]; injection H as -> -> -> ->;
    (split; (split; [|split]); vm_compute; reflexivity).
Qed.

(** C3, the event path at a failing input.  The context is the 60
    readings of [casi_plana] and the candidate repeats one of them: energy
    500, water 100, CO2 0.5.  With the formulas of sections 4.1 and 4.2 for
    the candidate and for every reading, 57 of the 60 readings score
    strictly below the candidate (the reading it repeats and the one at the
    same distance on the other side tie with it, [atipica] is above): the
    fraction is 57/60 and the tier is Alerta.  The code computes each
    historical score with the product before the division; on binary64
    values the reading that the candidate repeats gets a score strictly
    below the candidate's, 59 readings count as below, the percentile is
    59/60 and the tier is Crítica. *)
Lemma evento_percentil_empates :
  List.length (contexto casi_plana 3) = 60%nat /\
  (exists l : locales,
      evaluar (contexto casi_plana 3)
              (Py.Float (Fin 500)) (Py.Float (Fin 100)) (Py.Float (Fin (1 # 2)))
      = Py.Return l /\
      Spec.fraccion_menores (contexto casi_plana 3) (l_score_raw l) == 57 # 60 /\
      Spec.tier (Spec.fraccion_menores (contexto casi_plana 3) (l_score_raw l))
      = "Alerta") /\
  Binary64.menores
    (contexto casi_plana 3)
    (Binary64.b_score_raw (Binary64.evaluar (contexto casi_plana 3) 500 100 (1 # 2)))
  = 59%nat /\
  Binary64.b_nivel (Binary64.evaluar (contexto casi_plana 3) 500 100 (1 # 2))
  = "Crítica" /\
  (exists r : fila,
      In r (contexto casi_plana 3) /\
      r_consumo_kwh r == 500 /\ r_agua_litros r == 100 /\ r_co2_kg r == 1 # 2 /\
      PrimFloat.ltb
        (Binary64.score_hist (contexto casi_plana 3) r)
        (Binary64.b_score_raw (Binary64.evaluar (contexto casi_plana 3) 500 100 (1 # 2)))
      = true).
Proof.
  assert (Hlen : List.length (contexto casi_plana 3) = 60%nat)
    by (vm_compute; reflexivity).
  assert (Hne : contexto casi_plana 3 <> [])
    by (apply contexto_no_vacio; rewrite Hlen; lia).
  split; [exact Hlen|]. split.
  { eassert (He : Spec.estadisticas (map r_consumo_kwh (contexto casi_plana 3)) _ _ _)
      by (repeat split; vm_compute; reflexivity).
    eassert (Ha : Spec.estadisticas (map r_agua_litros (contexto casi_plana 3)) _ _ _)
      by (repeat split; vm_compute; reflexivity).
    eassert (Hc : Spec.estadisticas (map r_co2_kg (contexto casi_plana 3)) _ _ _)
      by (repeat split; vm_compute; reflexivity).
    pose proof (evaluar_numerico _ 500 100 (1 # 2) _ _ _ _ _ _ _ _ _ He Ha Hc) as Hev.
    cbv zeta in Hev.
    eexists. split; [exact Hev|]. cbn [l_score_raw].
    match goal with
    | |- Spec.fraccion_menores ?c ?x == _ /\ _ =>
        assert (Hp : percentil c x = Fin (57 # 60)) by (vm_compute; reflexivity);
        rewrite (percentil_fraccion c x Hne) in Hp;
        apply Fin_eq_inv in Hp; rewrite Hp
    end.
    split; reflexivity. }
  split; [vm_compute; reflexivity|].
  split; [vm_compute; reflexivity|].
  exists (nth 1 (contexto casi_plana 3) atipica).
  split; [apply nth_In; rewrite Hlen; lia|].
  split; [vm_compute; reflexivity|].
  split; [vm_compute; reflexivity|].
  split; vm_compute; reflexivity.
Qed.

(** C8.  Against a fixed context of at least 50 readings, if candidate A
    has a strictly larger raw score than candidate B, then A's percentile
    is at least B's. *)
Theorem evento_percentil_monotono (df_ref : DataFrame) (hora : Z)
    (xa ya za xb yb zb : num) (la lb : locales) :
  (50 <= List.length (contexto df_ref hora))%nat ->
  evaluar (contexto df_ref hora) (Py.Float xa) (Py.Float ya) (Py.Float za) = Py.Return la ->
  evaluar (contexto df_ref hora) (Py.Float xb) (Py.Float yb) (Py.Float zb) = Py.Return lb ->
  Float.lt (l_score_raw lb) (l_score_raw la) ->
  Float.le (l_percentil lb) (l_percentil la).
Proof.
  intros Hlen Ha Hb Hlt.
  pose proof (contexto_no_vacio _ Hlen) as Hne.
  rewrite (evaluar_percentil _ _ _ _ _ Ha), (evaluar_percentil _ _ _ _ _ Hb).
  rewrite !percentil_fraccion by exact Hne.
  destruct (l_score_raw la) as [ra|], (l_score_raw lb) as [rb|]; simpl in Hlt;
    try contradiction.
  simpl. apply fraccion_menores_mono; [exact Hne | lra].
Qed.

(** The theorem of C8 applies to two candidates against [historia 50]. *)
Lemma evento_percentil_monotono_ejemplo :
  exists la lb : locales,
    evaluar (contexto (historia 50) 12)
            (Py.Float (Fin 7200)) (Py.Float (Fin 180000)) (Py.Float (Fin 1600))
    = Py.Return la /\
    evaluar (contexto (historia 50) 12)
            (Py.Float (Fin 30)) (Py.Float (Fin 2600)) (Py.Float (Fin 13))
    = Py.Return lb /\
    Float.lt (l_score_raw lb) (l_score_raw la) /\
    Float.le (l_percentil lb) (l_percentil la).
Proof.
  assert (Hlen : (50 <= List.length (contexto (historia 50) 12))%nat)
    by (vm_compute; lia).
  eassert (He : Spec.estadisticas (map r_consumo_kwh (contexto (historia 50) 12)) _ _ _)
    by (repeat split; vm_compute; reflexivity).
  eassert (Ha : Spec.estadisticas (map r_agua_litros (contexto (historia 50) 12)) _ _ _)
    by (repeat split; vm_compute; reflexivity).
  eassert (Hc : Spec.estadisticas (map r_co2_kg (contexto (historia 50) 12)) _ _ _)
    by (repeat split; vm_compute; reflexivity).
  pose proof (evaluar_numerico _ 7200 180000 1600 _ _ _ _ _ _ _ _ _ He Ha Hc) as HA.
  pose proof (evaluar_numerico _ 30 2600 13 _ _ _ _ _ _ _ _ _ He Ha Hc) as HB.
  cbv zeta in HA, HB.
  eexists _, _. split; [exact HA|]. split; [exact HB|].
  match goal with
  | |- ?P /\ _ => assert (Hlt : P) by (cbn [l_score_raw]; vm_compute; reflexivity)
  end.
  split; [exact Hlt|].
  exact (evento_percentil_monotono (historia 50) 12 _ _ _ _ _ _ _ _ Hlen HA HB Hlt).
Defined.

End C3_C8.

(** ** The two results of the evaluator *)

Section C4.

Import Pandas Evento Ejemplos.

(** A finite candidate against a sufficient context: the raw score is a
    non-negative rational and the final score a real number. *)
Lemma evaluar_finito (ctx : DataFrame) (e a c : Q) :
  (50 <= List.length ctx)%nat ->
  exists (l : locales) (raw : Q),
    evaluar ctx (Py.Float (Fin e)) (Py.Float (Fin a)) (Py.Float (Fin c)) = Py.Return l /\
    l_score_raw l = Fin raw /\ 0 <= raw /\
    l_score_final l = Float.RFin (ln (1 + Q2R raw)).
Proof.
  intros Hlen.
  destruct (estadisticas_total _ (contexto_serie r_consumo_kwh _ Hlen))
    as (me & e1 & e3 & He & Hqe).
  destruct (estadisticas_total _ (contexto_serie r_agua_litros _ Hlen))
    as (ma & a1 & a3 & Ha & Hqa).
  destruct (estadisticas_total _ (contexto_serie r_co2_kg _ Hlen))
    as (mc & c1 & c3 & Hc & Hqc).
  pose proof (evaluar_numerico _ e a c _ _ _ _ _ _ _ _ _ He Ha Hc) as Hev.
  cbv zeta in Hev.
  set (de := Spec.deviation e me e1 e3) in *.
  set (da := Spec.deviation a ma a1 a3) in *.
  set (dc := Spec.deviation c mc c1 c3) in *.
  pose proof (score_raw_Fin de da dc) as Hraw.
  assert (Hpos : 0 <= Spec.raw_score de da dc)
    by (apply raw_score_nonneg; apply deviation_nonneg; assumption).
  destruct (score_raw (Fin de) (Fin da) (Fin dc)) as [r|] eqn:Er; [|contradiction].
  simpl in Hraw.
  eexists _, r. split; [exact Hev|]. cbn [l_score_raw l_score_final].
  split; [reflexivity|]. split; [rewrite Hraw; exact Hpos|].
  apply log1p_Fin. rewrite Hraw. lra.
Qed.

Lemma nivel_valores (p : num) :
  nivel p = "Normal" \/ nivel p = "Alerta" \/ nivel p = "Crítica".
Proof.
  unfold nivel. destruct (Float.ltb p _); [now left|].
  destruct (Float.ltb p _); [right; now left | right; now right].
Qed.

Lemma causas_no_vacia (ze za zc : num) : causas ze za zc <> [].
Proof.
  unfold causas.
  destruct (Float.gtb ze _), (Float.gtb za _), (Float.gtb zc _); discriminate.
Qed.

Lemma evaluar_causas (ctx : DataFrame) (consumo agua co2 : Py.obj) (l : locales) :
  evaluar ctx consumo agua co2 = Py.Return l ->
  l_causas l = causas (l_z_consumo l) (l_z_agua l) (l_z_co2 l) /\
  l_nivel l = nivel (l_percentil l).
Proof.
  unfold evaluar. intros H.
  destruct (score_robusto consumo _); [|discriminate].
  destruct (score_robusto agua _); [|discriminate].
  destruct (score_robusto co2 _); [|discriminate].
  simpl in H. injection H as <-. split; reflexivity.
Qed.

Lemma dom_resultado_completo (ts niv : string) (p : num) (s : Float.real_ext)
    (cs : list string) :
  dom (resultado_completo ts niv p s cs)
  = ({[ "timestamp"; "nivel"; "percentil"; "score"; "explicacion" ]} : gset string).
Proof.
  unfold resultado_completo. rewrite !dom_insert_L, dom_empty_L. set_solver.
Qed.

Lemma dom_resultado_insuficiente :
  dom resultado_insuficiente = ({[ "nivel"; "mensaje" ]} : gset string).
Proof.
  unfold resultado_insuficiente. rewrite !dom_insert_L, dom_empty_L. set_solver.
Qed.

(** The reported percentile: a whole number of hundredths between 0 and
    100. *)
Lemma percentil_redondeado (ctx : DataFrame) (x : num) :
  ctx <> [] ->
  exists k : Z,
    Float.round2 (Float.mul (percentil ctx x) (Fin 100)) = Fin (inject_Z k / 100) /\
    (0 <= k <= 10000)%Z.
Proof.
  intros Hne. rewrite percentil_fraccion by exact Hne.
  destruct (fraccion_menores_rango ctx x Hne) as [H0 H1].
  set (f := Spec.fraccion_menores ctx x) in *.
  exists (Float.rint (f * 100 * 100)). split; [reflexivity|].
  apply rint_bounds; [nra|]. change (inject_Z 10000) with 10000. nra.
Qed.



End C4.

(** ** Causes and tiers *)

Section C7.

Import Pandas Evento Ejemplos.

Lemma gtb_3 (z : Q) : Float.gtb (Fin z) (Fin 3) = true <-> 3 < z.
Proof. unfold Float.gtb. apply ltb_Fin. Qed.

Lemma gtb_3_false (z : Q) : Float.gtb (Fin z) (Fin 3) = false <-> z <= 3.
Proof. unfold Float.gtb. simpl. apply Qlt_bool_false_iff. Qed.

(** The four cause strings are pairwise different. *)
Lemma causas_distintas :
  causa_consumo <> causa_agua /\ causa_consumo <> causa_co2 /\
  causa_consumo <> causa_combinada /\ causa_agua <> causa_co2 /\
  causa_agua <> causa_combinada /\ causa_co2 <> causa_combinada.
Proof. repeat split; apply String.eqb_neq; reflexivity. Qed.

(** What [causas] holds, by the three z-scores. *)
Lemma causas_spec (ze za zc : Q) :
  (In causa_consumo (causas (Fin ze) (Fin za) (Fin zc)) <-> 3 < ze) /\
  (In causa_agua (causas (Fin ze) (Fin za) (Fin zc)) <-> 3 < za) /\
  (In causa_co2 (causas (Fin ze) (Fin za) (Fin zc)) <-> 3 < zc) /\
  (In causa_combinada (causas (Fin ze) (Fin za) (Fin zc))
   <-> ze <= 3 /\ za <= 3 /\ zc <= 3) /\
  (3 < ze -> za <= 3 -> zc <= 3 -> causas (Fin ze) (Fin za) (Fin zc) = [causa_consumo]) /\
  (ze <= 3 -> za <= 3 -> zc <= 3 -> causas (Fin ze) (Fin za) (Fin zc) = [causa_combinada]).
Proof.
  destruct causas_distintas as (D1 & D2 & D3 & D4 & D5 & D6).
  unfold causas.
  destruct (Float.gtb (Fin ze) (Fin 3)) eqn:Ee;
    destruct (Float.gtb (Fin za) (Fin 3)) eqn:Ea;
    destruct (Float.gtb (Fin zc) (Fin 3)) eqn:Ec;
    (apply gtb_3 in Ee || apply gtb_3_false in Ee);
    (apply gtb_3 in Ea || apply gtb_3_false in Ea);
    (apply gtb_3 in Ec || apply gtb_3_false in Ec); cbn [app In];
    repeat split; intros; try reflexivity; try lra;
    repeat match goal with
           | H : _ \/ _ |- _ => destruct H
           | H : False |- _ => destruct H
           | H : _ /\ _ |- _ => destruct H
           end;
    try congruence; try lra; auto.
Qed.


End C7.

Section C7_ejemplo.

Import Pandas Evento Ejemplos.

Lemma Return_inj {A : Type} (a b : A) : Py.Return a = Py.Return b -> a = b.
Proof. intros H. now injection H. Qed.

(** Against [historia 50], a candidate whose energy is far from the median
    and whose water and CO2 are at their medians gets the energy cause
    alone. *)
Example causas_solo_energia :
  exists l : locales,
    evaluar (contexto (historia 50) 12)
            (Py.Float (Fin 200)) (Py.Float (Fin 2550)) (Py.Float (Fin (51 # 4)))
    = Py.Return l /\
    l_causas l = [causa_consumo].
Proof.
  eassert (He : Spec.estadisticas (map r_consumo_kwh (contexto (historia 50) 12)) _ _ _)
    by (repeat split; vm_compute; reflexivity).
  eassert (Ha : Spec.estadisticas (map r_agua_litros (contexto (historia 50) 12)) _ _ _)
    by (repeat split; vm_compute; reflexivity).
  eassert (Hc : Spec.estadisticas (map r_co2_kg (contexto (historia 50) 12)) _ _ _)
    by (repeat split; vm_compute; reflexivity).
  pose proof (evaluar_numerico _ 200 2550 (51 # 4) _ _ _ _ _ _ _ _ _ He Ha Hc) as HA.
  cbv zeta in HA.
  eexists. split; [exact HA|]. cbn [l_causas].
  apply causas_spec; vm_compute; first [reflexivity | discriminate].
Qed.


End C7_ejemplo.
Section C2.

Import Evento.

Lemma ltb_Fin_false (a b : Q) : Float.ltb (Fin a) (Fin b) = false <-> b <= a.
Proof. apply Qlt_bool_false_iff. Qed.

(** C2.  The tier is the same function of the percentile in both paths:
    below 0.90 it is Normal, from 0.90 and below 0.97 it is Alerta, from
    0.97 on it is Crítica; the batch column [nivel_anomalia] is
    [clasificar_anomalia] of the batch percentile, the event's [nivel] is
    the inlined test of the event percentile, the two tests agree on
    every value, and on a finite percentile they are the table of section
    4.3 of the specification. *)
Theorem nivel_por_percentil (p : Q) :
  (p < 90 # 100 ->
   Batch.clasificar_anomalia (Fin p) = "Normal" /\ nivel (Fin p) = "Normal") /\
  (90 # 100 <= p -> p < 97 # 100 ->
   Batch.clasificar_anomalia (Fin p) = "Alerta" /\ nivel (Fin p) = "Alerta") /\
  (97 # 100 <= p ->
   Batch.clasificar_anomalia (Fin p) = "Crítica" /\ nivel (Fin p) = "Crítica") /\
  (forall x : num, nivel x = Batch.clasificar_anomalia x) /\
  Batch.clasificar_anomalia (Fin p) = Spec.tier p /\
  (forall (results : DataFrame) (r : fila),
      Batch.nivel_anomalia results r
      = Batch.clasificar_anomalia (Batch.anomalia_percentil results r)) /\
  (forall (ctx : DataFrame) (consumo agua co2 : Py.obj) (l : locales),
      evaluar ctx consumo agua co2 = Py.Return l ->
      l_nivel l = nivel (l_percentil l)).
Proof.
  assert (Hsame : forall x : num, nivel x = Batch.clasificar_anomalia x)
    by reflexivity.
  split; [|split; [|split; [|split; [exact Hsame|split; [|split]]]]].
  - intros H. rewrite <- Hsame. unfold nivel.
    apply ltb_Fin in H. rewrite H. now split.
  - intros H H0. rewrite <- Hsame. unfold nivel.
    apply ltb_Fin_false in H. apply ltb_Fin in H0. rewrite H, H0. now split.
  - intros H. rewrite <- Hsame. unfold nivel.
    assert (H' : 90 # 100 <= p) by lra.
    apply ltb_Fin_false in H, H'. rewrite H, H'. now split.
  - unfold Batch.clasificar_anomalia, Spec.tier.
    destruct (Qlt_le_dec p (90 # 100)) as [H | H].
    + apply ltb_Fin in H. now rewrite H.
    + apply ltb_Fin_false in H. rewrite H.
      destruct (Qlt_le_dec p (97 # 100)) as [H0 | H0].
      * apply ltb_Fin in H0. now rewrite H0.
      * apply ltb_Fin_false in H0. now rewrite H0.
  - reflexivity.
  - intros ctx consumo agua co2 l H. now destruct (evaluar_causas _ _ _ _ _ H).
Qed.

(** The theorem of C2 at the percentiles 0.50, 0.93 and 0.99, and at the
    two thresholds. *)
Lemma nivel_por_percentil_ejemplo :
  Batch.clasificar_anomalia (Fin (50 # 100)) = "Normal" /\
  nivel (Fin (93 # 100)) = "Alerta" /\
  Batch.clasificar_anomalia (Fin (99 # 100)) = "Crítica" /\
  nivel (Fin (90 # 100)) = "Alerta" /\
  Batch.clasificar_anomalia (Fin (97 # 100)) = "Crítica".
Proof.
  split; [apply (proj1 (nivel_por_percentil (50 # 100))); vm_compute; reflexivity|].
  split; [apply (proj1 (proj2 (nivel_por_percentil (93 # 100))));
          vm_compute; first [reflexivity | discriminate]|].
  split; [apply (proj1 (proj2 (proj2 (nivel_por_percentil (99 # 100)))));
          vm_compute; discriminate|].
  split; [apply (proj1 (proj2 (nivel_por_percentil (90 # 100))));
          vm_compute; first [reflexivity | discriminate]|].
  apply (proj1 (proj2 (proj2 (nivel_por_percentil (97 # 100))))); vm_compute; discriminate.
Defined.

End C2.

(** ** The chatbot answer on the insufficient-data result *)

Section C9.

Import Pandas Evento Ejemplos.

Lemma respuesta_insuficiente :
  Chatbot.respuesta_chatbot resultado_insuficiente = Py.Raise (Py.KeyError "timestamp").
Proof. reflexivity. Qed.

(** C9.  With fewer than 50 readings of the candidate's hour, the evaluator
    returns a dictionary whose only keys are ["nivel"] and ["mensaje"]: it
    has no ["timestamp"], ["percentil"], ["score"] or ["explicacion"], and
    [respuesta_chatbot] applied to it raises [KeyError] on ["timestamp"]. *)
Theorem chatbot_insuficiente (df_ref : DataFrame) (ts : string) (hora : Z)
    (consumo agua co2 : Py.obj) :
  (List.length (contexto df_ref hora) < 50)%nat ->
  exists d : gmap string Py.valor,
    detectar_anomalia_evento df_ref ts hora consumo agua co2 = Py.Return d /\
    dom d = ({[ "nivel"; "mensaje" ]} : gset string) /\
    d !! "nivel" = Some (Py.VStr "Normal") /\
    d !! "timestamp" = None /\ d !! "percentil" = None /\
    d !! "score" = None /\ d !! "explicacion" = None /\
    Chatbot.respuesta_chatbot d = Py.Raise (Py.KeyError "timestamp").
Proof.
  intros Hlt. exists resultado_insuficiente.
  split; [now apply detectar_insuficiente|].
  split; [apply dom_resultado_insuficiente|].
  repeat split; reflexivity.
Qed.

(** The theorem of C9 applies to the 49 readings of [historia 49]. *)
Lemma chatbot_insuficiente_ejemplo :
  (List.length (contexto (historia 49) 12) < 50)%nat /\
  exists d : gmap string Py.valor,
    detectar_anomalia_evento (historia 49) "2025-06-24 12:00" 12
       (Py.Float (Fin 7200)) (Py.Float (Fin 180000)) (Py.Float (Fin 1600)) = Py.Return d /\
    Chatbot.respuesta_chatbot d = Py.Raise (Py.KeyError "timestamp").
Proof.
  assert (Hlt : (List.length (contexto (historia 49) 12) < 50)%nat)
    by (vm_compute; lia).
  split; [exact Hlt|].
  destruct (chatbot_insuficiente (historia 49) "2025-06-24 12:00" 12
              (Py.Float (Fin 7200)) (Py.Float (Fin 180000)) (Py.Float (Fin 1600)) Hlt)
    as (d & Hd & _ & _ & _ & _ & _ & _ & Hr).
  exists d. split; assumption.
Defined.

(** On a full classification the answer is built without error. *)
Lemma respuesta_completa (ts niv : string) (p : num) (s : Float.real_ext)
    (cs : list string) :
  exists m : list Py.trozo,
    Chatbot.respuesta_chatbot (resultado_completo ts niv p s cs) = Py.Return m.
Proof.
  unfold Chatbot.respuesta_chatbot.
  change (Py.getitem (resultado_completo ts niv p s cs) "nivel")
    with (Py.Return (Py.VStr niv)).
  cbn [Py.bind].
  destruct (Py.eq_str (Py.VStr niv) "Normal").
  - eexists. reflexivity.
  - change (Py.getitem (resultado_completo ts niv p s cs) "explicacion")
      with (Py.Return (Py.VList cs)).
    cbn [Py.bind Py.join].
    destruct (Py.eq_str (Py.VStr niv) "Alerta"); eexists; reflexivity.
Qed.

End C9.

(** ** Candidates that are not finite numbers *)

Section C5.

Import Pandas Evento Ejemplos.

(** A signal that is [None] or a string makes the evaluation raise
    [TypeError], at the subtraction of the first such signal. *)
Lemma evaluar_no_numerico (ctx : DataFrame) (consumo agua co2 : Py.obj) :
  Py.no_numerico consumo \/ Py.no_numerico agua \/ Py.no_numerico co2 ->
  evaluar ctx consumo agua co2 = Py.Raise Py.TypeError.
Proof.
  intros H. unfold evaluar, score_robusto.
  destruct consumo as [x| |s1]; cbn [Py.sub Py.bind]; try reflexivity.
  destruct agua as [y| |s2]; cbn [Py.sub Py.bind]; try reflexivity.
  destruct co2 as [z| |s3]; cbn [Py.sub Py.bind]; try reflexivity.
  simpl in H. tauto.
Qed.

Lemma add_NaN_r (x : num) : Float.add x NaN = NaN.
Proof. now destruct x. Qed.

Lemma score_raw_NaN (ze za zc : num) :
  Float.is_nan ze = true \/ Float.is_nan za = true \/ Float.is_nan zc = true ->
  score_raw ze za zc = NaN.
Proof.
  unfold score_raw.
  destruct ze, za, zc; simpl; intros [H | [H | H]]; try discriminate; reflexivity.
Qed.

Lemma score_robusto_NaN (serie : list Q) :
  score_robusto (Py.Float NaN) serie = Py.Return NaN.
Proof. reflexivity. Qed.

Lemma score_robusto_numero (x : num) (serie : list Q) :
  exists z : num, score_robusto (Py.Float x) serie = Py.Return z /\
                  (Float.is_nan x = true -> Float.is_nan z = true).
Proof.
  destruct x as [q|].
  - unfold score_robusto. cbn [Py.sub Py.bind]. eexists. split; [reflexivity|].
    discriminate.
  - exists NaN. split; reflexivity.
Qed.

(** Nothing is below NaN: the fraction is [0 / n]. *)
Lemma fraccion_menores_NaN (ctx : DataFrame) :
  Spec.fraccion_menores ctx NaN == 0.
Proof.
  unfold Spec.fraccion_menores.
  rewrite (filter_ext _ (fun _ => false)) by (intros r; apply ltb_NaN_r).
  assert (E : filter (fun _ : fila => false) ctx = [])
    by (induction ctx; simpl; auto).
  rewrite E. simpl List.length. unfold Qdiv. change (inject_Z (Z.of_nat 0)) with 0.
  apply Qmult_0_l.
Qed.

Lemma rint_compat (x y : Q) : x == y -> Float.rint x = Float.rint y.
Proof.
  intros E. unfold Float.rint. cbv zeta.
  rewrite (Qfloor_comp _ _ E).
  rewrite (Qlt_bool_compat (x - inject_Z (Qfloor y)) (y - inject_Z (Qfloor y)))
    by (now rewrite E).
  assert (E2 : Float.Qlt_bool (1 # 2) (x - inject_Z (Qfloor y))
               = Float.Qlt_bool (1 # 2) (y - inject_Z (Qfloor y))).
  { apply eq_true_iff_eq. rewrite !Qlt_bool_iff. now rewrite E. }
  now rewrite E2.
Qed.

(** A sufficient context and three numbers, one of them NaN: no error; the
    NaN reaches the raw and final scores, no historical score is below it,
    the percentile is 0 and the tier Normal. *)
Lemma detectar_nan (df_ref : DataFrame) (ts : string) (hora : Z) (x y z : num) :
  (50 <= List.length (contexto df_ref hora))%nat ->
  Float.is_nan x = true \/ Float.is_nan y = true \/ Float.is_nan z = true ->
  exists (d : gmap string Py.valor) (p : Q),
    detectar_anomalia_evento df_ref ts hora (Py.Float x) (Py.Float y) (Py.Float z)
    = Py.Return d /\
    d !! "nivel" = Some (Py.VStr "Normal") /\
    d !! "score" = Some (Py.VLog Float.RNaN) /\
    d !! "percentil" = Some (Py.VFloat (Fin p)) /\ p == 0.
Proof.
  intros Hlen Hnan.
  pose proof (contexto_no_vacio _ Hlen) as Hne.
  set (ctx := contexto df_ref hora) in *.
  destruct (score_robusto_numero x (map r_consumo_kwh ctx)) as (ze & Hze & Nx).
  destruct (score_robusto_numero y (map r_agua_litros ctx)) as (za & Hza & Ny).
  destruct (score_robusto_numero z (map r_co2_kg ctx)) as (zc & Hzc & Nz).
  assert (Hraw : score_raw ze za zc = NaN) by (apply score_raw_NaN; tauto).
  assert (Hev : evaluar ctx (Py.Float x) (Py.Float y) (Py.Float z)
                = Py.Return (Locales ze za zc NaN Float.RNaN (percentil ctx NaN)
                                     (nivel (percentil ctx NaN)) (causas ze za zc))).
  { unfold evaluar. rewrite Hze, Hza, Hzc. cbn [Py.bind]. rewrite Hraw. reflexivity. }
  pose proof (fraccion_menores_NaN ctx) as H0.
  assert (Hp : percentil ctx NaN = Fin (Spec.fraccion_menores ctx NaN))
    by (now apply percentil_fraccion).
  eexists. exists (inject_Z (Float.rint (Spec.fraccion_menores ctx NaN * 100 * 100)) / 100).
  split.
  { rewrite detectar_suficiente by exact Hlen. fold ctx. rewrite Hev. reflexivity. }
  cbn [l_nivel l_percentil l_score_final l_causas].
  split.
  { change (Some (Py.VStr (nivel (percentil ctx NaN))) = Some (Py.VStr "Normal")).
    rewrite Hp. unfold nivel.
    assert (Hlt : Float.ltb (Fin (Spec.fraccion_menores ctx NaN)) (Fin (90 # 100)) = true)
      by (apply ltb_Fin; rewrite H0; reflexivity).
    now rewrite Hlt. }
  split; [reflexivity|].
  split.
  { change (Some (Py.VFloat (Float.round2 (Float.mul (percentil ctx NaN) (Fin 100))))
            = Some (Py.VFloat (Fin (inject_Z (Float.rint (Spec.fraccion_menores ctx NaN * 100 * 100)) / 100)))).
    rewrite Hp. reflexivity. }
  rewrite (rint_compat _ 0) by (rewrite H0; reflexivity).
  reflexivity.
Qed.

(** C5 (amended).  The evaluator does not validate the candidate.  With
    fewer than 50 readings of the hour it returns the insufficient-data
    result whatever the three values are.  With 50 or more, a value that is
    [None] or a string makes it raise the [TypeError] of the subtraction
    [valor - med]; three numbers of which one is NaN raise nothing: the
    result has score NaN, percentile 0 and tier Normal. *)
Theorem evento_sin_validacion (df_ref : DataFrame) (ts : string) (hora : Z)
    (consumo agua co2 : Py.obj) :
  ((List.length (contexto df_ref hora) < 50)%nat ->
   detectar_anomalia_evento df_ref ts hora consumo agua co2
   = Py.Return resultado_insuficiente) /\
  ((50 <= List.length (contexto df_ref hora))%nat ->
   Py.no_numerico consumo \/ Py.no_numerico agua \/ Py.no_numerico co2 ->
   detectar_anomalia_evento df_ref ts hora consumo agua co2 = Py.Raise Py.TypeError) /\
  ((50 <= List.length (contexto df_ref hora))%nat ->
   Py.es_numero consumo -> Py.es_numero agua -> Py.es_numero co2 ->
   Py.es_nan consumo \/ Py.es_nan agua \/ Py.es_nan co2 ->
   exists (d : gmap string Py.valor) (p : Q),
     detectar_anomalia_evento df_ref ts hora consumo agua co2 = Py.Return d /\
     d !! "nivel" = Some (Py.VStr "Normal") /\
     d !! "score" = Some (Py.VLog Float.RNaN) /\
     d !! "percentil" = Some (Py.VFloat (Fin p)) /\ p == 0).
Proof.
  split; [apply detectar_insuficiente|]. split.
  - intros Hlen Hno. rewrite detectar_suficiente by exact Hlen.
    now rewrite evaluar_no_numerico.
  - intros Hlen Hx Hy Hz Hnan.
    destruct consumo as [x| |]; try contradiction.
    destruct agua as [y| |]; try contradiction.
    destruct co2 as [z| |]; try contradiction.
    now apply detectar_nan.
Qed.

(** The theorem of C5 applies in its three cases: [None] against 49
    readings, [None] against 50 readings, NaN against 50 readings. *)
Lemma evento_sin_validacion_ejemplo :
  detectar_anomalia_evento (historia 49) "2025-06-24 12:00" 12
     Py.None_ (Py.Float (Fin 2550)) (Py.Float (Fin (51 # 4)))
  = Py.Return resultado_insuficiente /\
  detectar_anomalia_evento (historia 50) "2025-06-24 12:00" 12
     Py.None_ (Py.Float (Fin 2550)) (Py.Float (Fin (51 # 4)))
  = Py.Raise Py.TypeError /\
  exists d : gmap string Py.valor,
    detectar_anomalia_evento (historia 50) "2025-06-24 12:00" 12
       (Py.Float NaN) (Py.Float (Fin 2550)) (Py.Float (Fin (51 # 4)))
    = Py.Return d /\
    d !! "nivel" = Some (Py.VStr "Normal").
Proof.
  assert (H49 : (List.length (contexto (historia 49) 12) < 50)%nat)
    by (vm_compute; lia).
  assert (H50 : (50 <= List.length (contexto (historia 50) 12))%nat)
    by (vm_compute; lia).
  split.
  { apply (evento_sin_validacion (historia 49) "2025-06-24 12:00" 12
             Py.None_ (Py.Float (Fin 2550)) (Py.Float (Fin (51 # 4)))).
    exact H49. }
  split.
  { apply (evento_sin_validacion (historia 50) "2025-06-24 12:00" 12
             Py.None_ (Py.Float (Fin 2550)) (Py.Float (Fin (51 # 4)))).
    - exact H50.
    - left. exact I. }
  destruct (proj2 (proj2 (evento_sin_validacion (historia 50) "2025-06-24 12:00" 12
             (Py.Float NaN) (Py.Float (Fin 2550)) (Py.Float (Fin (51 # 4)))))
             H50 I I I (or_introl Logic.eq_refl))
    as (d & p & Hd & Hn & _).
  exists d. split; assumption.
Defined.

(** C5, counterexample.  A candidate whose energy is NaN, against the 50
    readings of [historia 50], raises nothing and is classified Normal; a
    candidate whose energy is [None], against 49 readings, raises nothing
    either and gets the insufficient-data result. *)
Lemma evento_valor_invalido_sin_error :
  Py.es_nan (Py.Float NaN) /\
  ~ Py.raises (detectar_anomalia_evento (historia 50) "2025-06-24 12:00" 12
                 (Py.Float NaN) (Py.Float (Fin 2550)) (Py.Float (Fin (51 # 4)))) /\
  (exists d : gmap string Py.valor,
     detectar_anomalia_evento (historia 50) "2025-06-24 12:00" 12
        (Py.Float NaN) (Py.Float (Fin 2550)) (Py.Float (Fin (51 # 4)))
     = Py.Return d /\
     d !! "nivel" = Some (Py.VStr "Normal") /\
     d !! "score" = Some (Py.VLog Float.RNaN)) /\
  Py.no_numerico Py.None_ /\
  ~ Py.raises (detectar_anomalia_evento (historia 49) "2025-06-24 12:00" 12
                 Py.None_ (Py.Float (Fin 2550)) (Py.Float (Fin (51 # 4)))).
Proof.
  assert (H49 : (List.length (contexto (historia 49) 12) < 50)%nat)
    by (vm_compute; lia).
  assert (H50 : (50 <= List.length (contexto (historia 50) 12))%nat)
    by (vm_compute; lia).
  destruct (detectar_nan (historia 50) "2025-06-24 12:00" 12
              NaN (Fin 2550) (Fin (51 # 4)) H50 (or_introl Logic.eq_refl))
    as (d & p & Hd & Hn & Hs & _).
  split; [reflexivity|]. split; [rewrite Hd; exact (fun H => H)|].
  split; [exists d; repeat split; assumption|].
  split; [exact I|].
  rewrite (detectar_insuficiente _ _ _ _ _ _ H49). exact (fun H => H).
Qed.

End C5.

(** ** The batch path on a group without spread *)

Section BatchFacts.

Import Pandas Ejemplos.

(** With equal quartiles the batch spread is NaN, not 0. *)
Lemma batch_iqr_NaN (serie : list Q) (med q25 q75 : Q) :
  Spec.estadisticas serie med q25 q75 -> q75 - q25 == 0 -> Batch.iqr serie = NaN.
Proof.
  intros (_ & H25 & H75) H0. unfold Batch.iqr. rewrite H25, H75.
  cbn [Float.sub Float.lift2 Batch.replace_0_nan].
  apply Qeq_bool_iff in H0. now rewrite H0.
Qed.

Lemma batch_z_NaN (var : fila -> Q) (results : DataFrame) (r : fila) (med q25 q75 : Q) :
  Spec.estadisticas (map var (Batch.grupo results (r_hora r))) med q25 q75 ->
  q75 - q25 == 0 ->
  Batch.z var results r = NaN.
Proof.
  intros Hst H0. unfold Batch.z. cbv zeta.
  rewrite (batch_iqr_NaN _ _ _ _ Hst H0).
  destruct (Float.abs _); reflexivity.
Qed.

Lemma batch_raw_NaN (results : DataFrame) (r : fila) :
  Batch.z r_consumo_kwh results r = NaN \/
  Batch.z r_agua_litros results r = NaN \/
  Batch.z r_co2_kg results r = NaN ->
  Batch.anomalia_score_raw results r = NaN.
Proof.
  unfold Batch.anomalia_score_raw.
  intros [H | [H | H]]; rewrite H.
  - reflexivity.
  - cbn [Float.mul Float.lift2]. now rewrite add_NaN_r.
  - cbn [Float.mul Float.lift2]. now rewrite add_NaN_r.
Qed.

(** A NaN raw score gives a NaN score, a NaN percentile and the tier
    Crítica. *)
Lemma batch_NaN_critica (results : DataFrame) (r : fila) :
  Batch.anomalia_score_raw results r = NaN ->
  Batch.anomalia_score results r = Float.RNaN /\
  Batch.anomalia_percentil results r = NaN /\
  Batch.nivel_anomalia results r = "Crítica".
Proof.
  intros H.
  assert (Hs : Batch.anomalia_score results r = Float.RNaN)
    by (unfold Batch.anomalia_score; now rewrite H).
  assert (Hp : Batch.anomalia_percentil results r = NaN)
    by (unfold Batch.anomalia_percentil, Batch.rank_pct; now rewrite Hs).
  split; [exact Hs|]. split; [exact Hp|].
  unfold Batch.nivel_anomalia. now rewrite Hp.
Qed.

(** The batch divisor [iqr + 1e-6] is NaN or positive: never zero. *)
Lemma batch_denominador (serie : list Q) :
  Float.add (Batch.iqr serie) (Fin eps) = NaN \/
  exists d : Q, Float.add (Batch.iqr serie) (Fin eps) = Fin d /\ 0 < d.
Proof.
  destruct serie as [|x t] eqn:E.
  - left. reflexivity.
  - rewrite <- E.
    assert (Hne : serie <> []) by (rewrite E; discriminate).
    destruct (estadisticas_total serie Hne) as (med & q25 & q75 & Hst & Hq).
    destruct Hst as (Hm & H25 & H75).
    unfold Batch.iqr. rewrite H25, H75.
    cbn [Float.sub Float.lift2 Batch.replace_0_nan].
    destruct (Qeq_bool (q75 - q25) 0); [now left|].
    right. eexists. split; [reflexivity|]. unfold eps. lra.
Qed.

End BatchFacts.

Section C10.

Import Pandas Ejemplos.

(** C10.  In the batch path, for every row whose hour group has equal
    quartiles for one of the three signals, the spread of that signal is
    replaced by NaN before [1e-6] is added: the row's z-score for that
    signal, its raw score, its score and its percentile are NaN, and
    [clasificar_anomalia] sends that NaN percentile to Crítica. *)
Theorem batch_iqr_cero (results : DataFrame) (r : fila) (var : fila -> Q)
    (med q25 q75 : Q) :
  var = r_consumo_kwh \/ var = r_agua_litros \/ var = r_co2_kg ->
  Spec.estadisticas (map var (Batch.grupo results (r_hora r))) med q25 q75 ->
  q75 - q25 == 0 ->
  Batch.iqr (map var (Batch.grupo results (r_hora r))) = NaN /\
  Batch.z var results r = NaN /\
  Batch.anomalia_score_raw results r = NaN /\
  Batch.anomalia_score results r = Float.RNaN /\
  Batch.anomalia_percentil results r = NaN /\
  Float.ltb NaN (Fin (90 # 100)) = false /\
  Float.ltb NaN (Fin (97 # 100)) = false /\
  Batch.clasificar_anomalia NaN = "Crítica" /\
  Batch.nivel_anomalia results r = "Crítica".
Proof.
  intros Hvar Hst H0.
  pose proof (batch_z_NaN var results r med q25 q75 Hst H0) as Hz.
  assert (Hraw : Batch.anomalia_score_raw results r = NaN).
  { apply batch_raw_NaN. destruct Hvar as [-> | [-> | ->]]; auto. }
  destruct (batch_NaN_critica results r Hraw) as (Hs & Hp & Hn).
  split; [exact (batch_iqr_NaN _ _ _ _ Hst H0)|].
  repeat split; try assumption; reflexivity.
Qed.

Lemma casi_plana_estadisticas :
  exists med q25 q75 : Q,
    Spec.estadisticas (map r_consumo_kwh (Batch.grupo casi_plana (r_hora atipica)))
                      med q25 q75 /\
    med == 500 /\ q25 == 500 /\ q75 == 500.
Proof.
  eexists _, _, _. split; [repeat split; vm_compute; reflexivity|].
  repeat split; vm_compute; reflexivity.
Qed.

(** The theorem of C10 applies to [casi_plana]: 60 readings of hour 3, 59
    of them with energy 500 and one with 900. *)
Lemma batch_iqr_cero_ejemplo :
  In atipica casi_plana /\
  Batch.z r_consumo_kwh casi_plana atipica = NaN /\
  Batch.anomalia_percentil casi_plana atipica = NaN /\
  Batch.nivel_anomalia casi_plana atipica = "Crítica".
Proof.
  split; [left; reflexivity|].
  destruct casi_plana_estadisticas as (med & q25 & q75 & Hst & _ & H25 & H75).
  assert (H0 : q75 - q25 == 0) by (rewrite H25, H75; reflexivity).
  destruct (batch_iqr_cero casi_plana atipica r_consumo_kwh med q25 q75
              (or_introl Logic.eq_refl) Hst H0)
    as (_ & Hz & _ & _ & Hp & _ & _ & _ & Hn).
  repeat split; assumption.
Defined.

End C10.

Section C6.

Import Pandas Evento Ejemplos.

(** In the event path equal quartiles leave the guard alone in the divisor:
    the z-score is [|v - median| / 1e-6], a finite value, a million times
    the distance to the median. *)
Lemma score_robusto_iqr_cero (v : Q) (serie : list Q) (med q25 q75 : Q) :
  Spec.estadisticas serie med q25 q75 -> q75 - q25 == 0 ->
  exists z : Q,
    score_robusto (Py.Float (Fin v)) serie = Py.Return (Fin z) /\
    z == Qabs (v - med) / eps /\ z == 1000000 * Qabs (v - med) /\
    (~ v == med -> 0 < z).
Proof.
  intros Hst H0. rewrite (score_robusto_Fin v serie med q25 q75 Hst).
  eexists. split; [reflexivity|].
  assert (E1 : Spec.deviation v med q25 q75 == Qabs (v - med) / eps).
  { unfold Spec.deviation. rewrite H0. rewrite Qplus_0_l. reflexivity. }
  assert (E2 : Qabs (v - med) / eps == 1000000 * Qabs (v - med))
    by (unfold eps; field).
  split; [exact E1|]. split; [now rewrite E1|].
  intros Hne. rewrite E1, E2.
  assert (0 < Qabs (v - med)).
  { destruct (Q_dec v med) as [[Hlt | Hgt] | Heq]; [| |contradiction].
    - apply Qabs_case; intros; lra.
    - apply Qabs_case; intros; lra. }
  lra.
Qed.

(** C6, the batch path at a failing input.  In [casi_plana] the energy
    quartiles of hour 3 are both 500 and the reading [atipica] has energy
    900.  The event path scores that value [400000000] against the same
    readings; the batch loop gives NaN, for [atipica] and for the readings
    at the median alike, and all of them are classified Crítica. *)
Lemma batch_iqr_cero_sin_guarda :
  (exists z : Q,
      score_robusto (Py.Float (Fin 900)) (map r_consumo_kwh (contexto casi_plana 3))
      = Py.Return (Fin z) /\ z == 400000000) /\
  Batch.z r_consumo_kwh casi_plana atipica = NaN /\
  Batch.anomalia_score_raw casi_plana atipica = NaN /\
  Batch.nivel_anomalia casi_plana atipica = "Crítica" /\
  (forall r : fila, In r casi_plana ->
      Batch.z r_consumo_kwh casi_plana r = NaN /\
      Batch.nivel_anomalia casi_plana r = "Crítica").
Proof.
  destruct casi_plana_estadisticas as (med & q25 & q75 & Hst & Hm & H25 & H75).
  assert (H0 : q75 - q25 == 0) by (rewrite H25, H75; reflexivity).
  assert (Hall : forall r : fila, In r casi_plana ->
             Batch.z r_consumo_kwh casi_plana r = NaN /\
             Batch.nivel_anomalia casi_plana r = "Crítica").
  { intros r Hr.
    assert (Hh : r_hora r = r_hora atipica).
    { revert r Hr. apply Forall_forall. vm_compute.
      repeat (constructor; [reflexivity|]). constructor. }
    assert (Hz : Batch.z r_consumo_kwh casi_plana r = NaN)
      by (apply (batch_z_NaN _ _ _ med q25 q75); [rewrite Hh; exact Hst | exact H0]).
    split; [exact Hz|].
    apply batch_NaN_critica, batch_raw_NaN. now left. }
  split.
  { destruct (score_robusto_iqr_cero 900 _ med q25 q75 Hst H0) as (z & Hz & _ & Hz2 & _).
    exists z. split; [exact Hz|]. rewrite Hz2, Hm. reflexivity. }
  destruct (Hall atipica (or_introl Logic.eq_refl)) as [Hz Hn].
  split; [exact Hz|]. split; [apply batch_raw_NaN; now left|].
  split; [exact Hn | exact Hall].
Qed.

End C6.

(** ** Further properties of the event path *)

Section Extras.

Import Pandas Evento Ejemplos.

(** Degenerate spread in the event path.  Against a sufficient context
    whose energy quartiles are equal, and for a candidate whose energy is
    within [1e300] of the median (so that the quotient by [1e-6] stays far
    inside the range of binary64), the evaluation succeeds and its energy
    z-score is a million times the distance of the value to the median: at
    most [1e306], and positive when the value differs from the median. *)
Theorem evento_iqr_cero (df_ref : DataFrame) (hora : Z) (e a c : Q) (med q25 q75 : Q) :
  (50 <= List.length (contexto df_ref hora))%nat ->
  Spec.estadisticas (map r_consumo_kwh (contexto df_ref hora)) med q25 q75 ->
  q75 - q25 == 0 ->
  Qabs (e - med) <= inject_Z (10 ^ 300) ->
  exists (l : locales) (z : Q),
    evaluar (contexto df_ref hora) (Py.Float (Fin e)) (Py.Float (Fin a)) (Py.Float (Fin c))
    = Py.Return l /\
    l_z_consumo l = Fin z /\
    z == 1000000 * Qabs (e - med) /\
    z <= inject_Z (10 ^ 306) /\
    (~ e == med -> 0 < z).
Proof.
  intros Hlen He H0 Hb.
  destruct (estadisticas_total _ (contexto_serie r_agua_litros _ Hlen))
    as (ma & a1 & a3 & Ha & _).
  destruct (estadisticas_total _ (contexto_serie r_co2_kg _ Hlen))
    as (mc & c1 & c3 & Hc & _).
  pose proof (evaluar_numerico _ e a c _ _ _ _ _ _ _ _ _ He Ha Hc) as Hev.
  cbv zeta in Hev.
  destruct (score_robusto_iqr_cero e _ med q25 q75 He H0) as (z & Hz & _ & Hz2 & Hz3).
  rewrite (score_robusto_Fin e _ _ _ _ He) in Hz. apply Return_inj in Hz.
  eexists _, z. split; [exact Hev|]. cbn [l_z_consumo].
  split; [exact Hz|]. split; [exact Hz2|]. split; [|exact Hz3].
  rewrite Hz2.
  assert (E : inject_Z (10 ^ 306) == 1000000 * inject_Z (10 ^ 300))
    by (vm_compute; reflexivity).
  rewrite E. apply Qmult_le_l; [reflexivity | exact Hb].
Qed.

(** [evento_iqr_cero] applies to the 60 readings of [casi_plana]. *)
Lemma evento_iqr_cero_ejemplo :
  exists (l : locales) (z : Q),
    evaluar (contexto casi_plana 3) (Py.Float (Fin 900)) (Py.Float (Fin 3000)) (Py.Float (Fin 15))
    = Py.Return l /\
    l_z_consumo l = Fin z /\ 0 < z.
Proof.
  assert (Hlen : (50 <= List.length (contexto casi_plana 3))%nat)
    by (vm_compute; lia).
  eassert (Hst : Spec.estadisticas (map r_consumo_kwh (contexto casi_plana 3)) _ _ _)
    by (repeat split; vm_compute; reflexivity).
  destruct (evento_iqr_cero casi_plana 3 900 3000 15 _ _ _ Hlen Hst)
    as (l & z & Hev & Hz & _ & _ & Hpos);
    [vm_compute; reflexivity | vm_compute; discriminate |].
  exists l, z. split; [exact Hev|]. split; [exact Hz|].
  apply Hpos. vm_compute. discriminate.
Defined.

(** A candidate at the three medians.  Every z-score is 0, the raw score is
    0, the final score is 0 and the returned score is 0. *)
Theorem evento_en_medianas (df_ref : DataFrame) (ts : string) (hora : Z)
    (me e1 e3 ma a1 a3 mc c1 c3 : Q) :
  (50 <= List.length (contexto df_ref hora))%nat ->
  Spec.estadisticas (map r_consumo_kwh (contexto df_ref hora)) me e1 e3 ->
  Spec.estadisticas (map r_agua_litros (contexto df_ref hora)) ma a1 a3 ->
  Spec.estadisticas (map r_co2_kg (contexto df_ref hora)) mc c1 c3 ->
  exists (l : locales) (d : gmap string Py.valor),
    evaluar (contexto df_ref hora) (Py.Float (Fin me)) (Py.Float (Fin ma)) (Py.Float (Fin mc))
    = Py.Return l /\
    l_z_consumo l =f= Fin 0 /\ l_z_agua l =f= Fin 0 /\ l_z_co2 l =f= Fin 0 /\
    l_score_raw l =f= Fin 0 /\
    l_score_final l = Float.RFin 0%R /\
    detectar_anomalia_evento df_ref ts hora
       (Py.Float (Fin me)) (Py.Float (Fin ma)) (Py.Float (Fin mc)) = Py.Return d /\
    d !! "score" = Some (Py.VLog (Float.RFin 0%R)).
Proof.
  intros Hlen He Ha Hc.
  pose proof (evaluar_numerico _ me ma mc _ _ _ _ _ _ _ _ _ He Ha Hc) as Hev.
  cbv zeta in Hev.
  assert (Hdev : forall m q25 q75 : Q, Spec.deviation m m q25 q75 == 0).
  { intros m q25 q75. unfold Spec.deviation.
    assert (E : m - m == 0) by ring. rewrite E. reflexivity. }
  pose proof (Hdev me e1 e3) as De. pose proof (Hdev ma a1 a3) as Da.
  pose proof (Hdev mc c1 c3) as Dc.
  pose proof (score_raw_Fin (Spec.deviation me me e1 e3) (Spec.deviation ma ma a1 a3)
                            (Spec.deviation mc mc c1 c3)) as Hraw.
  destruct (score_raw _ _ _) as [r|] eqn:Er; [|contradiction].
  cbn [Float.eq] in Hraw.
  assert (Hr0 : r == 0).
  { rewrite Hraw. unfold Spec.raw_score. rewrite De, Da, Dc. reflexivity. }
  eexists _, _. split; [exact Hev|].
  cbn [l_z_consumo l_z_agua l_z_co2 l_score_raw l_score_final Float.eq].
  split; [exact De|]. split; [exact Da|]. split; [exact Dc|].
  split; [exact Hr0|]. split; [now apply log1p_0|].
  split.
  { rewrite detectar_suficiente by exact Hlen. rewrite Hev. reflexivity. }
  rewrite lookup_score. cbn [l_score_final]. rewrite (log1p_0 r Hr0).
  do 2 f_equal. apply round2_R_small. Lra.lra.
Qed.

(** [evento_en_medianas] applies to [historia 50]. *)
Lemma evento_en_medianas_ejemplo :
  exists (e a c : Q) (d : gmap string Py.valor),
    detectar_anomalia_evento (historia 50) "2025-06-24 12:00" 12
       (Py.Float (Fin e)) (Py.Float (Fin a)) (Py.Float (Fin c)) = Py.Return d /\
    d !! "score" = Some (Py.VLog (Float.RFin 0%R)).
Proof.
  assert (Hlen : (50 <= List.length (contexto (historia 50) 12))%nat)
    by (vm_compute; lia).
  eassert (He : Spec.estadisticas (map r_consumo_kwh (contexto (historia 50) 12)) _ _ _)
    by (repeat split; vm_compute; reflexivity).
  eassert (Ha : Spec.estadisticas (map r_agua_litros (contexto (historia 50) 12)) _ _ _)
    by (repeat split; vm_compute; reflexivity).
  eassert (Hc : Spec.estadisticas (map r_co2_kg (contexto (historia 50) 12)) _ _ _)
    by (repeat split; vm_compute; reflexivity).
  destruct (evento_en_medianas (historia 50) "2025-06-24 12:00" 12
              _ _ _ _ _ _ _ _ _ Hlen He Ha Hc)
    as (l & d & _ & _ & _ & _ & _ & _ & Hd & Hs).
  eexists _, _, _, d. split; [exact Hd | exact Hs].
Defined.

(** No division by zero.  In the event path the divisor [iqr + 1e-6] of a
    non-empty series is a positive number; in the batch path it is NaN
    (equal quartiles, or an empty group) or a positive number. *)
Theorem divisores_no_nulos (serie : list Q) :
  (serie <> [] -> exists d : Q, denominador serie = Fin d /\ 0 < d) /\
  (Float.add (Batch.iqr serie) (Fin eps) = NaN \/
   exists d : Q, Float.add (Batch.iqr serie) (Fin eps) = Fin d /\ 0 < d).
Proof.
  split; [|apply batch_denominador].
  intros Hne. destruct (estadisticas_total serie Hne) as (med & q25 & q75 & Hst & _).
  destruct (denominador_positivo _ _ _ _ Hst) as [Hd Hpos].
  eexists. split; eassumption.
Qed.

(** The chatbot answer on a full classification.  For a numeric candidate
    with a sufficient context, [respuesta_chatbot] applied to the result of
    the evaluator returns a message: it raises only on the
    insufficient-data result. *)
Theorem chatbot_completo (df_ref : DataFrame) (ts : string) (hora : Z) (x y z : num) :
  (50 <= List.length (contexto df_ref hora))%nat ->
  exists (d : gmap string Py.valor) (m : list Py.trozo),
    detectar_anomalia_evento df_ref ts hora (Py.Float x) (Py.Float y) (Py.Float z)
    = Py.Return d /\
    Chatbot.respuesta_chatbot d = Py.Return m.
Proof.
  intros Hlen.
  destruct (evaluar_total (contexto df_ref hora) x y z) as [l Hev].
  destruct (respuesta_completa ts (l_nivel l) (l_percentil l) (l_score_final l)
                               (l_causas l)) as [m Hm].
  eexists _, m. split; [|exact Hm].
  rewrite detectar_suficiente by exact Hlen. rewrite Hev. reflexivity.
Qed.

(** [chatbot_completo] applies to [historia 50]. *)
Lemma chatbot_completo_ejemplo :
  exists (d : gmap string Py.valor) (m : list Py.trozo),
    detectar_anomalia_evento (historia 50) "2025-06-24 12:00" 12
       (Py.Float (Fin 7200)) (Py.Float (Fin 180000)) (Py.Float (Fin 1600)) = Py.Return d /\
    Chatbot.respuesta_chatbot d = Py.Return m.
Proof.
  apply (chatbot_completo (historia 50) "2025-06-24 12:00" 12
                          (Fin 7200) (Fin 180000) (Fin 1600)).
  vm_compute. lia.
Defined.

End Extras.

(** ** What the event evaluator depends on *)

Section Dependencias.

Import Pandas Evento Ejemplos.

Lemma contexto_vacio (otras : DataFrame) (hora : Z) :
  (forall r : fila, In r otras -> r_hora r <> hora) -> contexto otras hora = [].
Proof.
  intros Hno. unfold contexto.
  induction otras as [|r t IH]; [reflexivity|]. simpl.
  destruct (Z.eqb_spec (r_hora r) hora) as [Heq | Hne].
  - exfalso. apply (Hno r); [now left | exact Heq].
  - apply IH. intros r' Hr'. apply Hno. now right.
Qed.

Lemma contexto_app (a b : DataFrame) (hora : Z) :
  contexto (a ++ b)%list hora = (contexto a hora ++ contexto b hora)%list.
Proof. apply filter_app. Qed.

Lemma contexto_idem (df : DataFrame) (hora : Z) :
  contexto (contexto df hora) hora = contexto df hora.
Proof.
  unfold contexto. induction df as [|r t IH]; [reflexivity|]. simpl.
  destruct (r_hora r =? hora)%Z eqn:E; [|exact IH].
  simpl. rewrite E. now rewrite IH.
Qed.

Lemma detectar_contexto (df df' : DataFrame) (ts : string) (hora : Z)
    (consumo agua co2 : Py.obj) :
  contexto df hora = contexto df' hora ->
  detectar_anomalia_evento df ts hora consumo agua co2
  = detectar_anomalia_evento df' ts hora consumo agua co2.
Proof. intros E. unfold detectar_anomalia_evento. now rewrite E. Qed.

(** Readings of other hours never matter.  Appending to the reference
    table, or inserting at its head, readings whose hour is not the
    candidate's leaves the result of the evaluator unchanged, whatever the
    candidate; the result is the one obtained from the readings of that hour
    alone. *)
Theorem evento_solo_su_hora (df antes despues : DataFrame) (ts : string) (hora : Z)
    (consumo agua co2 : Py.obj) :
  (forall r : fila, In r antes -> r_hora r <> hora) ->
  (forall r : fila, In r despues -> r_hora r <> hora) ->
  detectar_anomalia_evento (antes ++ df ++ despues)%list ts hora consumo agua co2
  = detectar_anomalia_evento df ts hora consumo agua co2 /\
  detectar_anomalia_evento df ts hora consumo agua co2
  = detectar_anomalia_evento (contexto df hora) ts hora consumo agua co2.
Proof.
  intros Ha Hd. split; apply detectar_contexto.
  - rewrite !contexto_app, (contexto_vacio antes), (contexto_vacio despues)
      by assumption.
    simpl. apply app_nil_r.
  - symmetry. apply contexto_idem.
Qed.

(** [evento_solo_su_hora] applies to [historia 50] (noon) surrounded by the
    readings of three in the morning of [plana]. *)
Lemma evento_solo_su_hora_ejemplo :
  detectar_anomalia_evento (plana 5 ++ historia 50 ++ plana 70)%list "2025-06-24 12:00" 12
     (Py.Float (Fin 7200)) (Py.Float (Fin 180000)) (Py.Float (Fin 1600))
  = detectar_anomalia_evento (historia 50) "2025-06-24 12:00" 12
     (Py.Float (Fin 7200)) (Py.Float (Fin 180000)) (Py.Float (Fin 1600)).
Proof.
  apply (evento_solo_su_hora (historia 50) (plana 5) (plana 70)).
  - apply Forall_forall. vm_compute. repeat (constructor; [discriminate|]). constructor.
  - apply Forall_forall. vm_compute. repeat (constructor; [discriminate|]). constructor.
Defined.

End Dependencias.

(** ** Monotonicity of the tier and of the score *)

Section Monotonia.

Import Pandas Evento Ejemplos.

Lemma rango_nivel_mono (p p' : Q) :
  p <= p' -> (Orden.rango (nivel (Fin p)) <= Orden.rango (nivel (Fin p')))%nat.
Proof.
  intros Hpp. unfold nivel. cbn [Float.ltb].
  destruct (Float.Qlt_bool p (90 # 100)) eqn:E1.
  - cbn. lia.
  - apply Qlt_bool_false_iff in E1.
    assert (E1' : Float.Qlt_bool p' (90 # 100) = false)
      by (apply Qlt_bool_false_iff; lra).
    rewrite E1'.
    destruct (Float.Qlt_bool p (97 # 100)) eqn:E2.
    + destruct (Float.Qlt_bool p' (97 # 100)); cbn; lia.
    + apply Qlt_bool_false_iff in E2.
      assert (E2' : Float.Qlt_bool p' (97 # 100) = false)
        by (apply Qlt_bool_false_iff; lra).
      rewrite E2'. cbn. lia.
Qed.

Lemma ln_le_mono (x y : R) : (0 < x)%R -> (x <= y)%R -> (ln x <= ln y)%R.
Proof.
  intros Hx [Hlt | ->]; [|apply Rle_refl].
  left. now apply ln_increasing.
Qed.

Lemma Int_part_mono (x y : R) : (x <= y)%R -> (Int_part x <= Int_part y)%Z.
Proof.
  intros Hxy.
  destruct (base_Int_part x) as [Hx1 _]. destruct (base_Int_part y) as [_ Hy2].
  assert (H : (IZR (Int_part x) < IZR (Int_part y + 1))%R).
  { rewrite plus_IZR. simpl. Lra.lra. }
  apply lt_IZR in H. lia.
Qed.

Lemma rint_R_cases (r : R) :
  Float.rint_R r = Int_part r \/ Float.rint_R r = (Int_part r + 1)%Z.
Proof.
  unfold Float.rint_R. cbv zeta.
  destruct (Rlt_dec _ _); [now left|].
  destruct (Rlt_dec _ _); [now right|].
  destruct (Z.even _); [now left | now right].
Qed.

(** Rounding to the nearest integer keeps the order. *)
Lemma rint_R_mono (x y : R) : (x <= y)%R -> (Float.rint_R x <= Float.rint_R y)%Z.
Proof.
  intros Hxy. pose proof (Int_part_mono x y Hxy) as Hi.
  destruct (Z.eq_dec (Int_part x) (Int_part y)) as [E | E].
  - assert (Hf : (frac_part x <= frac_part y)%R)
      by (unfold frac_part; rewrite E; Lra.lra).
    unfold Float.rint_R. cbv zeta. rewrite E.
    destruct (Rlt_dec (frac_part x) (1 / 2)) as [H1 | H1].
    + destruct (Rlt_dec (frac_part y) (1 / 2)); [lia|].
      destruct (Rlt_dec (1 / 2) (frac_part y)); [lia|].
      destruct (Z.even (Int_part y)); lia.
    + destruct (Rlt_dec (frac_part y) (1 / 2)) as [H2 | H2]; [Lra.lra|].
      destruct (Rlt_dec (1 / 2) (frac_part x)) as [H3 | H3].
      * destruct (Rlt_dec (1 / 2) (frac_part y)); [lia | Lra.lra].
      * destruct (Rlt_dec (1 / 2) (frac_part y)); [destruct (Z.even _); lia|].
        destruct (Z.even (Int_part y)); lia.
  - destruct (rint_R_cases x) as [-> | ->]; destruct (rint_R_cases y) as [-> | ->]; lia.
Qed.

(** The same on the rationals. *)
Lemma rint_mono (x y : Q) : x <= y -> (Float.rint x <= Float.rint y)%Z.
Proof.
  intros Hxy. pose proof (Qfloor_resp_le _ _ Hxy) as Hi.
  destruct (Z.eq_dec (Qfloor x) (Qfloor y)) as [E | E].
  - unfold Float.rint. cbv zeta. rewrite E.
    set (n := Qfloor y) in *.
    destruct (Float.Qlt_bool (x - inject_Z n) (1 # 2)) eqn:H1.
    + destruct (Float.Qlt_bool (y - inject_Z n) (1 # 2)); [lia|].
      destruct (Float.Qlt_bool (1 # 2) (y - inject_Z n)); [lia|].
      destruct (Z.even n); lia.
    + apply Qlt_bool_false_iff in H1.
      assert (H2 : Float.Qlt_bool (y - inject_Z n) (1 # 2) = false)
        by (apply Qlt_bool_false_iff; lra).
      rewrite H2.
      destruct (Float.Qlt_bool (1 # 2) (x - inject_Z n)) eqn:H3.
      * apply Qlt_bool_iff in H3.
        assert (H4 : Float.Qlt_bool (1 # 2) (y - inject_Z n) = true)
          by (apply Qlt_bool_iff; lra).
        rewrite H4. lia.
      * destruct (Float.Qlt_bool (1 # 2) (y - inject_Z n)); [destruct (Z.even n); lia|].
        destruct (Z.even n); lia.
  - destruct (rint_cases x) as [-> | ->]; destruct (rint_cases y) as [-> | ->]; lia.
Qed.

Lemma round2_mono (p p' : Q) :
  p <= p' ->
  Float.le (Float.round2 (Float.mul (Fin p) (Fin 100)))
           (Float.round2 (Float.mul (Fin p') (Fin 100))).
Proof.
  intros Hpp. cbn [Float.mul Float.lift2 Float.round2 Float.le].
  assert (H : (Float.rint (p * 100 * 100) <= Float.rint (p' * 100 * 100))%Z)
    by (apply rint_mono; lra).
  rewrite Zle_Qle in H.
  unfold Qdiv. apply Qmult_le_compat_r; [exact H | discriminate].
Qed.

(** A more anomalous reading never gets less.  Against a fixed context of
    at least 50 readings, if the raw score of candidate B is at most that of
    candidate A, then B's tier is at most A's (Normal below Alerta below
    Crítica), B's final score is at most A's, and so are the percentile and
    the score that the evaluator returns after rounding. *)
Theorem evento_monotono (df_ref : DataFrame) (hora : Z)
    (ea aa ca eb ab cb : Q) (la lb : locales) :
  (50 <= List.length (contexto df_ref hora))%nat ->
  evaluar (contexto df_ref hora) (Py.Float (Fin ea)) (Py.Float (Fin aa)) (Py.Float (Fin ca))
  = Py.Return la ->
  evaluar (contexto df_ref hora) (Py.Float (Fin eb)) (Py.Float (Fin ab)) (Py.Float (Fin cb))
  = Py.Return lb ->
  Float.le (l_score_raw lb) (l_score_raw la) ->
  (Orden.rango (l_nivel lb) <= Orden.rango (l_nivel la))%nat /\
  Orden.rle (l_score_final lb) (l_score_final la) /\
  Orden.rle (Float.round2_R (l_score_final lb)) (Float.round2_R (l_score_final la)) /\
  Float.le (Float.round2 (Float.mul (l_percentil lb) (Fin 100)))
           (Float.round2 (Float.mul (l_percentil la) (Fin 100))).
Proof.
  intros Hlen Ha Hb Hle.
  pose proof (contexto_no_vacio _ Hlen) as Hne.
  destruct (evaluar_finito _ ea aa ca Hlen) as (la' & ra & Ha' & Hra & Hra0 & Hfa).
  destruct (evaluar_finito _ eb ab cb Hlen) as (lb' & rb & Hb' & Hrb & Hrb0 & Hfb).
  rewrite Ha in Ha'. apply Return_inj in Ha'. subst la'.
  rewrite Hb in Hb'. apply Return_inj in Hb'. subst lb'.
  destruct (evaluar_causas _ _ _ _ _ Ha) as [_ Hna].
  destruct (evaluar_causas _ _ _ _ _ Hb) as [_ Hnb].
  pose proof (evaluar_percentil _ _ _ _ _ Ha) as Hpa.
  pose proof (evaluar_percentil _ _ _ _ _ Hb) as Hpb.
  rewrite percentil_fraccion in Hpa, Hpb by exact Hne.
  rewrite Hra, Hrb in *. cbn [Float.le] in Hle.
  pose proof (fraccion_menores_mono _ rb ra Hne Hle) as Hfr.
  assert (Hln : (ln (1 + Q2R rb) <= ln (1 + Q2R ra))%R).
  { apply Qle_Rle in Hle, Hrb0.
    replace (Q2R 0) with 0%R in Hrb0 by (unfold Q2R; simpl; Lra.lra).
    apply ln_le_mono; Lra.lra. }
  split; [rewrite Hna, Hnb, Hpa, Hpb; now apply rango_nivel_mono|].
  split; [rewrite Hfa, Hfb; exact Hln|].
  split.
  { rewrite Hfa, Hfb. cbn [Float.round2_R Orden.rle].
    apply Rmult_le_compat_r; [Lra.lra|].
    apply IZR_le, rint_R_mono. Lra.lra. }
  rewrite Hpa, Hpb. now apply round2_mono.
Qed.

(** [evento_monotono] applies to two candidates against [historia 50]. *)
Lemma evento_monotono_ejemplo :
  exists la lb : locales,
    evaluar (contexto (historia 50) 12)
            (Py.Float (Fin 7200)) (Py.Float (Fin 180000)) (Py.Float (Fin 1600))
    = Py.Return la /\
    evaluar (contexto (historia 50) 12)
            (Py.Float (Fin 30)) (Py.Float (Fin 2600)) (Py.Float (Fin 13))
    = Py.Return lb /\
    (Orden.rango (l_nivel lb) <= Orden.rango (l_nivel la))%nat /\
    Orden.rle (l_score_final lb) (l_score_final la).
Proof.
  assert (Hlen : (50 <= List.length (contexto (historia 50) 12))%nat)
    by (vm_compute; lia).
  eassert (He : Spec.estadisticas (map r_consumo_kwh (contexto (historia 50) 12)) _ _ _)
    by (repeat split; vm_compute; reflexivity).
  eassert (Ha : Spec.estadisticas (map r_agua_litros (contexto (historia 50) 12)) _ _ _)
    by (repeat split; vm_compute; reflexivity).
  eassert (Hc : Spec.estadisticas (map r_co2_kg (contexto (historia 50) 12)) _ _ _)
    by (repeat split; vm_compute; reflexivity).
  pose proof (evaluar_numerico _ 7200 180000 1600 _ _ _ _ _ _ _ _ _ He Ha Hc) as HA.
  pose proof (evaluar_numerico _ 30 2600 13 _ _ _ _ _ _ _ _ _ He Ha Hc) as HB.
  cbv zeta in HA, HB.
  eexists _, _. split; [exact HA|]. split; [exact HB|].
  eassert (Hle : Float.le (l_score_raw _) (l_score_raw _));
    [|destruct (evento_monotono (historia 50) 12 _ _ _ _ _ _ _ _ Hlen HA HB Hle)
        as (H1 & H2 & _)].
  - cbn [l_score_raw]. vm_compute. discriminate.
  - split; [exact H1 | exact H2].
Defined.

End Monotonia.

(** ** The batch path against the event path *)

Section BatchEvento.

Import Pandas Evento Ejemplos.

(** A batch spread that is not NaN: the group is not empty and its quartiles
    differ. *)
Lemma batch_iqr_no_NaN (serie : list Q) :
  Batch.iqr serie <> NaN ->
  exists med q25 q75 : Q,
    Spec.estadisticas serie med q25 q75 /\ q25 < q75 /\
    Batch.iqr serie = Fin (q75 - q25).
Proof.
  intros Hno.
  destruct serie as [|x t] eqn:E; [exfalso; apply Hno; reflexivity|].
  rewrite <- E in *.
  assert (Hne : serie <> []) by (rewrite E; discriminate).
  destruct (estadisticas_total serie Hne) as (med & q25 & q75 & Hst & Hq).
  exists med, q25, q75. split; [exact Hst|].
  destruct Hst as (Hm & H25 & H75).
  unfold Batch.iqr in *. rewrite H25, H75 in *.
  cbn [Float.sub Float.lift2 Batch.replace_0_nan] in *.
  destruct (Qeq_bool (q75 - q25) 0) eqn:E0; [exfalso; now apply Hno|].
  split; [|reflexivity].
  apply Qeq_bool_neq in E0.
  apply Qle_lteq in Hq. destruct Hq as [Hlt | Heq]; [exact Hlt|].
  exfalso. apply E0. rewrite Heq. ring.
Qed.

(** With a spread that is not NaN the batch z-score is the deviation of
    section 4.1, the value [score_robusto] gives. *)
Lemma batch_z_Fin (var : fila -> Q) (results : DataFrame) (r : fila) :
  Batch.iqr (map var (Batch.grupo results (r_hora r))) <> NaN ->
  exists med q25 q75 : Q,
    Spec.estadisticas (map var (Batch.grupo results (r_hora r))) med q25 q75 /\
    Batch.z var results r = Fin (Spec.deviation (var r) med q25 q75) /\
    score_robusto (Py.Float (Fin (var r))) (map var (contexto results (r_hora r)))
    = Py.Return (Batch.z var results r).
Proof.
  intros Hno.
  destruct (batch_iqr_no_NaN _ Hno) as (med & q25 & q75 & Hst & Hlt & Hiqr).
  exists med, q25, q75. split; [exact Hst|].
  assert (Hz : Batch.z var results r = Fin (Spec.deviation (var r) med q25 q75)).
  { unfold Batch.z. cbv zeta. rewrite Hiqr.
    destruct Hst as (Hm & _ & _). rewrite Hm.
    cbn [Float.sub Float.lift2 Float.abs Float.add].
    apply div_Fin_pos. unfold eps. lra. }
  split; [exact Hz|].
  rewrite Hz. exact (score_robusto_Fin (var r) _ med q25 q75 Hst).
Qed.

(** The event evaluation of a row against its hour group, in terms of the
    batch columns. *)
Lemma batch_evaluar (results : DataFrame) (r : fila) :
  Batch.iqr (map r_consumo_kwh (Batch.grupo results (r_hora r))) <> NaN ->
  Batch.iqr (map r_agua_litros (Batch.grupo results (r_hora r))) <> NaN ->
  Batch.iqr (map r_co2_kg (Batch.grupo results (r_hora r))) <> NaN ->
  evaluar (contexto results (r_hora r))
          (Py.Float (Fin (r_consumo_kwh r))) (Py.Float (Fin (r_agua_litros r)))
          (Py.Float (Fin (r_co2_kg r)))
  = Py.Return (Locales (Batch.z r_consumo_kwh results r)
                       (Batch.z r_agua_litros results r)
                       (Batch.z r_co2_kg results r)
                       (Batch.anomalia_score_raw results r)
                       (Batch.anomalia_score results r)
                       (percentil (contexto results (r_hora r))
                                  (Batch.anomalia_score_raw results r))
                       (nivel (percentil (contexto results (r_hora r))
                                  (Batch.anomalia_score_raw results r)))
                       (causas (Batch.z r_consumo_kwh results r)
                               (Batch.z r_agua_litros results r)
                               (Batch.z r_co2_kg results r))).
Proof.
  intros He Ha Hc.
  destruct (batch_z_Fin r_consumo_kwh results r He) as (me & e1 & e3 & Hse & Hze & Hre).
  destruct (batch_z_Fin r_agua_litros results r Ha) as (ma & a1 & a3 & Hsa & Hza & Hra).
  destruct (batch_z_Fin r_co2_kg results r Hc) as (mc & c1 & c3 & Hsc & Hzc & Hrc).
  unfold evaluar. rewrite Hre, Hra, Hrc. reflexivity.
Qed.

Lemma batch_raw_evento (results : DataFrame) (r : fila) :
  Batch.iqr (map r_consumo_kwh (Batch.grupo results (r_hora r))) <> NaN ->
  Batch.iqr (map r_agua_litros (Batch.grupo results (r_hora r))) <> NaN ->
  Batch.iqr (map r_co2_kg (Batch.grupo results (r_hora r))) <> NaN ->
  Batch.anomalia_score_raw results r
  = Spec.raw_score_de_fila (contexto results (r_hora r)) r.
Proof.
  intros He Ha Hc. unfold Spec.raw_score_de_fila.
  rewrite (batch_evaluar results r He Ha Hc). reflexivity.
Qed.

(** With spreads that are not NaN the batch raw score is a non-negative
    rational. *)
Lemma batch_raw_finito (results : DataFrame) (r : fila) :
  Batch.iqr (map r_consumo_kwh (Batch.grupo results (r_hora r))) <> NaN ->
  Batch.iqr (map r_agua_litros (Batch.grupo results (r_hora r))) <> NaN ->
  Batch.iqr (map r_co2_kg (Batch.grupo results (r_hora r))) <> NaN ->
  exists raw : Q, Batch.anomalia_score_raw results r = Fin raw /\ 0 <= raw.
Proof.
  intros He Ha Hc.
  destruct (batch_z_Fin r_consumo_kwh results r He) as (me & e1 & e3 & Hse & Hze & Hre).
  destruct (batch_z_Fin r_agua_litros results r Ha) as (ma & a1 & a3 & Hsa & Hza & Hra).
  destruct (batch_z_Fin r_co2_kg results r Hc) as (mc & c1 & c3 & Hsc & Hzc & Hrc).
  unfold Batch.anomalia_score_raw. rewrite Hze, Hza, Hzc.
  cbn [Float.mul Float.add Float.lift2]. eexists. split; [reflexivity|].
  assert (e1 <= e3) by (destruct Hse as (_ & H1 & H3);
    apply (quantile_mono (1 # 4) (3 # 4) _ _ _ ltac:(lra) ltac:(lra) ltac:(lra) H1 H3)).
  assert (a1 <= a3) by (destruct Hsa as (_ & H1 & H3);
    apply (quantile_mono (1 # 4) (3 # 4) _ _ _ ltac:(lra) ltac:(lra) ltac:(lra) H1 H3)).
  assert (c1 <= c3) by (destruct Hsc as (_ & H1 & H3);
    apply (quantile_mono (1 # 4) (3 # 4) _ _ _ ltac:(lra) ltac:(lra) ltac:(lra) H1 H3)).
  pose proof (deviation_nonneg (r_consumo_kwh r) me e1 e3 ltac:(assumption)) as D1.
  pose proof (deviation_nonneg (r_agua_litros r) ma a1 a3 ltac:(assumption)) as D2.
  pose proof (deviation_nonneg (r_co2_kg r) mc c1 c3 ltac:(assumption)) as D3.
  set (d1 := Spec.deviation _ me e1 e3) in *.
  set (d2 := Spec.deviation _ ma a1 a3) in *.
  set (d3 := Spec.deviation _ mc c1 c3) in *.
  lra.
Qed.

(** The two paths agree where no spread is degenerate.  For every row of a
    table whose hour group has a spread that is not NaN for each of the
    three signals, the batch z-scores, raw score and score of the row are
    the local variables of the event evaluation of the row's own three
    values against its hour group. *)
Theorem batch_igual_evento (results : DataFrame) (r : fila) :
  Batch.iqr (map r_consumo_kwh (Batch.grupo results (r_hora r))) <> NaN ->
  Batch.iqr (map r_agua_litros (Batch.grupo results (r_hora r))) <> NaN ->
  Batch.iqr (map r_co2_kg (Batch.grupo results (r_hora r))) <> NaN ->
  exists l : locales,
    evaluar (contexto results (r_hora r))
            (Py.Float (Fin (r_consumo_kwh r))) (Py.Float (Fin (r_agua_litros r)))
            (Py.Float (Fin (r_co2_kg r))) = Py.Return l /\
    Batch.z r_consumo_kwh results r = l_z_consumo l /\
    Batch.z r_agua_litros results r = l_z_agua l /\
    Batch.z r_co2_kg results r = l_z_co2 l /\
    Batch.anomalia_score_raw results r = l_score_raw l /\
    Batch.anomalia_score results r = l_score_final l /\
    Batch.anomalia_score_raw results r = Spec.raw_score_de_fila (contexto results (r_hora r)) r /\
    exists raw : Q, Batch.anomalia_score_raw results r = Fin raw /\ 0 <= raw.
Proof.
  intros He Ha Hc.
  eexists. split; [exact (batch_evaluar results r He Ha Hc)|].
  cbn [l_z_consumo l_z_agua l_z_co2 l_score_raw l_score_final].
  repeat (split; [reflexivity|]).
  split; [exact (batch_raw_evento results r He Ha Hc)|].
  exact (batch_raw_finito results r He Ha Hc).
Qed.

(** [batch_igual_evento] applies to the rows of [historia 50]. *)
Lemma batch_igual_evento_ejemplo :
  exists l : locales,
    evaluar (contexto (historia 50) 12)
            (Py.Float (Fin 1)) (Py.Float (Fin 100)) (Py.Float (Fin (1 # 2)))
    = Py.Return l /\
    Batch.anomalia_score_raw (historia 50) (Fila "2025-06-01 12:00" 12 1 100 (1 # 2))
    = l_score_raw l.
Proof.
  assert (He : Batch.iqr (map r_consumo_kwh (Batch.grupo (historia 50) 12)) <> NaN)
    by (vm_compute; discriminate).
  assert (Ha : Batch.iqr (map r_agua_litros (Batch.grupo (historia 50) 12)) <> NaN)
    by (vm_compute; discriminate).
  assert (Hc : Batch.iqr (map r_co2_kg (Batch.grupo (historia 50) 12)) <> NaN)
    by (vm_compute; discriminate).
  destruct (batch_igual_evento (historia 50) (Fila "2025-06-01 12:00" 12 1 100 (1 # 2))
              He Ha Hc)
    as (l & Hev & _ & _ & _ & Hraw & _).
  exists l. split; [exact Hev | exact Hraw].
Defined.

End BatchEvento.

(** ** The batch percentile *)

Section BatchRango.

Import Pandas Evento Ejemplos.

Lemma Q2R_0 : Q2R 0 = 0%R.
Proof. unfold Q2R. simpl. Lra.lra. Qed.

Lemma rltb_log1p (a b : Q) :
  0 <= a -> 0 <= b ->
  Float.rltb (Float.log1p (Fin a)) (Float.log1p (Fin b)) = Float.Qlt_bool a b.
Proof.
  intros Ha Hb. rewrite !log1p_Fin by lra. cbn [Float.rltb].
  pose proof (Qle_Rle _ _ Ha) as Ha'. pose proof (Qle_Rle _ _ Hb) as Hb'.
  rewrite Q2R_0 in Ha', Hb'.
  destruct (Rlt_dec (ln (1 + Q2R a)) (ln (1 + Q2R b))) as [H | H].
  - symmetry. apply Qlt_bool_iff. apply Rlt_Qlt.
    apply ln_lt_inv in H; Lra.lra.
  - symmetry. apply Qlt_bool_false_iff. apply Rle_Qle.
    destruct (Rle_or_lt (Q2R b) (Q2R a)) as [Hle | Hlt]; [exact Hle|].
    exfalso. apply H. apply ln_increasing; Lra.lra.
Qed.

Lemma reqb_log1p (a b : Q) :
  0 <= a -> 0 <= b ->
  Float.reqb (Float.log1p (Fin a)) (Float.log1p (Fin b)) = Qeq_bool a b.
Proof.
  intros Ha Hb. rewrite !log1p_Fin by lra. cbn [Float.reqb].
  pose proof (Qle_Rle _ _ Ha) as Ha'. pose proof (Qle_Rle _ _ Hb) as Hb'.
  rewrite Q2R_0 in Ha', Hb'.
  destruct (Req_dec_T (ln (1 + Q2R a)) (ln (1 + Q2R b))) as [H | H].
  - symmetry. apply Qeq_bool_iff. apply eqR_Qeq.
    apply ln_inv in H; Lra.lra.
  - destruct (Qeq_bool a b) eqn:E; [|reflexivity].
    apply Qeq_bool_iff in E. exfalso. apply H. now rewrite (Qeq_eqR _ _ E).
Qed.

Lemma filter_map_length_gen {A B : Type} (f : B -> bool) (g : A -> B) (l : list A) :
  List.length (filter f (map g l)) = List.length (filter (fun x => f (g x)) l).
Proof.
  induction l as [|x t IH]; simpl; [reflexivity|].
  destruct (f (g x)); simpl; now rewrite IH.
Qed.

Lemma filter_length_ext_in {A : Type} (f g : A -> bool) (l : list A) :
  (forall x, In x l -> f x = g x) ->
  List.length (filter f l) = List.length (filter g l).
Proof. intros H. now rewrite (filter_ext_in f g l H). Qed.

Lemma filter_length_all {A : Type} (f : A -> bool) (l : list A) :
  (forall x, In x l -> f x = true) -> List.length (filter f l) = List.length l.
Proof.
  induction l as [|x t IH]; intros H; simpl; [reflexivity|].
  rewrite (H x (or_introl Logic.eq_refl)). simpl. f_equal.
  apply IH. intros y Hy. apply H. now right.
Qed.

Lemma filter_length_disjoint {A : Type} (f g : A -> bool) (l : list A) :
  (forall x, In x l -> f x = true -> g x = false) ->
  (List.length (filter f l) + List.length (filter g l) <= List.length l)%nat.
Proof.
  induction l as [|x t IH]; intros H; simpl; [lia|].
  assert (IH' : (List.length (filter f t) + List.length (filter g t) <= List.length t)%nat)
    by (apply IH; intros y Hy; apply H; now right).
  destruct (f x) eqn:Ef.
  - rewrite (H x (or_introl Logic.eq_refl) Ef). simpl. lia.
  - destruct (g x); simpl; lia.
Qed.

Lemma filter_length_pos {A : Type} (f : A -> bool) (l : list A) (x : A) :
  In x l -> f x = true -> (1 <= List.length (filter f l))%nat.
Proof.
  intros Hin Hf.
  assert (Hx : In x (filter f l)) by (apply filter_In; now split).
  destruct (filter f l); [contradiction | simpl; lia].
Qed.

Lemma grupo_hora (results : DataFrame) (h : Z) (r : fila) :
  In r (Batch.grupo results h) -> In r results /\ r_hora r = h.
Proof.
  unfold Batch.grupo. rewrite filter_In. intros [Hin Hh].
  split; [exact Hin | now apply Z.eqb_eq].
Qed.

(** The rank of a row in its hour group, by counting raw scores. *)
Lemma batch_percentil_conteo (results : DataFrame) (r : fila) :
  In r results ->
  Batch.iqr (map r_consumo_kwh (Batch.grupo results (r_hora r))) <> NaN ->
  Batch.iqr (map r_agua_litros (Batch.grupo results (r_hora r))) <> NaN ->
  Batch.iqr (map r_co2_kg (Batch.grupo results (r_hora r))) <> NaN ->
  (1 <= Rango.iguales results r)%nat /\
  (Rango.menores results r + Rango.iguales results r
   <= List.length (Batch.grupo results (r_hora r)))%nat /\
  Batch.anomalia_percentil results r
  = Fin ((inject_Z (Z.of_nat (Rango.menores results r))
          + (inject_Z (Z.of_nat (Rango.iguales results r)) + 1) / 2)
         / inject_Z (Z.of_nat (List.length (Batch.grupo results (r_hora r))))) /\
  Spec.fraccion_menores (contexto results (r_hora r)) (Batch.anomalia_score_raw results r)
  = inject_Z (Z.of_nat (Rango.menores results r))
    / inject_Z (Z.of_nat (List.length (Batch.grupo results (r_hora r)))).
Proof.
  intros Hin He Ha Hc.
  set (g := Batch.grupo results (r_hora r)) in *.
  assert (Hg : forall r', In r' g ->
             exists q, Batch.anomalia_score_raw results r' = Fin q /\ 0 <= q).
  { intros r' Hr'. destruct (grupo_hora _ _ _ Hr') as [_ Hh].
    apply batch_raw_finito; rewrite Hh; assumption. }
  assert (Hrg : In r g).
  { unfold g, Batch.grupo. apply filter_In. split; [exact Hin | apply Z.eqb_refl]. }
  destruct (Hg r Hrg) as (q & Hq & Hq0).
  assert (Hk : (1 <= Rango.iguales results r)%nat).
  { unfold Rango.iguales. apply (filter_length_pos _ _ r Hrg).
    rewrite Hq. cbn [Rango.eqb]. apply Qeq_bool_iff. reflexivity. }
  assert (Hmk : (Rango.menores results r + Rango.iguales results r <= List.length g)%nat).
  { unfold Rango.menores, Rango.iguales. apply filter_length_disjoint.
    intros r' Hr' Hlt. destruct (Hg r' Hr') as (q' & Hq' & _).
    rewrite Hq, Hq' in *. cbn [Float.ltb Rango.eqb] in *.
    apply Qlt_bool_iff in Hlt.
    destruct (Qeq_bool q' q) eqn:E; [|reflexivity].
    apply Qeq_bool_iff in E. lra. }
  split; [exact Hk|]. split; [exact Hmk|]. split.
  - unfold Batch.anomalia_percentil, Batch.rank_pct.
    fold g.
    assert (Hsr : Batch.anomalia_score results r = Float.log1p (Fin q))
      by (unfold Batch.anomalia_score; now rewrite Hq).
    rewrite !Hsr.
    assert (Hnan : Float.r_is_nan (Float.log1p (Fin q)) = false)
      by (rewrite log1p_Fin by lra; reflexivity).
    rewrite Hnan. cbv zeta.
    rewrite !filter_map_length_gen.
    assert (E1 : List.length (filter (fun x => Float.rltb (Batch.anomalia_score results x)
                                                 (Float.log1p (Fin q))) g)
                 = Rango.menores results r).
    { unfold Rango.menores. fold g. apply filter_length_ext_in.
      intros r' Hr'. destruct (Hg r' Hr') as (q' & Hq' & Hq0').
      unfold Batch.anomalia_score. rewrite Hq, Hq'. cbn [Float.ltb].
      now apply rltb_log1p. }
    assert (E2 : List.length (filter (fun x => Float.reqb (Batch.anomalia_score results x)
                                                 (Float.log1p (Fin q))) g)
                 = Rango.iguales results r).
    { unfold Rango.iguales. fold g. apply filter_length_ext_in.
      intros r' Hr'. destruct (Hg r' Hr') as (q' & Hq' & Hq0').
      unfold Batch.anomalia_score. rewrite Hq, Hq'. cbn [Rango.eqb].
      now apply reqb_log1p. }
    assert (E3 : List.length (filter (fun x => negb (Float.r_is_nan (Batch.anomalia_score results x))) g)
                 = List.length g).
    { apply filter_length_all. intros r' Hr'. destruct (Hg r' Hr') as (q' & Hq' & Hq0').
      unfold Batch.anomalia_score. rewrite Hq'. rewrite log1p_Fin by lra. reflexivity. }
    rewrite E1, E2, E3. reflexivity.
  - unfold Spec.fraccion_menores. change (contexto results (r_hora r)) with g.
    f_equal. do 2 f_equal. unfold Rango.menores. fold g.
    apply filter_length_ext_in. intros r' Hr'.
    destruct (grupo_hora _ _ _ Hr') as [_ Hh].
    assert (Heq : Batch.anomalia_score_raw results r' = Spec.raw_score_de_fila g r').
    { unfold g. rewrite <- Hh. apply batch_raw_evento; rewrite Hh; assumption. }
    now rewrite Heq.
Qed.

End BatchRango.

Section BatchPercentil.

Import Pandas Evento Ejemplos Ejemplos2.

Lemma conteo_Q (m k n : nat) :
  (1 <= k)%nat -> (m + k <= n)%nat ->
  0 <= inject_Z (Z.of_nat m) /\ 1 <= inject_Z (Z.of_nat k) /\
  inject_Z (Z.of_nat m) + inject_Z (Z.of_nat k) <= inject_Z (Z.of_nat n).
Proof.
  intros Hk Hmk. repeat split.
  - change 0 with (inject_Z 0). rewrite <- Zle_Qle. lia.
  - change 1 with (inject_Z 1). rewrite <- Zle_Qle. lia.
  - rewrite <- inject_Z_plus, <- Zle_Qle. lia.
Qed.





End BatchPercentil.

(** ** The ten most critical events *)

Section TopCriticos.

Import Reporte.

Lemma antes_total (x y : num) : antes x y = false -> antes y x = true.
Proof.
  destruct x as [a|], y as [b|]; simpl; try discriminate; try reflexivity.
  intros H. apply Qle_bool_iff.
  destruct (Qle_bool b a) eqn:E; [discriminate|].
  apply Qlt_le_weak, Qlt_bool_iff. unfold Float.Qlt_bool. now rewrite E.
Qed.

Lemma antes_trans (x y z : num) :
  antes x y = true -> antes y z = true -> antes x z = true.
Proof.
  destruct x as [a|], y as [b|], z as [c|]; simpl; try discriminate; try reflexivity.
  rewrite !Qle_bool_iff. intros H1 H2. eapply Qle_trans; eassumption.
Qed.

(** A row that may stand before another one is not strictly below it. *)
Lemma antes_no_menor (x y : num) : antes x y = true -> Float.ltb x y = false.
Proof.
  destruct x as [a|], y as [b|]; simpl; try discriminate; try reflexivity.
  intros H. unfold Float.Qlt_bool. now rewrite H.
Qed.

Lemma insertar_In (key : fila -> num) (r x : fila) (l : list fila) :
  In x (insertar key r l) <-> x = r \/ In x l.
Proof.
  induction l as [|s t IH]; simpl.
  - intuition.
  - destruct (antes (key r) (key s)); simpl; [intuition|].
    rewrite IH. intuition.
Qed.

Lemma sort_values_In (key : fila -> num) (x : fila) (l : list fila) :
  In x (sort_values_desc key l) <-> In x l.
Proof.
  induction l as [|r t IH]; simpl; [reflexivity|].
  rewrite insertar_In, IH. intuition.
Qed.

Lemma insertar_length_desc (key : fila -> num) (r : fila) (l : list fila) :
  List.length (insertar key r l) = S (List.length l).
Proof.
  induction l as [|s t IH]; simpl; [reflexivity|].
  destruct (antes (key r) (key s)); simpl; [reflexivity | now rewrite IH].
Qed.

Lemma sort_values_length (key : fila -> num) (l : list fila) :
  List.length (sort_values_desc key l) = List.length l.
Proof.
  induction l as [|r t IH]; simpl; [reflexivity|].
  now rewrite insertar_length_desc, IH.
Qed.

Lemma insertar_desc_sorted (key : fila -> num) (r : fila) (l : list fila) :
  StronglySorted (fun a b => antes (key a) (key b) = true) l ->
  StronglySorted (fun a b => antes (key a) (key b) = true) (insertar key r l).
Proof.
  induction 1 as [|s t Hs IH Hall]; simpl.
  - constructor; constructor.
  - destruct (antes (key r) (key s)) eqn:E.
    + constructor; [constructor; assumption|].
      constructor; [exact E|].
      eapply Forall_impl; [|exact Hall].
      intros z Hz. eapply antes_trans; eassumption.
    + constructor; [exact IH|].
      apply Forall_forall. intros z Hz. apply insertar_In in Hz.
      destruct Hz as [-> | Hz].
      * now apply antes_total.
      * rewrite Forall_forall in Hall. now apply Hall.
Qed.

Lemma sort_values_sorted (key : fila -> num) (l : list fila) :
  StronglySorted (fun a b => antes (key a) (key b) = true) (sort_values_desc key l).
Proof.
  induction l as [|r t IH]; simpl; [constructor|].
  now apply insertar_desc_sorted.
Qed.

Lemma sorted_app_inv {A : Type} (R : A -> A -> Prop) (a b : list A) :
  StronglySorted R (a ++ b)%list ->
  StronglySorted R a /\ forall x y, In x a -> In y b -> R x y.
Proof.
  induction a as [|h t IH]; simpl; intros Hs.
  - split; [constructor | contradiction].
  - apply StronglySorted_inv in Hs. destruct Hs as [Hs Hall].
    destruct (IH Hs) as [Hst Hcross].
    rewrite Forall_forall in Hall. split.
    + constructor; [exact Hst|]. apply Forall_forall.
      intros z Hz. apply Hall, in_or_app. now left.
    + intros x y [-> | Hx] Hy.
      * apply Hall, in_or_app. now right.
      * now apply Hcross.
Qed.

(** The ten most critical events.  [top_criticos] has at most ten lines,
    exactly ten when the table has ten critical rows or more; every line is
    a critical row of the table; the lines are in decreasing order of raw
    score, NaN scores last; and a critical row that is left out is not
    strictly above any line: every line may stand before it. *)
Theorem top_criticos_correcto (results : DataFrame) :
  List.length (top_criticos results)
  = Nat.min 10 (List.length (criticas results)) /\
  (forall c : critico, In c (top_criticos results) ->
     exists r : fila, In r results /\ Batch.nivel_anomalia results r = "Crítica" /\
                      c = columnas results r) /\
  StronglySorted (fun c c' => antes (c_anomalia_score_raw c) (c_anomalia_score_raw c') = true)
                 (top_criticos results) /\
  (forall r : fila, In r results -> Batch.nivel_anomalia results r = "Crítica" ->
     In (columnas results r) (top_criticos results) \/
     forall c : critico, In c (top_criticos results) ->
       antes (c_anomalia_score_raw c) (Batch.anomalia_score_raw results r) = true /\
       Float.ltb (c_anomalia_score_raw c) (Batch.anomalia_score_raw results r) = false).
Proof.
  unfold top_criticos.
  set (key := Batch.anomalia_score_raw results).
  set (s := sort_values_desc key (criticas results)).
  pose proof (sort_values_sorted key (criticas results)) as Hs. fold s in Hs.
  rewrite <- (firstn_skipn 10 s) in Hs.
  destruct (sorted_app_inv _ _ _ Hs) as [Hs1 Hcross].
  split.
  { rewrite length_map, length_firstn. unfold s. now rewrite sort_values_length. }
  split.
  { intros c Hc. apply in_map_iff in Hc. destruct Hc as (r & <- & Hr).
    assert (Hr2 : In r s) by (rewrite <- (firstn_skipn 10 s); apply in_or_app; now left).
    clear Hr. rename Hr2 into Hr. unfold s in Hr. apply sort_values_In in Hr.
    unfold criticas in Hr. apply filter_In in Hr. destruct Hr as [Hin Hn].
    exists r. split; [exact Hin|]. split; [now apply String.eqb_eq | reflexivity]. }
  split.
  { clear Hs Hcross. induction Hs1 as [|r t Ht IH Hall]; simpl; constructor.
    - exact IH.
    - apply Forall_forall. intros c Hc. apply in_map_iff in Hc.
      destruct Hc as (r' & <- & Hr'). rewrite Forall_forall in Hall.
      exact (Hall r' Hr'). }
  intros r Hin Hn.
  assert (Hrs : In r s).
  { unfold s. apply sort_values_In. unfold criticas. apply filter_In.
    split; [exact Hin | now apply String.eqb_eq]. }
  rewrite <- (firstn_skipn 10 s) in Hrs. apply in_app_or in Hrs.
  destruct Hrs as [H1 | H2].
  - left. now apply in_map.
  - right. intros c Hc. apply in_map_iff in Hc. destruct Hc as (r' & <- & Hr').
    pose proof (Hcross r' r Hr' H2) as Hb. cbn [c_anomalia_score_raw columnas].
    split; [exact Hb | now apply antes_no_menor].
Qed.

End TopCriticos.

(** ** The tier of an event, by counting *)

Section NivelConteo.

Import Pandas Evento Ejemplos.

Lemma scores_hist_length (ctx : DataFrame) :
  List.length (scores_hist ctx) = List.length ctx.
Proof. unfold scores_hist. apply length_map. Qed.

(** The percentile is the count of [Conteo.menores] over the size of the
    context. *)
Lemma percentil_conteo (ctx : DataFrame) (x : num) :
  ctx <> [] ->
  percentil ctx x
  = Fin (inject_Z (Z.of_nat (Conteo.menores ctx x))
         / inject_Z (Z.of_nat (List.length ctx))).
Proof.
  intros Hne. unfold percentil, Pandas.mean_bool, Conteo.menores.
  rewrite filter_map_length, length_map, scores_hist_length.
  destruct (map (fun s => Float.ltb s x) (scores_hist ctx)) eqn:Em; [|reflexivity].
  exfalso. apply map_eq_nil in Em. unfold scores_hist in Em.
  apply map_eq_nil in Em. contradiction.
Qed.

Lemma cociente_lt (M N c : Q) : 0 < N -> (M / N < c <-> M < c * N).
Proof.
  intros HN. split; intros H.
  - assert (E : M == M / N * N) by (field; lra).
    rewrite E. apply Qmult_lt_compat_r; assumption.
  - apply Qlt_shift_div_r; assumption.
Qed.

(** A quotient of counters against a threshold in hundredths. *)
Lemma umbral_conteo (m n : nat) (a : positive) :
  (0 < n)%nat ->
  (inject_Z (Z.of_nat m) / inject_Z (Z.of_nat n) < Z.pos a # 100
   <-> (100 * m < Pos.to_nat a * n)%nat).
Proof.
  intros Hn.
  assert (HN : 0 < inject_Z (Z.of_nat n))
    by (change 0 with (inject_Z 0); rewrite <- Zlt_Qlt; lia).
  rewrite (cociente_lt _ _ _ HN).
  unfold Qlt, Qmult, inject_Z. cbn [Qnum Qden].
  rewrite !Z.mul_1_r.
  change (Z.pos (1 * 100)) with 100%Z.
  rewrite <- (positive_nat_Z a).
  split; intros H; nia.
Qed.

(** The tier of an event is decided by a count.  For every numeric
    candidate (NaN included) with [n >= 50] readings of its hour, let [m] be
    the number of entries of [scores_hist], the historical scores as the
    code computes them, that are strictly below the candidate's raw score.
    The tier is Normal exactly when [100 m < 90 n], Alerta exactly when
    [90 n <= 100 m < 97 n] and Crítica exactly when [97 n <= 100 m]; and
    [m = n] exactly when every entry of [scores_hist] is strictly below the
    candidate's raw score. *)
Theorem evento_nivel_conteo (df_ref : DataFrame) (hora : Z) (x y z : num) (l : locales) :
  (50 <= List.length (contexto df_ref hora))%nat ->
  evaluar (contexto df_ref hora) (Py.Float x) (Py.Float y) (Py.Float z) = Py.Return l ->
  (Conteo.menores (contexto df_ref hora) (l_score_raw l)
   <= List.length (contexto df_ref hora))%nat /\
  (l_nivel l = "Normal"
   <-> (100 * Conteo.menores (contexto df_ref hora) (l_score_raw l)
        < 90 * List.length (contexto df_ref hora))%nat) /\
  (l_nivel l = "Alerta"
   <-> (90 * List.length (contexto df_ref hora)
        <= 100 * Conteo.menores (contexto df_ref hora) (l_score_raw l))%nat /\
       (100 * Conteo.menores (contexto df_ref hora) (l_score_raw l)
        < 97 * List.length (contexto df_ref hora))%nat) /\
  (l_nivel l = "Crítica"
   <-> (97 * List.length (contexto df_ref hora)
        <= 100 * Conteo.menores (contexto df_ref hora) (l_score_raw l))%nat) /\
  (Conteo.menores (contexto df_ref hora) (l_score_raw l)
   = List.length (contexto df_ref hora)
   <-> forall s : num, In s (scores_hist (contexto df_ref hora)) ->
         Float.ltb s (l_score_raw l) = true).
Proof.
  intros Hlen Hev.
  pose proof (contexto_no_vacio _ Hlen) as Hne.
  set (ctx := contexto df_ref hora) in *.
  destruct (evaluar_causas _ _ _ _ _ Hev) as [_ Hniv].
  pose proof (evaluar_percentil _ _ _ _ _ Hev) as Hp.
  rewrite percentil_conteo in Hp by exact Hne.
  assert (Hmn : (Conteo.menores ctx (l_score_raw l) <= List.length ctx)%nat).
  { unfold Conteo.menores. rewrite <- (scores_hist_length ctx).
    apply List.filter_length_le. }
  assert (Hult : Conteo.menores ctx (l_score_raw l) = List.length ctx
                 <-> forall s : num, In s (scores_hist ctx) ->
                       Float.ltb s (l_score_raw l) = true).
  { unfold Conteo.menores. rewrite <- (scores_hist_length ctx). split.
    - intros Hall s Hs.
      destruct (Float.ltb s (l_score_raw l)) eqn:Es; [reflexivity | exfalso].
      pose proof (filter_length_pos
                    (fun s0 => negb (Float.ltb s0 (l_score_raw l)))
                    (scores_hist ctx) s Hs) as Hpos.
      cbv beta in Hpos. rewrite Es in Hpos. specialize (Hpos Logic.eq_refl).
      pose proof (filter_length_disjoint
                    (fun s0 => Float.ltb s0 (l_score_raw l))
                    (fun s0 => negb (Float.ltb s0 (l_score_raw l)))
                    (scores_hist ctx)) as Hd.
      assert (Hd' := Hd ltac:(intros s0 _ Hs0; cbv beta in *; rewrite Hs0; reflexivity)).
      lia.
    - intros Hall. apply filter_length_all. exact Hall. }
  set (m := Conteo.menores ctx (l_score_raw l)) in *.
  set (n := List.length ctx) in *.
  assert (Hn : (0 < n)%nat) by lia.
  pose proof (umbral_conteo m n 90 Hn) as U90.
  pose proof (umbral_conteo m n 97 Hn) as U97.
  change (Pos.to_nat 90) with 90%nat in U90.
  change (Pos.to_nat 97) with 97%nat in U97.
  rewrite Hniv, Hp. unfold nivel.
  split; [exact Hmn|].
  destruct (Float.ltb (Fin (inject_Z (Z.of_nat m) / inject_Z (Z.of_nat n))) (Fin (90 # 100)))
    eqn:E90;
  destruct (Float.ltb (Fin (inject_Z (Z.of_nat m) / inject_Z (Z.of_nat n))) (Fin (97 # 100)))
    eqn:E97;
  first [apply ltb_Fin in E90 | apply ltb_Fin_false in E90];
  first [apply ltb_Fin in E97 | apply ltb_Fin_false in E97];
  try (apply U90 in E90); try (apply U97 in E97);
  try (assert (E90' : ~ (100 * m < 90 * n)%nat)
         by (intros Hc; apply U90 in Hc; lra));
  try (assert (E97' : ~ (100 * m < 97 * n)%nat)
         by (intros Hc; apply U97 in Hc; lra)).
  all: (split; [split; [first [intros _; lia | discriminate]
                        | first [intros _; reflexivity | lia]] |]).
  all: (split; [split; [first [intros _; lia | discriminate]
                        | first [intros _; reflexivity | lia]] |]).
  all: (split; [split; [first [intros _; lia | discriminate]
                        | first [intros _; reflexivity | lia]] |]).
  all: exact Hult.
Qed.

Lemma evento_nivel_conteo_ejemplo :
  (50 <= List.length (contexto (historia 50) 12))%nat /\
  exists l : locales,
    evaluar (contexto (historia 50) 12)
            (Py.Float (Fin 30)) (Py.Float (Fin 2600)) (Py.Float (Fin 13))
    = Py.Return l /\
    (l_nivel l = "Crítica"
     <-> (97 * List.length (contexto (historia 50) 12)
          <= 100 * Conteo.menores (contexto (historia 50) 12) (l_score_raw l))%nat).
Proof.
  assert (Hlen : (50 <= List.length (contexto (historia 50) 12))%nat)
    by (vm_compute; lia).
  split; [exact Hlen|].
  eassert (He : Spec.estadisticas (map r_consumo_kwh (contexto (historia 50) 12)) _ _ _)
    by (repeat split; vm_compute; reflexivity).
  eassert (Ha : Spec.estadisticas (map r_agua_litros (contexto (historia 50) 12)) _ _ _)
    by (repeat split; vm_compute; reflexivity).
  eassert (Hc : Spec.estadisticas (map r_co2_kg (contexto (historia 50) 12)) _ _ _)
    by (repeat split; vm_compute; reflexivity).
  pose proof (evaluar_numerico _ 30 2600 13 _ _ _ _ _ _ _ _ _ He Ha Hc) as HB.
  cbv zeta in HB.
  eexists. split; [exact HB|].
  destruct (evento_nivel_conteo (historia 50) 12 _ _ _ _ Hlen HB)
    as (_ & _ & _ & H & _).
  exact H.
Defined.

End NivelConteo.

(** ** The message of each tier *)

Section MensajeNivel.

Import Pandas Evento Ejemplos.

Lemma rint_entero (n : Z) : Float.rint (inject_Z n) = n.
Proof.
  unfold Float.rint. cbv zeta. rewrite Qfloor_Z.
  assert (H : Float.Qlt_bool (inject_Z n - inject_Z n) (1 # 2) = true)
    by (apply Qlt_bool_iff; lra).
  now rewrite H.
Qed.

Lemma rint_le_entero (x : Q) (n : Z) : x <= inject_Z n -> (Float.rint x <= n)%Z.
Proof. intros H. rewrite <- (rint_entero n). now apply rint_mono. Qed.

Lemma rint_ge_entero (x : Q) (n : Z) : inject_Z n <= x -> (n <= Float.rint x)%Z.
Proof. intros H. rewrite <- (rint_entero n). now apply rint_mono. Qed.

(** The message agrees with the tier.  For a numeric candidate with a
    sufficient context, the dictionary of the evaluator holds under
    [percentil] a number [k / 100] of two decimals, and the chatbot answers
    without error: for Normal the message interpolates the timestamp alone;
    for Alerta it shows the timestamp, the causes joined by a comma (there is
    at least one) and that percentile, which lies between 90 and 97; for
    Crítica the same with a percentile between 97 and 100. *)
Theorem chatbot_mensaje_nivel (df_ref : DataFrame) (ts : string) (hora : Z)
    (x y z : num) (l : locales) :
  (50 <= List.length (contexto df_ref hora))%nat ->
  evaluar (contexto df_ref hora) (Py.Float x) (Py.Float y) (Py.Float z) = Py.Return l ->
  exists (d : gmap string Py.valor) (k : Z) (m : list Py.trozo),
    detectar_anomalia_evento df_ref ts hora (Py.Float x) (Py.Float y) (Py.Float z)
    = Py.Return d /\
    d !! "percentil" = Some (Py.VFloat (Fin (inject_Z k / 100))) /\
    Chatbot.respuesta_chatbot d = Py.Return m /\
    (l_nivel l = "Normal" ->
       (0 <= k <= 9000)%Z /\ Mensaje.valores m = [Py.VStr ts]) /\
    (l_nivel l = "Alerta" ->
       (9000 <= k <= 9700)%Z /\ l_causas l <> [] /\
       In (Py.Texto (String.concat ", " (l_causas l))) m /\
       Mensaje.valores m = [Py.VStr ts; Py.VFloat (Fin (inject_Z k / 100))]) /\
    (l_nivel l = "Crítica" ->
       (9700 <= k <= 10000)%Z /\ l_causas l <> [] /\
       In (Py.Texto (String.concat ", " (l_causas l))) m /\
       Mensaje.valores m = [Py.VStr ts; Py.VFloat (Fin (inject_Z k / 100))]).
Proof.
  intros Hlen Hev.
  pose proof (contexto_no_vacio _ Hlen) as Hne.
  destruct (evaluar_causas _ _ _ _ _ Hev) as [Hcs Hniv].
  pose proof (evaluar_percentil _ _ _ _ _ Hev) as Hp.
  rewrite percentil_fraccion in Hp by exact Hne.
  destruct (fraccion_menores_rango _ (l_score_raw l) Hne) as [H0 H1].
  set (f := Spec.fraccion_menores (contexto df_ref hora) (l_score_raw l)) in *.
  assert (Hc : l_causas l <> []) by (rewrite Hcs; apply causas_no_vacia).
  assert (R0 : (0 <= Float.rint (f * 100 * 100))%Z)
    by (apply (rint_ge_entero _ 0); change (inject_Z 0) with 0; nra).
  assert (R1 : (Float.rint (f * 100 * 100) <= 10000)%Z)
    by (apply rint_le_entero; change (inject_Z 10000) with 10000; nra).
  assert (Rlo90 : 90 # 100 <= f -> (9000 <= Float.rint (f * 100 * 100))%Z)
    by (intros H; apply rint_ge_entero; change (inject_Z 9000) with 9000; lra).
  assert (Rhi90 : f < 90 # 100 -> (Float.rint (f * 100 * 100) <= 9000)%Z)
    by (intros H; apply rint_le_entero; change (inject_Z 9000) with 9000; lra).
  assert (Rlo97 : 97 # 100 <= f -> (9700 <= Float.rint (f * 100 * 100))%Z)
    by (intros H; apply rint_ge_entero; change (inject_Z 9700) with 9700; lra).
  assert (Rhi97 : f < 97 # 100 -> (Float.rint (f * 100 * 100) <= 9700)%Z)
    by (intros H; apply rint_le_entero; change (inject_Z 9700) with 9700; lra).
  assert (Hd : detectar_anomalia_evento df_ref ts hora (Py.Float x) (Py.Float y) (Py.Float z)
               = Py.Return (resultado_completo ts (l_nivel l) (l_percentil l)
                                               (l_score_final l) (l_causas l))).
  { rewrite detectar_suficiente by exact Hlen. rewrite Hev. reflexivity. }
  assert (Hk : Float.round2 (Float.mul (l_percentil l) (Fin 100))
               = Fin (inject_Z (Float.rint (f * 100 * 100)) / 100))
    by (rewrite Hp; reflexivity).
  set (d := resultado_completo ts (l_nivel l) (l_percentil l) (l_score_final l)
                               (l_causas l)) in *.
  exists d, (Float.rint (f * 100 * 100)).
  unfold Chatbot.respuesta_chatbot.
  change (Py.getitem d "nivel") with (Py.Return (Py.VStr (l_nivel l))).
  change (Py.getitem d "explicacion") with (Py.Return (Py.VList (l_causas l))).
  change (Py.getitem d "timestamp") with (Py.Return (Py.VStr ts)).
  change (Py.getitem d "percentil")
    with (Py.Return (Py.VFloat (Float.round2 (Float.mul (l_percentil l) (Fin 100))))).
  change (d !! "percentil")
    with (Some (Py.VFloat (Float.round2 (Float.mul (l_percentil l) (Fin 100))))).
  rewrite Hk.
  cbn [Py.bind Py.join Py.eq_str].
  rewrite Hniv, Hp. unfold nivel.
  destruct (Float.ltb (Fin f) (Fin (90 # 100))) eqn:E90.
  - apply ltb_Fin in E90.
    eexists. split; [exact Hd|]. split; [reflexivity|]. split; [reflexivity|].
    split; [|split; discriminate].
    intros _. split; [|reflexivity]. split; [exact R0 | now apply Rhi90].
  - apply ltb_Fin_false in E90.
    destruct (Float.ltb (Fin f) (Fin (97 # 100))) eqn:E97.
    + apply ltb_Fin in E97.
      eexists. split; [exact Hd|]. split; [reflexivity|]. split; [reflexivity|].
      split; [discriminate|]. split; [|discriminate].
      intros _. split; [split; [now apply Rlo90 | now apply Rhi97]|].
      split; [exact Hc|]. split; [|reflexivity].
      cbn [In]. tauto.
    + apply ltb_Fin_false in E97.
      eexists. split; [exact Hd|]. split; [reflexivity|]. split; [reflexivity|].
      split; [discriminate|]. split; [discriminate|].
      intros _. split; [split; [now apply Rlo97 | exact R1]|].
      split; [exact Hc|]. split; [|reflexivity].
      cbn [In]. tauto.
Qed.

Lemma chatbot_mensaje_nivel_ejemplo :
  exists (l : locales) (d : gmap string Py.valor) (m : list Py.trozo),
    evaluar (contexto (historia 50) 12)
            (Py.Float (Fin 30)) (Py.Float (Fin 2600)) (Py.Float (Fin 13))
    = Py.Return l /\
    detectar_anomalia_evento (historia 50) "2025-06-24 12:00" 12
            (Py.Float (Fin 30)) (Py.Float (Fin 2600)) (Py.Float (Fin 13))
    = Py.Return d /\
    Chatbot.respuesta_chatbot d = Py.Return m /\
    (l_nivel l = "Normal" -> Mensaje.valores m = [Py.VStr "2025-06-24 12:00"]).
Proof.
  assert (Hlen : (50 <= List.length (contexto (historia 50) 12))%nat)
    by (vm_compute; lia).
  eassert (He : Spec.estadisticas (map r_consumo_kwh (contexto (historia 50) 12)) _ _ _)
    by (repeat split; vm_compute; reflexivity).
  eassert (Ha : Spec.estadisticas (map r_agua_litros (contexto (historia 50) 12)) _ _ _)
    by (repeat split; vm_compute; reflexivity).
  eassert (Hc : Spec.estadisticas (map r_co2_kg (contexto (historia 50) 12)) _ _ _)
    by (repeat split; vm_compute; reflexivity).
  pose proof (evaluar_numerico _ 30 2600 13 _ _ _ _ _ _ _ _ _ He Ha Hc) as HB.
  cbv zeta in HB.
  destruct (chatbot_mensaje_nivel (historia 50) "2025-06-24 12:00" 12 _ _ _ _ Hlen HB)
    as (d & k & m & Hd & _ & Hm & Hn & _).
  eexists _, d, m. split; [exact HB|]. split; [exact Hd|]. split; [exact Hm|].
  intros H. apply Hn. exact H.
Defined.

End MensajeNivel.

(** ** The order of the rows *)

Section OrdenFilas.

Import Pandas Evento Ejemplos.

Lemma feq_refl (x : num) : x =f= x.
Proof. destruct x; simpl; [reflexivity | exact I]. Qed.

Lemma feq_sym (x y : num) : x =f= y -> y =f= x.
Proof. destruct x, y; simpl; try contradiction; auto. intros H. now symmetry. Qed.

Lemma feq_trans (x y z : num) : x =f= y -> y =f= z -> x =f= z.
Proof.
  destruct x, y, z; simpl; try contradiction; auto.
  intros H1 H2. now rewrite H1.
Qed.

Lemma sub_compat (x x' y y' : num) :
  x =f= x' -> y =f= y' -> Float.sub x y =f= Float.sub x' y'.
Proof.
  destruct x, x', y, y'; simpl; try contradiction; auto.
  intros -> ->. reflexivity.
Qed.

Lemma mul_compat (x x' y y' : num) :
  x =f= x' -> y =f= y' -> Float.mul x y =f= Float.mul x' y'.
Proof.
  destruct x, x', y, y'; simpl; try contradiction; auto.
  intros -> ->. reflexivity.
Qed.

Lemma abs_compat (x x' : num) : x =f= x' -> Float.abs x =f= Float.abs x'.
Proof.
  destruct x, x'; simpl; try contradiction; auto.
  intros ->. reflexivity.
Qed.

Lemma Qeq_bool_compat (a b : Q) : a == b -> Qeq_bool a 0 = Qeq_bool b 0.
Proof.
  intros E. apply eq_true_iff_eq. rewrite !Qeq_bool_iff. now rewrite E.
Qed.

Lemma div_compat (x x' y y' : num) :
  x =f= x' -> y =f= y' -> Float.div x y =f= Float.div x' y'.
Proof.
  destruct x as [a|], x' as [a'|], y as [b|], y' as [b'|];
    simpl; try contradiction; auto.
  intros Ha Hb. rewrite (Qeq_bool_compat b b' Hb).
  destruct (Qeq_bool b' 0) eqn:E; simpl; [exact I|].
  now rewrite Ha, Hb.
Qed.

Lemma ltb_compat_r (x y y' : num) : y =f= y' -> Float.ltb x y = Float.ltb x y'.
Proof.
  destruct x as [a|], y as [b|], y' as [b'|]; simpl; try contradiction; auto.
  intros E. apply eq_true_iff_eq. rewrite !Qlt_bool_iff. now rewrite E.
Qed.

Lemma log1p_compat (x y : num) : x =f= y -> Float.log1p x = Float.log1p y.
Proof.
  destruct x as [a|], y as [b|]; simpl; try contradiction; auto.
  intros E.
  assert (E1 : Float.Qlt_bool (-1) a = Float.Qlt_bool (-1) b)
    by (apply eq_true_iff_eq; rewrite !Qlt_bool_iff; now rewrite E).
  assert (E2 : Qeq_bool a (-1) = Qeq_bool b (-1))
    by (apply eq_true_iff_eq; rewrite !Qeq_bool_iff; now rewrite E).
  rewrite E1, E2, (Qeq_eqR _ _ E). reflexivity.
Qed.

Lemma Forall2_Qeq_refl (l : list Q) : Forall2 Qeq l l.
Proof. induction l; constructor; [reflexivity | assumption]. Qed.

Lemma Forall2_Qeq_trans (l1 l2 l3 : list Q) :
  Forall2 Qeq l1 l2 -> Forall2 Qeq l2 l3 -> Forall2 Qeq l1 l3.
Proof.
  intros H. revert l3. induction H as [|a b t1 t2 Hab Ht IH]; intros l3 H3.
  - inversion H3. constructor.
  - inversion H3 as [|b' c t2' t3 Hbc Ht3]; subst.
    constructor; [now rewrite Hab | now apply IH].
Qed.

Lemma Qle_bool_compat_r (x y y' : Q) : y == y' -> Qle_bool x y = Qle_bool x y'.
Proof.
  intros E. apply eq_true_iff_eq. rewrite !Qle_bool_iff. now rewrite E.
Qed.

Lemma insertar_Forall2 (x : Q) (v v' : list Q) :
  Forall2 Qeq v v' -> Forall2 Qeq (insertar x v) (insertar x v').
Proof.
  induction 1 as [|y y' t t' Hy Ht IH]; simpl.
  - constructor; [reflexivity | constructor].
  - rewrite (Qle_bool_compat_r x y y' Hy).
    destruct (Qle_bool x y').
    + constructor; [reflexivity|]. constructor; assumption.
    + constructor; assumption.
Qed.

(** Two insertions commute, up to the equality of rationals. *)
Lemma insertar_conmuta (x y : Q) (v : list Q) :
  Forall2 Qeq (insertar x (insertar y v)) (insertar y (insertar x v)).
Proof.
  assert (Base : forall t : list Q,
             Forall2 Qeq (if Qle_bool x y then x :: y :: t else y :: x :: t)
                         (if Qle_bool y x then y :: x :: t else x :: y :: t)).
  { intros t.
    destruct (Qle_bool x y) eqn:Exy, (Qle_bool y x) eqn:Eyx.
    - apply Qle_bool_iff in Exy. apply Qle_bool_iff in Eyx.
      assert (E : x == y) by (apply Qle_antisym; assumption).
      constructor; [exact E|]. constructor; [now symmetry | apply Forall2_Qeq_refl].
    - apply Forall2_Qeq_refl.
    - apply Forall2_Qeq_refl.
    - exfalso.
      assert (H1 : ~ x <= y) by (rewrite <- Qle_bool_iff; congruence).
      assert (H2 : ~ y <= x) by (rewrite <- Qle_bool_iff; congruence).
      apply H1. apply Qlt_le_weak. now apply Qnot_le_lt. }
  induction v as [|z t IH].
  - simpl. specialize (Base []).
    destruct (Qle_bool x y), (Qle_bool y x); exact Base.
  - simpl.
    destruct (Qle_bool y z) eqn:Eyz, (Qle_bool x z) eqn:Exz; simpl;
      rewrite ?Eyz, ?Exz.
    + specialize (Base (z :: t)).
      destruct (Qle_bool x y), (Qle_bool y x); exact Base.
    + assert (Exy : Qle_bool x y = false).
      { destruct (Qle_bool x y) eqn:E; [|reflexivity]. exfalso.
        apply Qle_bool_iff in E. apply Qle_bool_iff in Eyz.
        assert (H : x <= z) by (eapply Qle_trans; eassumption).
        apply Qle_bool_iff in H. congruence. }
      rewrite Exy. apply Forall2_Qeq_refl.
    + assert (Eyx : Qle_bool y x = false).
      { destruct (Qle_bool y x) eqn:E; [|reflexivity]. exfalso.
        apply Qle_bool_iff in E. apply Qle_bool_iff in Exz.
        assert (H : y <= z) by (eapply Qle_trans; eassumption).
        apply Qle_bool_iff in H. congruence. }
      rewrite Eyx. apply Forall2_Qeq_refl.
    + constructor; [reflexivity | exact IH].
Qed.

(** Sorting forgets the order of the values. *)
Lemma ordenar_perm (l l' : list Q) :
  Permutation l l' -> Forall2 Qeq (ordenar l) (ordenar l').
Proof.
  induction 1 as [|x l l' Hp IH|x y l|l1 l2 l3 H12 IH12 H23 IH23].
  - constructor.
  - simpl. fold (ordenar l) (ordenar l'). now apply insertar_Forall2.
  - simpl. fold (ordenar l). apply insertar_conmuta.
  - eapply Forall2_Qeq_trans; eassumption.
Qed.

Lemma nth_Forall2 (v v' : list Q) (i : nat) :
  Forall2 Qeq v v' -> nth i v 0 == nth i v' 0.
Proof.
  intros H. revert i. induction H as [|a b t t' Hab Ht IH]; intros i.
  - reflexivity.
  - destruct i as [|i]; simpl; [exact Hab | apply IH].
Qed.

Lemma median_perm (l l' : list Q) :
  Permutation l l' -> median l =f= median l'.
Proof.
  intros Hp. pose proof (ordenar_perm _ _ Hp) as HF.
  pose proof (Forall2_length HF) as HL.
  unfold median. cbv zeta. rewrite <- HL.
  destruct (List.length (ordenar l)) as [|k] eqn:Ek; [exact I|].
  destruct (Nat.even (S k)); cbn [Float.eq].
  - rewrite (nth_Forall2 _ _ (S k / 2 - 1) HF), (nth_Forall2 _ _ (S k / 2) HF).
    reflexivity.
  - apply nth_Forall2. exact HF.
Qed.

Lemma quantile_perm (p : Q) (l l' : list Q) :
  Permutation l l' -> quantile p l =f= quantile p l'.
Proof.
  intros Hp. pose proof (ordenar_perm _ _ Hp) as HF.
  pose proof (Forall2_length HF) as HL.
  unfold quantile, interpolar. cbv zeta. rewrite <- HL.
  destruct (List.length (ordenar l)) as [|k]; [exact I|].
  cbn [Float.eq].
  set (h := inject_Z (Z.of_nat (S k - 1)) * p).
  rewrite (nth_Forall2 _ _ (Z.to_nat (Qfloor h)) HF).
  rewrite (nth_Forall2 _ _ (Nat.min (Z.to_nat (Qfloor h) + 1) (S k - 1)) HF).
  reflexivity.
Qed.

Lemma denominador_perm (l l' : list Q) :
  Permutation l l' ->
  Float.add (Float.sub (quantile (3 # 4) l) (quantile (1 # 4) l)) (Fin eps)
  =f= Float.add (Float.sub (quantile (3 # 4) l') (quantile (1 # 4) l')) (Fin eps).
Proof.
  intros Hp. apply add_compat; [|apply feq_refl].
  apply sub_compat; now apply quantile_perm.
Qed.

Lemma termino_hist_perm (w x : Q) (l l' : list Q) :
  Permutation l l' -> termino_hist w x l =f= termino_hist w x l'.
Proof.
  intros Hp. unfold termino_hist.
  apply div_compat; [|now apply denominador_perm].
  apply mul_compat; [apply feq_refl|].
  apply abs_compat, sub_compat; [apply feq_refl | now apply median_perm].
Qed.

Lemma filter_length_perm {A : Type} (f : A -> bool) (l l' : list A) :
  Permutation l l' -> List.length (filter f l) = List.length (filter f l').
Proof.
  induction 1 as [|x l l' Hp IH|x y l|l1 l2 l3 H12 IH12 H23 IH23]; simpl.
  - reflexivity.
  - destruct (f x); simpl; congruence.
  - destruct (f x), (f y); reflexivity.
  - congruence.
Qed.

Lemma mean_bool_perm (l l' : list bool) :
  Permutation l l' -> mean_bool l = mean_bool l'.
Proof.
  intros Hp. unfold mean_bool.
  rewrite (filter_length_perm (fun b => b) l l' Hp), (Permutation_length Hp).
  destruct l as [|b t], l' as [|b' t']; try reflexivity.
  - apply Permutation_nil in Hp. discriminate.
  - apply Permutation_sym, Permutation_nil in Hp. discriminate.
Qed.

Lemma percentil_perm (ctx ctx' : DataFrame) (x x' : num) :
  Permutation ctx ctx' -> x =f= x' -> percentil ctx x = percentil ctx' x'.
Proof.
  intros Hp Hx. unfold percentil, scores_hist. rewrite !map_map.
  transitivity
    (mean_bool
       (map (fun r =>
               Float.ltb
                 (Float.add
                    (Float.add
                       (termino_hist (4 # 10) (r_consumo_kwh r) (map r_consumo_kwh ctx))
                       (termino_hist (35 # 100) (r_agua_litros r) (map r_agua_litros ctx)))
                    (termino_hist (25 # 100) (r_co2_kg r) (map r_co2_kg ctx)))
                 x) ctx')).
  - apply mean_bool_perm. now apply Permutation_map.
  - f_equal. apply map_ext. intros r.
    rewrite (ltb_compat_r _ x x' Hx). apply ltb_compat.
    repeat apply add_compat; apply termino_hist_perm; now apply Permutation_map.
Qed.

Lemma gtb_compat (x x' y : num) : x =f= x' -> Float.gtb x y = Float.gtb x' y.
Proof. intros H. unfold Float.gtb. now apply ltb_compat_r. Qed.

Lemma causas_compat (a a' b b' c c' : num) :
  a =f= a' -> b =f= b' -> c =f= c' -> causas a b c = causas a' b' c'.
Proof.
  intros Ha Hb Hc. unfold causas.
  now rewrite (gtb_compat a a' _ Ha), (gtb_compat b b' _ Hb), (gtb_compat c c' _ Hc).
Qed.

Lemma score_raw_compat (a a' b b' c c' : num) :
  a =f= a' -> b =f= b' -> c =f= c' -> score_raw a b c =f= score_raw a' b' c'.
Proof.
  intros Ha Hb Hc. unfold score_raw.
  repeat apply add_compat; apply mul_compat; try apply feq_refl; assumption.
Qed.

Lemma z_perm (x : num) (l l' : list Q) :
  Permutation l l' ->
  Float.div (Float.abs (Float.sub x (median l)))
            (Float.add (Float.sub (quantile (3 # 4) l) (quantile (1 # 4) l)) (Fin eps))
  =f= Float.div (Float.abs (Float.sub x (median l')))
                (Float.add (Float.sub (quantile (3 # 4) l') (quantile (1 # 4) l'))
                           (Fin eps)).
Proof.
  intros Hp. apply div_compat; [|now apply denominador_perm].
  apply abs_compat, sub_compat; [apply feq_refl | now apply median_perm].
Qed.

(** The order of the rows of the reference table does not matter: two
    tables with the same rows in a different order give the same result to
    [detectar_anomalia_evento], whatever the candidate (a number, NaN,
    [None] or a string): the same dictionary or the same exception. *)
Theorem evento_orden_filas (df df' : DataFrame) (ts : string) (hora : Z)
    (consumo agua co2 : Py.obj) :
  Permutation df df' ->
  detectar_anomalia_evento df ts hora consumo agua co2
  = detectar_anomalia_evento df' ts hora consumo agua co2.
Proof.
  intros Hp.
  assert (Hc : Permutation (contexto df hora) (contexto df' hora)).
  { unfold contexto. clear -Hp.
    induction Hp as [|x l l' Hp IH|x y l|l1 l2 l3 H12 IH12 H23 IH23]; simpl.
    - constructor.
    - destruct (r_hora x =? hora)%Z; [now constructor | exact IH].
    - destruct (r_hora x =? hora)%Z, (r_hora y =? hora)%Z;
        try apply Permutation_refl. apply perm_swap.
    - eapply Permutation_trans; eassumption. }
  unfold detectar_anomalia_evento. cbv zeta.
  rewrite (Permutation_length Hc).
  destruct (List.length (contexto df' hora) <? 50)%nat; [reflexivity|].
  set (ctx := contexto df hora) in *. set (ctx' := contexto df' hora) in *.
  unfold evaluar, score_robusto. cbv zeta.
  destruct consumo as [x| |s]; cbn [Py.sub Py.bind]; try reflexivity.
  destruct agua as [y| |s]; cbn [Py.sub Py.bind]; try reflexivity.
  destruct co2 as [z| |s]; cbn [Py.sub Py.bind]; try reflexivity.
  cbn [l_nivel l_percentil l_score_final l_causas].
  pose proof (z_perm x _ _ (Permutation_map r_consumo_kwh Hc)) as Hx.
  pose proof (z_perm y _ _ (Permutation_map r_agua_litros Hc)) as Hy.
  pose proof (z_perm z _ _ (Permutation_map r_co2_kg Hc)) as Hz.
  pose proof (score_raw_compat _ _ _ _ _ _ Hx Hy Hz) as Hr.
  rewrite (percentil_perm ctx ctx' _ _ Hc Hr).
  rewrite (log1p_compat _ _ Hr).
  rewrite (causas_compat _ _ _ _ _ _ Hx Hy Hz).
  reflexivity.
Qed.

Lemma evento_orden_filas_ejemplo :
  detectar_anomalia_evento (Ejemplos2.pico :: atipica :: historia 50)
      "2025-06-24 12:00" 12 (Py.Float (Fin 30)) (Py.Float (Fin 2600)) (Py.Float (Fin 13))
  = detectar_anomalia_evento (atipica :: Ejemplos2.pico :: historia 50)
      "2025-06-24 12:00" 12 (Py.Float (Fin 30)) (Py.Float (Fin 2600)) (Py.Float (Fin 13)).
Proof.
  apply evento_orden_filas. apply perm_swap.
Defined.

End OrdenFilas.

Section OrdenFilasBatch.

Import Pandas Ejemplos.

Lemma grupo_perm (results results' : DataFrame) (h : Z) :
  Permutation results results' ->
  Permutation (Batch.grupo results h) (Batch.grupo results' h).
Proof.
  unfold Batch.grupo.
  induction 1 as [|x l l' Hp IH|x y l|l1 l2 l3 H12 IH12 H23 IH23]; simpl.
  - constructor.
  - destruct (r_hora x =? h)%Z; [now constructor | exact IH].
  - destruct (r_hora x =? h)%Z, (r_hora y =? h)%Z;
      try apply Permutation_refl. apply perm_swap.
  - eapply Permutation_trans; eassumption.
Qed.

Lemma replace_0_nan_compat (x x' : num) :
  x =f= x' -> Batch.replace_0_nan x =f= Batch.replace_0_nan x'.
Proof.
  destruct x as [a|], x' as [b|]; simpl; try contradiction; auto.
  intros E. rewrite (Qeq_bool_compat a b E).
  destruct (Qeq_bool b 0); [exact I | exact E].
Qed.

Lemma batch_z_perm (var : fila -> Q) (results results' : DataFrame) (r : fila) :
  Permutation results results' ->
  Batch.z var results r =f= Batch.z var results' r.
Proof.
  intros Hp. unfold Batch.z, Batch.iqr. cbv zeta.
  pose proof (Permutation_map var (grupo_perm _ _ (r_hora r) Hp)) as Hs.
  apply div_compat.
  - apply abs_compat, sub_compat; [apply feq_refl | now apply median_perm].
  - apply add_compat; [|apply feq_refl].
    apply replace_0_nan_compat, sub_compat; now apply quantile_perm.
Qed.

Lemma batch_raw_perm (results results' : DataFrame) (r : fila) :
  Permutation results results' ->
  Batch.anomalia_score_raw results r =f= Batch.anomalia_score_raw results' r.
Proof.
  intros Hp. unfold Batch.anomalia_score_raw.
  repeat apply add_compat; (apply mul_compat; [apply feq_refl|]);
    now apply batch_z_perm.
Qed.

Lemma rank_pct_perm (v v' : list Float.real_ext) (x : Float.real_ext) :
  Permutation v v' -> Batch.rank_pct v x = Batch.rank_pct v' x.
Proof.
  intros Hp. unfold Batch.rank_pct. cbv zeta.
  now rewrite (filter_length_perm (fun y => Float.rltb y x) v v' Hp),
              (filter_length_perm (fun y => Float.reqb y x) v v' Hp),
              (filter_length_perm (fun y => negb (Float.r_is_nan y)) v v' Hp).
Qed.

(** The batch columns do not depend on the order of the rows either: for
    two tables with the same rows in a different order, a row gets the same
    raw score (as a rational), the same final score, the same percentile and
    the same tier. *)
Theorem batch_orden_filas (results results' : DataFrame) (r : fila) :
  Permutation results results' ->
  Batch.anomalia_score_raw results r =f= Batch.anomalia_score_raw results' r /\
  Batch.anomalia_score results r = Batch.anomalia_score results' r /\
  Batch.anomalia_percentil results r = Batch.anomalia_percentil results' r /\
  Batch.nivel_anomalia results r = Batch.nivel_anomalia results' r.
Proof.
  intros Hp.
  assert (Hs : forall s : fila,
             Batch.anomalia_score results s = Batch.anomalia_score results' s).
  { intros s. unfold Batch.anomalia_score. apply log1p_compat.
    now apply batch_raw_perm. }
  assert (Hq : Batch.anomalia_percentil results r
               = Batch.anomalia_percentil results' r).
  { unfold Batch.anomalia_percentil. rewrite <- (Hs r).
    rewrite <- (map_ext _ _ Hs (Batch.grupo results' (r_hora r))).
    apply rank_pct_perm, Permutation_map, grupo_perm. exact Hp. }
  split; [now apply batch_raw_perm|]. split; [apply Hs|]. split; [exact Hq|].
  unfold Batch.nivel_anomalia. now rewrite Hq.
Qed.

Lemma batch_orden_filas_ejemplo :
  Batch.nivel_anomalia (Ejemplos2.pico :: atipica :: historia 50) Ejemplos2.pico
  = Batch.nivel_anomalia (atipica :: Ejemplos2.pico :: historia 50) Ejemplos2.pico.
Proof.
  apply (batch_orden_filas (Ejemplos2.pico :: atipica :: historia 50)
                           (atipica :: Ejemplos2.pico :: historia 50)).
  apply perm_swap.
Defined.

End OrdenFilasBatch.
